(** * The S3 assetstore adapter of girder, and the claims of its specification

    A shallow embedding of [girder/utility/s3_assetstore_adapter.py]:
    Python dictionaries with a fixed set of keys become records (a key whose
    presence the code tests becomes an [option] field), exceptions become the
    [Raise] branch of a result type, and the S3 service the adapter talks to
    through boto is an explicit state that every backend call threads. *)

From Stdlib Require Import ZArith String Ascii List Lia Bool.
From stdpp Require Import base tactics option list gmap strings pretty.

Local Open Scope Z_scope.
Local Open Scope string_scope.
Local Open Scope list_scope.

(** ** Python strings *)

Module Py.

(** [s.startswith(p)] *)
Definition startswith (s p : string) : bool := String.prefix p s.

(** [s.endswith(c)] for a one-character [c] *)
Fixpoint endswith (s : string) (c : ascii) : bool :=
  match s with
  | EmptyString => false
  | String a EmptyString => Ascii.eqb a c
  | String _ s' => endswith s' c
  end.

(** [s.split(c)] for a one-character separator *)
Fixpoint split (c : ascii) (s : string) : list string :=
  match s with
  | EmptyString => [EmptyString]
  | String a s' =>
      if Ascii.eqb a c then EmptyString :: split c s'
      else match split c s' with
           | [] => [String a EmptyString]
           | w :: ws => String a w :: ws
           end
  end.

(** [s.rsplit(c, 1)[-1]]: what follows the last [c] *)
Definition rsplit_last (c : ascii) (s : string) : string :=
  List.last (split c s) EmptyString.

(** [s.lstrip(...)] over the characters satisfying [p] *)
Fixpoint lstrip (p : ascii -> bool) (s : string) : string :=
  match s with
  | EmptyString => EmptyString
  | String a s' => if p a then lstrip p s' else s
  end.

(** [s.rstrip(...)] over the characters satisfying [p] *)
Fixpoint rstrip (p : ascii -> bool) (s : string) : string :=
  match s with
  | EmptyString => EmptyString
  | String a s' =>
      match rstrip p s' with
      | EmptyString => if p a then EmptyString else String a EmptyString
      | r => String a r
      end
  end.

Definition is_slash (a : ascii) : bool := Ascii.eqb a "/"%char.

(** [c.isspace()]. The strings of the model are sequences of characters
    below 256; of these Python counts as blanks the tab to the carriage
    return, the separators U+001C to U+001F, the space, U+0085 and U+00A0. *)
Definition isspace (a : ascii) : bool :=
  let n := nat_of_ascii a in
  ((9 <=? n)%nat && (n <=? 13)%nat) || ((28 <=? n)%nat && (n <=? 31)%nat)
  || (n =? 32)%nat || (n =? 133)%nat || (n =? 160)%nat.

(** [s.strip()] *)
Definition strip (s : string) : string :=
  rstrip isspace (lstrip isspace s).

(** [sep.join(filter(None, parts))] *)
Definition join_nonempty (sep : string) (parts : list string) : string :=
  String.concat sep (List.filter (fun p => negb (String.eqb p EmptyString)) parts).

(** [s[i:j]] for [0 <= i <= j] *)
Definition slice (i j : nat) (s : string) : string :=
  String.substring i (j - i) s.

(** [str(n)] for an integer *)
Definition str (n : Z) : string := pretty n.

(** [len(s)] *)
Definition len (s : string) : Z := Z.of_nat (String.length s).

End Py.

(** ** Exceptions and results *)

Inductive Exn : Type :=
| ValidationException (message : string) (field : option string)
| KeyError (key : string)
| Exception (message : string)
| S3ResponseError (reason : string)
| RuntimeError (message : string)
| HTTPRedirect (url : string).

Inductive Result (A : Type) : Type :=
| Return (a : A)
| Raise (e : Exn).
Arguments Return {A} a.
Arguments Raise {A} e.

Definition is_validation_error {A} (r : Result A) : bool :=
  match r with
  | Raise (ValidationException _ _) => true
  | _ => false
  end.

(** [d[k]] on an optional key: a missing key raises [KeyError]. *)
Definition getitem {A} (k : string) (o : option A) : Result A :=
  match o with
  | Some a => Return a
  | None => Raise (KeyError k)
  end.

(** ** Documents *)

Definition Headers := list (string * string).

Record Request := mkRequest {
  method : string;
  url : option string;
  headers : option Headers
}.

(** The [upload['s3']] dictionary. [initUpload] writes [chunked],
    [chunkLength], [relpath], [key] and [request]; the other keys appear as
    chunks arrive. *)
Record S3Info := mkS3Info {
  chunked : bool;
  chunkLength : Z;
  relpath : string;
  key : option string;
  request : option Request;
  uploadId : option string;
  keyName : option string;
  partNumber : option Z
}.

Record Upload := mkUpload {
  name : string;
  mimeType : option string;
  size : Z;
  userId : string;
  received : Z;
  behavior : option string;
  s3 : option S3Info
}.

Definition set_s3 (u : Upload) (i : S3Info) : Upload :=
  mkUpload (name u) (mimeType u) (size u) (userId u) (received u)
           (behavior u) (Some i).

Definition set_received (u : Upload) (n : Z) : Upload :=
  mkUpload (name u) (mimeType u) (size u) (userId u) n (behavior u) (s3 u).

(** The connection parameters [makeBotoConnectParams] builds. *)
Record ConnectParams := mkConnectParams {
  aws_access_key_id : option string;
  aws_secret_access_key : option string;
  anon : option bool;
  is_secure : option bool;
  host : option string;
  port : option Z
}.

Definition no_params : ConnectParams :=
  mkConnectParams None None None None None None.

Record Assetstore := mkAssetstore {
  _id : string;
  prefix : option string;
  bucket : string;
  service : string;
  botoConnect : option ConnectParams
}.

(** [self.assetstore.get('botoConnect', {})] *)
Definition get_botoConnect (a : Assetstore) : ConnectParams :=
  default no_params (botoConnect a).

(** A chunk is either the JSON string a direct-to-S3 client sends (decoded
    here: [json.loads] is outside the model) or a file-like object whose
    bytes girder proxies. *)
Record ClientChunkInfo := mkClientChunkInfo {
  info_partNumber : Z;
  info_s3UploadId : string
}.

Inductive Chunk : Type :=
| ChunkStr (info : ClientChunkInfo)
| ChunkFile (data : string).

(** ** The S3 service behind boto

    A bucket holds its objects and the multipart uploads in progress. S3
    names a new multipart upload itself; the model numbers them. The headers
    sent along with a write are metadata of the object and are not kept. *)

Record MultiPartUpload := mkMultiPartUpload {
  mp_id : string;
  mp_key_name : string;
  mp_parts : list (Z * string)
}.

Record Bucket := mkBucket {
  objects : gmap string string;
  multipart_uploads : list MultiPartUpload;
  initiated : Z
}.

Abbreviation S3 := (gmap string Bucket).

Module Boto.

Definition same_upload (id key_name : string) (mp : MultiPartUpload) : bool :=
  String.eqb (mp_id mp) id && String.eqb (mp_key_name mp) key_name.

(** [bucket.new_key(k).set_contents_from_file(chunk)]; the key's [size]
    afterwards is the number of bytes sent. *)
Definition set_contents_from_file (b : Bucket) (k data : string)
    (headers : Headers) : Bucket * Z :=
  (mkBucket (<[k := data]> (objects b)) (multipart_uploads b) (initiated b),
   Py.len data).

(** [bucket.delete_key(k)] *)
Definition delete_key (b : Bucket) (k : string) : Bucket :=
  mkBucket (delete k (objects b)) (multipart_uploads b) (initiated b).

(** [bucket.initiate_multipart_upload(k)] *)
Definition initiate_multipart_upload (b : Bucket) (k : string)
    (headers : Headers) : Bucket * MultiPartUpload :=
  let mp := mkMultiPartUpload ("upload-" +:+ Py.str (initiated b)) k [] in
  (mkBucket (objects b) (multipart_uploads b ++ [mp]) (initiated b + 1), mp).

(** Parts are kept in the order of their numbers; a part sent again
    replaces the earlier one. *)
Fixpoint insert_part (n : Z) (data : string) (parts : list (Z * string))
  : list (Z * string) :=
  match parts with
  | [] => [(n, data)]
  | (m, d) :: rest =>
      if (n <? m)%Z then (n, data) :: (m, d) :: rest
      else if (n =? m)%Z then (n, data) :: rest
      else (m, d) :: insert_part n data rest
  end.

Definition add_part (n : Z) (data : string) (mp : MultiPartUpload)
  : MultiPartUpload :=
  mkMultiPartUpload (mp_id mp) (mp_key_name mp)
    (insert_part n data (mp_parts mp)).

(** [mp.upload_part_from_file(chunk, n)]: S3 refuses a part for an upload it
    does not know; otherwise the part is stored and its size reported. *)
Definition upload_part_from_file (b : Bucket) (id key_name : string)
    (data : string) (n : Z) (headers : Headers) : Result (Bucket * Z) :=
  if existsb (same_upload id key_name) (multipart_uploads b) then
    Return
      (mkBucket (objects b)
         (List.map (fun mp => if same_upload id key_name mp
                              then add_part n data mp else mp)
                   (multipart_uploads b))
         (initiated b),
       Py.len data)
  else Raise (S3ResponseError "NoSuchUpload").

(** Every part but the last has at least the size S3 wants of a part. *)
Fixpoint parts_sized (minimum : Z) (parts : list (Z * string)) : bool :=
  match parts with
  | [] => true
  | (_, data) :: rest =>
      match rest with
      | [] => true
      | _ :: _ => (minimum <=? Py.len data)%Z && parts_sized minimum rest
      end
  end.

(** [mp.complete_upload()]: the parts become the object. S3 refuses to
    complete an upload that has a part, other than the last, below its
    minimum size; the upload then stays as it is. *)
Definition complete_upload (minimum : Z) (b : Bucket) (id key_name : string)
  : Result (Bucket * unit) :=
  match List.find (same_upload id key_name) (multipart_uploads b) with
  | Some mp =>
      if parts_sized minimum (mp_parts mp) then
        Return
          (mkBucket
             (<[key_name := String.concat "" (List.map snd (mp_parts mp))]>
                (objects b))
             (List.filter (fun mp' => negb (same_upload id key_name mp'))
                (multipart_uploads b))
             (initiated b),
           tt)
      else Raise (S3ResponseError "EntityTooSmall")
  | None => Raise (S3ResponseError "NoSuchUpload")
  end.

(** [multipartUpload.cancel_upload()]: S3 drops the upload of that id and
    key, if it has it. *)
Definition cancel_upload (b : Bucket) (multipartUpload : MultiPartUpload)
  : Bucket :=
  mkBucket (objects b)
    (List.filter
       (fun mp => negb (same_upload (mp_id multipartUpload)
                          (mp_key_name multipartUpload) mp))
       (multipart_uploads b))
    (initiated b).

End Boto.

(** What [bucket.list(prefix, delimiter)] yields. *)
Inductive S3Obj : Type :=
| Prefix (name : string)
| Key (name : string) (size : Z).

Definition obj_name (o : S3Obj) : string :=
  match o with Prefix n => n | Key n _ => n end.

(** The answers of S3 to the successive [get_all_multipart_uploads] calls of
    one enumeration: an error, or a page and the answer to the next call. *)
Inductive MPListing : Type :=
| ListingError
| ListingPage (page : list MultiPartUpload) (is_truncated : bool)
              (next : MPListing).

(** *** Signed URLs

    [BotoCallingFormat] is the adapter's subclass of boto's
    [OrdinaryCallingFormat]: it builds paths without quoting the key. *)

Module BotoCallingFormat.

Definition build_auth_path (bucket : string) (key : string) : string :=
  let path := if String.eqb bucket "" then "" else "/" +:+ bucket in
  path +:+ "/" +:+ key.

Definition build_path_base (bucket : string) (key : string) : string :=
  let path_base := if String.eqb bucket "" then "/" else "/" +:+ bucket +:+ "/" in
  path_base +:+ key.

End BotoCallingFormat.

(** A connection as [botoConnectS3] makes it: the parameters, and whether the
    adapter's calling format was installed. *)
Record Connection := mkConnection {
  conn_params : ConnectParams;
  conn_boto_calling_format : bool
}.

(** ['anon' not in connectParams or not connectParams['anon']]. The source
    turns a failure of [boto.connect_s3] into a ValidationException; the
    constructor only records its parameters and opens no connection, and
    fails on parameters it does not know, which [makeBotoConnectParams] never
    builds: the connection is total on what the adapter passes to it. *)
Definition botoConnectS3 (connectParams : ConnectParams) : Connection :=
  match anon connectParams with
  | Some true => mkConnection connectParams false
  | _ => mkConnection connectParams true
  end.

(** What the adapter is parameterised by: boto's
    [S3Connection.generate_url] and [Bucket.list], the chunks
    [requests.get(url, stream=True).iter_content(...)] delivers, and the
    size the service wants of every part of a multipart upload but the last
    (5 MiB at Amazon; the test of the repository sets that of its moto
    server to 5 bytes). *)
Class Library := {
  generate_url :
    Connection -> forall (expires_in : Z) (method bucket key : string),
    option Headers -> string;
  bucket_list : Bucket -> forall (prefix delimiter : string), list S3Obj;
  iter_content : S3 -> forall (url : string), list string;
  upload_part_min_size : Z
}.

(** A model of boto's query-string authentication, for examples: the URL of
    the resource followed by [Signature], [Expires] and [AWSAccessKeyId],
    where the signature is an HMAC (here [sign]) of the method, the headers,
    the expiry time and the path the calling format builds for
    authentication. An anonymous connection signs nothing. *)
Definition boto_generate_url
    (sign : string -> string -> string -> option Headers -> Z -> string)
    (now : Z) (conn : Connection) (expires_in : Z)
    (method bucket key : string) (headers : option Headers) : string :=
  let p := conn_params conn in
  let expires := now + expires_in in
  let protocol :=
    match is_secure p with Some false => "http" | _ => "https" end in
  let server :=
    default "s3.amazonaws.com" (host p) +:+
    match port p with Some n => ":" +:+ Py.str n | None => "" end in
  if conn_boto_calling_format conn then
    let auth_path := BotoCallingFormat.build_auth_path bucket key in
    protocol +:+ "://" +:+ server +:+ BotoCallingFormat.build_path_base bucket key
      +:+ "?Signature="
      +:+ sign (default "" (aws_secret_access_key p)) method auth_path
              headers expires
      +:+ "&Expires=" +:+ Py.str expires
      +:+ "&AWSAccessKeyId=" +:+ default "" (aws_access_key_id p)
  else
    protocol +:+ "://" +:+ bucket +:+ "." +:+ server +:+ "/" +:+ key.

(** ** Computations against S3 *)

Definition M (A : Type) : Type := S3 -> Result A * S3.

Definition ret {A} (a : A) : M A := fun w => (Return a, w).
Definition raise {A} (e : Exn) : M A := fun w => (Raise e, w).
Definition bind {A B} (m : M A) (k : A -> M B) : M B :=
  fun w =>
    match m w with
    | (Return a, w') => k a w'
    | (Raise e, w') => (Raise e, w')
    end.
Definition lift {A} (r : Result A) : M A := fun w => (r, w).

Declare Scope s3_scope.
Delimit Scope s3_scope with s3.
Notation "x <- m ;; k" := (bind m (fun x => k))
  (at level 100, m at next level, right associativity) : s3_scope.
Notation "m ;;; k" := (bind m (fun _ => k))
  (at level 100, right associativity) : s3_scope.
Local Open Scope s3_scope.

(** ** The adapter *)

Definition CHUNK_LEN : Z := 1024 * 1024 * 32.
Definition HMAC_TTL : Z := 120.

Definition dquote : string := String (ascii_of_nat 34) EmptyString.

(** Truth value of an optional string argument ([None] and [''] are false). *)
Definition truthy (o : option string) : bool :=
  match o with
  | Some s => negb (String.eqb s "")
  | None => false
  end.

(** What [requestOffset] returns: the bytes received so far, or the request
    with which a direct upload is resumed. *)
Inductive Offset : Type :=
| OffsetInt (n : Z)
| OffsetRequest (method : string) (url : string) (headers : Headers) (offset : Z).

Record File := mkFile {
  file_id : Z;
  file_name : string;
  file_size : Z;
  itemId : Z;
  assetstoreId : string;
  file_relpath : option string;
  s3Key : option string;
  s3Verified : option bool;
  imported : option bool;
  s3FinalizeRequest : option Request
}.

Section S3AssetstoreAdapter.

Context `{Library}.
Variable remote_ip : string.
Variable assetstore : Assetstore.

Definition _getRequestHeaders (upload : Upload) : Headers :=
  [ ("Content-Disposition",
     "attachment; filename=" +:+ dquote +:+ name upload +:+ dquote);
    ("Content-Type", default "" (mimeType upload));
    ("x-amz-acl", "private");
    ("x-amz-meta-authorized-length", Py.str (size upload));
    ("x-amz-meta-uploader-id", userId upload);
    ("x-amz-meta-uploader-ip", remote_ip) ].

(** The clause that lets the adapter work with a moto server. *)
Definition moto_clause (queryParams : string) (config : ConnectParams) : bool :=
  String.eqb queryParams "uploads"
  && negb (default true (is_secure config))
  && bool_decide (host config = Some "127.0.0.1").

Definition _botoGenerateUrl (key : string) (method : string)
    (headers : option Headers) (queryParams : option string) : string :=
  let conn := botoConnectS3 (get_botoConnect assetstore) in
  let keyquery :=
    if truthy queryParams then key +:+ "?" +:+ default "" queryParams
    else key in
  let url :=
    generate_url conn HMAC_TTL method (bucket assetstore) keyquery headers in
  if truthy queryParams then
    match Py.split "?" url with
    | [p0; p1; p2] =>
        let config := get_botoConnect assetstore in
        if moto_clause (default "" queryParams) config
        then p0 +:+ "?" +:+ p1
        else p0 +:+ "?" +:+ p1 +:+ "&" +:+ p2
    | _ => url
    end
  else url.

(** [uid] is [uuid.uuid4().hex]. *)
Definition initUpload (uid : string) (upload : Upload) : M Upload :=
  if (size upload <=? 0)%Z then ret upload
  else
    let key :=
      Py.join_nonempty "/"
        [default "" (prefix assetstore); Py.slice 0 2 uid; Py.slice 2 4 uid; uid] in
    let path := "/" +:+ bucket assetstore +:+ "/" +:+ key in
    let headers := _getRequestHeaders upload in
    let chunked := (CHUNK_LEN <? size upload)%Z in
    let method := if chunked then "POST" else "PUT" in
    let queryParams := if chunked then Some "uploads" else None in
    let url := _botoGenerateUrl key method (Some headers) queryParams in
    ret (mkUpload (name upload) (mimeType upload) (size upload)
           (userId upload) (received upload) (Some "s3")
           (Some (mkS3Info chunked CHUNK_LEN path (Some key)
                    (Some (mkRequest method (Some url) (Some headers)))
                    None None None))).

Definition _clientUploadChunk (upload : Upload) (info : ClientChunkInfo)
  : M Upload :=
  let queryStr :=
    "partNumber=" +:+ Py.str (info_partNumber info) +:+
    "&uploadId=" +:+ info_s3UploadId info in
  i <- lift (getitem "s3" (s3 upload)) ;;
  k <- lift (getitem "key" (key i)) ;;
  let url := _botoGenerateUrl k "PUT" None (Some queryStr) in
  ret (set_s3 upload
         (mkS3Info (chunked i) (chunkLength i) (relpath i) (key i)
            (Some (mkRequest "PUT" (Some url) None))
            (Some (info_s3UploadId info)) (keyName i)
            (Some (info_partNumber info)))).

(** [conn.lookup(bucket_name=...)] gives [None] for a bucket S3 does not
    have. *)
Definition _getBucket : M Bucket :=
  fun w =>
    match w !! bucket assetstore with
    | Some b => (Return b, w)
    | None => (Raise (Exception "Could not connect to S3 bucket."), w)
    end.

(** A call on the bucket object: it acts on the bucket S3 holds. *)
Definition on_bucket {A} (op : Bucket -> Result (Bucket * A)) : M A :=
  fun w =>
    match w !! bucket assetstore with
    | Some b =>
        match op b with
        | Return (b', a) => (Return a, <[bucket assetstore := b']> w)
        | Raise e => (Raise e, w)
        end
    | None => (Raise (S3ResponseError "NoSuchBucket"), w)
    end.

Definition _proxiedUploadChunk (upload : Upload) (chunk : string) : M Upload :=
  _getBucket ;;;
  i <- lift (getitem "s3" (s3 upload)) ;;
  if chunked i then
    st <- match uploadId i with
          | Some id =>
              kn <- lift (getitem "keyName" (keyName i)) ;;
              ret (id, kn, i)
          | None =>
              k <- lift (getitem "key" (key i)) ;;
              mp <- on_bucket
                      (fun b => Return (Boto.initiate_multipart_upload b k
                                          (_getRequestHeaders upload))) ;;
              ret (mp_id mp, mp_key_name mp,
                   mkS3Info (chunked i) (chunkLength i) (relpath i) (key i)
                     (request i) (Some (mp_id mp)) (Some (mp_key_name mp))
                     (Some 0))
          end ;;
    let '(id, kn, i) := st in
    n <- lift (getitem "partNumber" (partNumber i)) ;;
    let i := mkS3Info (chunked i) (chunkLength i) (relpath i) (key i)
               (request i) (uploadId i) (keyName i) (Some (n + 1)) in
    key_size <- on_bucket
                  (fun b => Boto.upload_part_from_file b id kn chunk (n + 1)
                              (_getRequestHeaders upload)) ;;
    ret (set_received (set_s3 upload i) (received upload + key_size))
  else
    k <- lift (getitem "key" (key i)) ;;
    key_size <- on_bucket
                  (fun b => Return (Boto.set_contents_from_file b k chunk
                                      (_getRequestHeaders upload))) ;;
    if (key_size <? size upload)%Z then
      on_bucket (fun b => Return (Boto.delete_key b k, tt)) ;;;
      raise (ValidationException
               "Uploads of this length must be sent in a single chunk." None)
    else ret (set_received upload key_size).

Definition uploadChunk (upload : Upload) (chunk : Chunk) : M Upload :=
  match chunk with
  | ChunkStr info => _clientUploadChunk upload info
  | ChunkFile data => _proxiedUploadChunk upload data
  end.

Definition requestOffset (upload : Upload) : Result Offset :=
  if (0 <? received upload)%Z then Return (OffsetInt (received upload))
  else
    match s3 upload with
    | None => Raise (KeyError "s3")
    | Some i =>
        if chunked i then
          Raise (ValidationException
                   ("You should not call requestOffset on a chunked " +:+
                    "direct-to-S3 upload.") None)
        else
          match key i with
          | None => Raise (KeyError "key")
          | Some k =>
              let headers := _getRequestHeaders upload in
              let url := _botoGenerateUrl k "PUT" (Some headers) None in
              Return (OffsetRequest "PUT" url headers 0)
          end
    end.

Definition finalizeUpload (upload : Upload) (file : File) : M File :=
  if (size upload <=? 0)%Z then ret file
  else
    i <- lift (getitem "s3" (s3 upload)) ;;
    k <- lift (getitem "key" (key i)) ;;
    let file :=
      mkFile (file_id file) (file_name file) (file_size file) (itemId file)
        (assetstoreId file) (Some (relpath i)) (Some k) (Some false)
        (imported file) (s3FinalizeRequest file) in
    if chunked i then
      if (0 <? received upload)%Z then
        _getBucket ;;;
        id <- lift (getitem "uploadId" (uploadId i)) ;;
        kn <- lift (getitem "keyName" (keyName i)) ;;
        on_bucket
          (fun b => Boto.complete_upload upload_part_min_size b id kn) ;;;
        ret file
      else
        id <- lift (getitem "uploadId" (uploadId i)) ;;
        let queryStr := "uploadId=" +:+ id in
        let headers := [("Content-Type", "text/plain;charset=UTF-8")] in
        let url := _botoGenerateUrl k "POST" (Some headers) (Some queryStr) in
        ret (mkFile (file_id file) (file_name file) (file_size file)
               (itemId file) (assetstoreId file) (file_relpath file)
               (s3Key file) (s3Verified file) (imported file)
               (Some (mkRequest "POST" (Some url) (Some headers))))
    else ret file.

(** *** Downloads *)

Definition _anonDownloadUrl (key : string) : string :=
  if negb (String.eqb (service assetstore) "") then
    String.concat "/"
      [service assetstore; bucket assetstore; Py.lstrip Py.is_slash key]
  else
    String.concat "/"
      ["https://" +:+ bucket assetstore +:+ ".s3.amazonaws.com";
       Py.lstrip Py.is_slash key].

(** [self.assetstore.get('botoConnect', {}).get('anon') is True] *)
Definition is_anon : bool :=
  bool_decide (anon (get_botoConnect assetstore) = Some true).

Definition urlFn (key : string) : string :=
  if is_anon then _anonDownloadUrl key
  else _botoGenerateUrl key "GET" None None.

(** What [downloadFile] hands back when it does not redirect: the headers
    it has set on the response, and the generator, which runs (against S3
    as it then is) when the caller iterates it. *)
Record Download := mkDownload {
  response_headers : Headers;
  stream : S3 -> Result (list string)
}.

Definition nonempty (s : string) : bool := negb (String.eqb s "").

Definition downloadFile (file : File) (offset : Z) (headers : bool)
  : Result Download :=
  if headers then
    if (0 <? file_size file)%Z then
      match s3Key file with
      | Some k => Raise (HTTPRedirect (urlFn k))
      | None => Raise (KeyError "s3Key")
      end
    else
      Return
        (mkDownload
           [ ("Content-Length", "0");
             ("Content-Type", "application/octet-stream");
             ("Content-Disposition",
              "attachment; filename=" +:+ dquote +:+ file_name file +:+ dquote) ]
           (fun _ => Return [""]))
  else
    Return
      (mkDownload []
         (fun w =>
            if (0 <? file_size file)%Z then
              match s3Key file with
              | Some k =>
                  Return (List.filter nonempty (iter_content w (urlFn k)))
              | None => Raise (KeyError "s3Key")
              end
            else Return [""])).

(** *** Deletion *)

(** The payload of the [_s3_assetstore_delete_file] trigger. *)
Record DeleteEvent := mkDeleteEvent {
  ev_botoConnect : ConnectParams;
  ev_bucket : string;
  ev_key : string
}.

Definition matches_query (relpath assetstoreId' : string) (f : File) : bool :=
  bool_decide (file_relpath f = Some relpath)
  && String.eqb (assetstoreId f) assetstoreId'.

(** [self.model('file').find(q, limit=limit, fields=[])] over the File
    collection, and [cursor.count(True)], which honours the limit. *)
Definition find (coll : list File) (relpath assetstoreId' : string)
    (limit : nat) : list File :=
  List.firstn limit (List.filter (matches_query relpath assetstoreId') coll).

Definition count (cursor : list File) : Z := Z.of_nat (List.length cursor).

(** The File collection is read; the triggers enqueued on [events.daemon]
    are returned. *)
Definition deleteFile (coll : list File) (file : File)
  : Result (list (string * DeleteEvent)) :=
  if (0 <? file_size file)%Z then
    match file_relpath file with
    | Some rp =>
        let matching := find coll rp (_id assetstore) 2 in
        if (count matching =? 1)%Z then
          match s3Key file with
          | Some k =>
              Return
                [("_s3_assetstore_delete_file",
                  mkDeleteEvent (get_botoConnect assetstore)
                    (bucket assetstore) k)]
          | None => Raise (KeyError "s3Key")
          end
        else Return []
    | None => Return []
    end
  else Return [].

(** *** Orphaned multipart uploads *)

Fixpoint _uploadIsKnown (multipartUpload : MultiPartUpload)
    (knownUploads : list Upload) : bool :=
  match knownUploads with
  | [] => false
  | upload :: rest =>
      match s3 upload with
      | Some i =>
          match uploadId i, key i with
          | Some id, Some k =>
              if String.eqb (mp_id multipartUpload) id
                 && String.eqb (mp_key_name multipartUpload) k
              then true
              else _uploadIsKnown multipartUpload rest
          | _, _ => _uploadIsKnown multipartUpload rest
          end
      | None => _uploadIsKnown multipartUpload rest
      end
  end.

(** The [{'s3': {'uploadId': ..., 'key': ...}}] entries of the result. *)
Record Untracked := mkUntracked {
  untracked_uploadId : string;
  untracked_key : string
}.

(** What one enumeration has done so far: the list it will return and the
    uploads on which it has called [cancel_upload]. *)
Record Sweep := mkSweep {
  untrackedList : list Untracked;
  cancelled : list MultiPartUpload
}.

(** The [for] loop over one page. *)
Fixpoint sweep_page (prefix : string) (knownUploads : list Upload)
    (delete : bool) (page : list MultiPartUpload) (acc : Sweep) : Sweep :=
  match page with
  | [] => acc
  | multipartUpload :: rest =>
      if _uploadIsKnown multipartUpload knownUploads then
        sweep_page prefix knownUploads delete rest acc
      else if negb (Py.startswith (mp_key_name multipartUpload) prefix) then
        sweep_page prefix knownUploads delete rest acc
      else
        let unknown :=
          mkUntracked (mp_id multipartUpload) (mp_key_name multipartUpload) in
        sweep_page prefix knownUploads delete rest
          (mkSweep (untrackedList acc ++ [unknown])
             (if delete then cancelled acc ++ [multipartUpload]
              else cancelled acc))
  end.

(** The [while True] loop over the pages. *)
Fixpoint sweep (prefix : string) (knownUploads : list Upload)
    (delete : bool) (listing : MPListing) (acc : Sweep) : Sweep :=
  match listing with
  | ListingError => acc
  | ListingPage page is_truncated next =>
      if (List.length page =? 0)%nat then acc
      else
        let acc := sweep_page prefix knownUploads delete page acc in
        if negb is_truncated then acc
        else sweep prefix knownUploads delete next acc
  end.

(** [listing] is what S3 answers to the enumeration of multipart uploads.
    The loop is run on these answers; the uploads it has called
    [cancel_upload] on are then dropped from the bucket. *)
Definition untrackedUploads (listing : MPListing)
    (knownUploads : list Upload) (delete : bool) : M Sweep :=
  let prefix := default "" (prefix assetstore) in
  let prefix := if negb (String.eqb prefix "") then prefix +:+ "/" else prefix in
  _getBucket ;;;
  let done := sweep prefix knownUploads delete listing (mkSweep [] []) in
  on_bucket
    (fun b => Return (List.fold_left Boto.cancel_upload (cancelled done) b,
                      tt)) ;;;
  ret done.

(** *** The metadata tree *)

Record Folder := mkFolder {
  folder_id : Z;
  folder_parentId : Z;
  folder_parentCollection : string;
  folder_name : string;
  folder_creatorId : string
}.

Record Item := mkItem {
  item_id : Z;
  item_folderId : Z;
  item_name : string;
  item_creatorId : string
}.

(** The Folder, Item and File collections, the next fresh id, and the
    messages the progress sink has been given. *)
Record Store := mkStore {
  folders : list Folder;
  items : list Item;
  files : list File;
  next_id : Z;
  progress_messages : list string
}.

Definition same_folder (parentId : Z) (parentType name : string)
    (f : Folder) : bool :=
  (folder_parentId f =? parentId)%Z
  && String.eqb (folder_parentCollection f) parentType
  && String.eqb (folder_name f) name.

Definition same_item (folderId : Z) (name : string) (i : Item) : bool :=
  (item_folderId i =? folderId)%Z && String.eqb (item_name i) name.

Definition same_file (itemId' : Z) (name : string) (f : File) : bool :=
  (itemId f =? itemId')%Z && String.eqb (file_name f) name.

(** Modelled from the spec: [createFolder(..., reuseExisting=True)] of the
    folder model, which is not under src/. A folder of that name under that
    parent is reused if one exists; otherwise one is created. *)
Definition createFolder (parentId : Z) (name parentType creator : string)
    (st : Store) : Folder * Store :=
  match List.find (same_folder parentId parentType name) (folders st) with
  | Some existing => (existing, st)
  | None =>
      let folder := mkFolder (next_id st) parentId parentType name creator in
      (folder,
       mkStore (folders st ++ [folder]) (items st) (files st)
         (next_id st + 1) (progress_messages st))
  end.

(** Modelled from the spec: [createItem(..., reuseExisting=True)] of the
    item model, which is not under src/. An item of that name in that folder
    is reused if one exists; otherwise one is created. *)
Definition createItem (name creator : string) (folderId : Z) (st : Store)
  : Item * Store :=
  match List.find (same_item folderId name) (items st) with
  | Some existing => (existing, st)
  | None =>
      let item := mkItem (next_id st) folderId name creator in
      (item,
       mkStore (folders st) (items st ++ [item]) (files st)
         (next_id st + 1) (progress_messages st))
  end.

(** Modelled from the spec: [createFile(..., reuseExisting=True)] of the
    file model, which is not under src/. A file of that name in that item is
    reused if one exists; otherwise one is created, with no locator. *)
Definition createFile (name creator : string) (item : Item)
    (size : Z) (st : Store) : File * Store :=
  match List.find (same_file (item_id item) name) (files st) with
  | Some existing => (existing, st)
  | None =>
      let file :=
        mkFile (next_id st) name size (item_id item) (_id assetstore)
          None None None None None in
      (file,
       mkStore (folders st) (items st) (files st ++ [file])
         (next_id st + 1) (progress_messages st))
  end.

(** Modelled from the spec: [save] of the file model, which is not under
    src/: the document with the file's id is replaced. *)
Definition save (file : File) (st : Store) : Store :=
  mkStore (folders st) (items st)
    (List.map (fun f => if (file_id f =? file_id file)%Z then file else f)
       (files st))
    (next_id st) (progress_messages st).

Definition update (message : string) (st : Store) : Store :=
  mkStore (folders st) (items st) (files st) (next_id st)
    (progress_messages st ++ [message]).

(** *** Import *)

(** [file['s3Key'] = obj.name; file['imported'] = True] *)
Definition as_reference (file : File) (obj_name : string) : File :=
  mkFile (file_id file) (file_name file) (file_size file) (itemId file)
    (assetstoreId file) (file_relpath file) (Some obj_name)
    (s3Verified file) (Some true) (s3FinalizeRequest file).

(** The body of the [for obj in bucket.list(importPath, '/')] loop, for one
    object; [rec] is the recursive call. A [continue] returns. *)
Definition import_object
    (rec : Z -> string -> Store -> Result unit * Store)
    (parent : Z) (parentType : string) (progress : bool) (user : string)
    (obj : S3Obj) (st : Store) : Result unit * Store :=
  let st := if progress then update (obj_name obj) st else st in
  match obj with
  | Prefix obj_name =>
      let name := Py.rsplit_last "/" (Py.rstrip Py.is_slash obj_name) in
      let '(folder, st) := createFolder parent name parentType user st in
      rec (folder_id folder) obj_name st
  | Key obj_name obj_size =>
      let name := Py.rsplit_last "/" obj_name in
      if String.eqb name "" then (Return tt, st)
      else if negb (String.eqb parentType "folder") then
        (Raise (ValidationException
                  ("Keys cannot be imported directly underneath a "
                   +:+ parentType +:+ ".") None), st)
      else
        let '(item, st) := createItem name user parent st in
        let '(file, st) := createFile name user item obj_size st in
        (Return tt, save (as_reference file obj_name) st)
  end.

(** The loop: an exception in the body ends it. *)
Fixpoint import_objects
    (rec : Z -> string -> Store -> Result unit * Store)
    (parent : Z) (parentType : string) (progress : bool) (user : string)
    (objs : list S3Obj) (st : Store) : Result unit * Store :=
  match objs with
  | [] => (Return tt, st)
  | obj :: rest =>
      match import_object rec parent parentType progress user obj st with
      | (Return _, st) =>
          import_objects rec parent parentType progress user rest st
      | (Raise e, st) => (Raise e, st)
      end
  end.

(** [depth] is the number of nested calls the interpreter still allows:
    Python ends a recursion that goes deeper with a [RuntimeError]. [w] is
    S3, read when no bucket is passed. *)
Fixpoint importData (depth : nat) (w : S3) (parent : Z) (parentType : string)
    (importPath : string) (progress : bool) (user : string)
    (bucket : option Bucket) (st : Store) : Result unit * Store :=
  match depth with
  | O => (Raise (RuntimeError "maximum recursion depth exceeded"), st)
  | S depth' =>
      let importPath := Py.lstrip Py.is_slash (Py.strip importPath) in
      let importPath :=
        if negb (String.eqb importPath "") && negb (Py.endswith importPath "/")
        then importPath +:+ "/" else importPath in
      match (match bucket with
             | None => fst (_getBucket w)
             | Some b => Return b
             end) with
      | Raise e => (Raise e, st)
      | Return b =>
          import_objects
            (fun folder path st' =>
               importData depth' w folder "folder" path progress user
                 (Some b) st')
            parent parentType progress user
            (bucket_list b importPath "/") st
      end
  end.

(** ** Upload sessions *)

(** One upload session: the Upload document and the S3 service its chunks
    are written to. *)
Record Session := mkSession {
  session_upload : Upload;
  session_s3 : S3
}.

(** One [uploadChunk] operation on a session: the document the adapter
    returns is the session's new document; when the adapter raises, the
    document stays and what was done to S3 remains. *)
Definition session_uploadChunk (st : Session) (chunk : Chunk) : Session :=
  match uploadChunk (session_upload st) chunk (session_s3 st) with
  | (Return upload, w) => mkSession upload w
  | (Raise _, w) => mkSession (session_upload st) w
  end.

(** The sessions along a sequence of [uploadChunk] operations, the first
    being the session they start from. *)
Fixpoint uploadChunks (st : Session) (chunks : list Chunk) : list Session :=
  match chunks with
  | [] => [st]
  | chunk :: rest => st :: uploadChunks (session_uploadChunk st chunk) rest
  end.

(** A chunk fits an upload when it is a client chunk, or carries no more
    bytes than the upload still expects. *)
Definition fits (upload : Upload) (chunk : Chunk) : Prop :=
  match chunk with
  | ChunkStr _ => True
  | ChunkFile data => Py.len data <= size upload - received upload
  end.

(** Every chunk of a sequence fits the upload as it is when the chunk is
    sent. *)
Fixpoint all_fit (st : Session) (chunks : list Chunk) : Prop :=
  match chunks with
  | [] => True
  | chunk :: rest =>
      fits (session_upload st) chunk /\
      all_fit (session_uploadChunk st chunk) rest
  end.

(** *** The upload session manager *)

(** Modelled from the spec: the guards of the Upload Session Manager on a
    chunk (girder's upload model and REST layer are not under src/). The
    claimed offset must equal [received]; the bytes of a proxied chunk must
    not exceed what is still expected, nor fall below the configured minimum
    unless the chunk completes the file. *)
Definition checkChunk (minimum_chunk_size : Z) (upload : Upload)
    (offset : Z) (chunk : Chunk) : Result unit :=
  if negb (offset =? received upload)%Z then
    Raise (ValidationException
             ("Server has received " +:+ Py.str (received upload) +:+
              " bytes, but client sent offset " +:+ Py.str offset +:+ ".")
             None)
  else
    match chunk with
    | ChunkStr _ => Return tt
    | ChunkFile data =>
        if (size upload - received upload <? Py.len data)%Z then
          Raise (ValidationException "Received too many bytes." None)
        else if (received upload + Py.len data <? size upload)%Z
                && (Py.len data <? minimum_chunk_size)%Z then
          Raise (ValidationException
                   "Chunk is smaller than the minimum size." None)
        else Return tt
    end.

(** Modelled from the spec: the Upload Session Manager handling one chunk
    (not under src/). A chunk that passes the guards is forwarded to the
    adapter, and the Upload document is saved only if the adapter returns;
    a failure leaves the saved document as it was. *)
Definition submitChunk (minimum_chunk_size : Z) (st : Session)
    (offset : Z) (chunk : Chunk) : Result Upload * Session :=
  match checkChunk minimum_chunk_size (session_upload st) offset chunk with
  | Raise e => (Raise e, st)
  | Return _ =>
      match uploadChunk (session_upload st) chunk (session_s3 st) with
      | (Return upload, w) => (Return upload, mkSession upload w)
      | (Raise e, w) => (Raise e, mkSession (session_upload st) w)
      end
  end.

(** The sessions after each of a sequence of chunk submissions, the first
    being the session they start from. *)
Fixpoint submitChunks (minimum_chunk_size : Z) (st : Session)
    (chunks : list (Z * Chunk)) : list Session :=
  match chunks with
  | [] => [st]
  | (offset, chunk) :: rest =>
      st :: submitChunks minimum_chunk_size
              (snd (submitChunk minimum_chunk_size st offset chunk)) rest
  end.

End S3AssetstoreAdapter.

(** ** A library instance for the examples

    boto's query-string authentication as modelled above, with a checksum in
    place of the HMAC and the clock at a fixed instant; a listing and a
    response read from tables. *)

Fixpoint checksum (s : string) : Z :=
  match s with
  | EmptyString => 0
  | String a s' => Z.of_nat (nat_of_ascii a) + checksum s'
  end.

Definition example_sign (secret method path : string)
    (headers : option Headers) (expires : Z) : string :=
  "sig" +:+ Py.str (checksum (secret +:+ method +:+ path) + expires).

Definition example_library (now : Z)
    (listing : list (string * list S3Obj))
    (responses : list (string * list string)) : Library :=
  {| generate_url := boto_generate_url example_sign now;
     bucket_list := fun _ p _ =>
       default [] (snd <$> List.find (fun e => String.eqb (fst e) p) listing);
     iter_content := fun _ u =>
       default [] (snd <$> List.find (fun e => String.eqb (fst e) u) responses);
     upload_part_min_size := 5 * 1024 * 1024 |}.

Definition example_assetstore : Assetstore :=
  mkAssetstore "as1" (Some "test") "b" ""
    (Some (mkConnectParams (Some "access") (Some "secret") None None None None)).

Definition empty_bucket : Bucket := mkBucket ∅ [] 0.

Definition example_s3 : S3 := {[ "b" := empty_bucket ]}.

Definition example_upload (size : Z) : Upload :=
  mkUpload "hello.txt" (Some "text/plain") size "user1" 0 None None.

Definition example_lib : Library := example_library 1000 [] [].

(** The Upload document of a new session: [received] is 0 and the adapter
    has initialised it. *)
Definition new_upload (size : Z) : Upload :=
  match fst (@initUpload example_lib "10.0.0.1" example_assetstore
               "0123456789abcdef" (example_upload size) example_s3) with
  | Return upload => upload
  | Raise _ => example_upload size
  end.

Definition new_session (size : Z) : Session :=
  mkSession (new_upload size) example_s3.

Definition GiB : Z := 1024 * 1024 * 1024.

(** A 5 GiB upload after girder has proxied a first chunk of six bytes. *)
Definition proxied_upload : Upload :=
  match fst (@uploadChunk example_lib "10.0.0.1" example_assetstore
               (new_upload (5 * GiB)) (ChunkFile "hello ") example_s3) with
  | Return upload => upload
  | Raise _ => new_upload (5 * GiB)
  end.

Definition s3_of (upload : Upload) : S3Info :=
  default (mkS3Info false 0 "" None None None None None) (s3 upload).

Definition example_listing : MPListing :=
  ListingPage
    [ mkMultiPartUpload "id1" "test/ab/cd/abcd1" [];
      mkMultiPartUpload "id2" "other/ab/cd/abcd2" [] ] true
    (ListingPage [ mkMultiPartUpload "id3" "test/ef/gh/efgh3" [] ] false
       ListingError).

Definition example_known : list Upload :=
  [ mkUpload "a.txt" None (5 * GiB) "user1" 0 (Some "s3")
      (Some (mkS3Info true CHUNK_LEN "/b/test/ef/gh/efgh3"
               (Some "test/ef/gh/efgh3") None (Some "id3") None (Some 1))) ].

(** A second assetstore in the same bucket, whose prefix extends that of
    the first, one of its multipart uploads, and an assetstore without a
    prefix. *)
Definition sub_assetstore : Assetstore :=
  mkAssetstore "as4" (Some "test/sub") "b" ""
    (Some (mkConnectParams (Some "access") (Some "secret") None None None None)).

Definition sub_upload : MultiPartUpload :=
  mkMultiPartUpload "id7" "test/sub/ab/cd/abcd7" [].

Definition bare_assetstore : Assetstore :=
  mkAssetstore "as5" None "b" ""
    (Some (mkConnectParams (Some "access") (Some "secret") None None None None)).

(** An empty file that carries a locator, and an imported file that carries
    one. *)
Definition empty_located_file : File :=
  mkFile 1 "a.txt" 0 10 "as1" (Some "/b/test/01/23/0123")
    (Some "test/01/23/0123") (Some false) None None.

Definition imported_located_file : File :=
  mkFile 2 "b.txt" 4 10 "as1" (Some "/b/test/45/67/4567")
    (Some "foo/bar/b.txt") (Some false) (Some true) None.

Definition uploaded_file : File :=
  mkFile 3 "c.txt" 4 10 "as1" (Some "/b/test/89/ab/89ab")
    (Some "test/89/ab/89ab") (Some false) None None.

Definition example_url : string :=
  @urlFn example_lib example_assetstore "test/89/ab/89ab".

Definition download_lib : Library :=
  example_library 1000 [] [(example_url, ["te"; ""; "st"])].

Definition empty_file : File :=
  mkFile 4 "empty.txt" 0 10 "as1" None None None None None.

(** An assetstore on a local test server, as the moto clause expects it. *)
Definition moto_assetstore : Assetstore :=
  mkAssetstore "as2" (Some "test") "b" "http://127.0.0.1:5000"
    (Some (mkConnectParams (Some "access") (Some "secret") None (Some false)
             (Some "127.0.0.1") (Some 5000))).

(** The bucket of the assetstore test: one object, [foo/bar/test]. *)
Definition test_listing : list (string * list S3Obj) :=
  [ ("", [Prefix "foo/"]);
    ("foo/", [Prefix "foo/bar/"]);
    ("foo/bar/", [Key "foo/bar/test" 0]) ].

Definition import_lib : Library := example_library 1000 test_listing [].

(** A folder to import into. *)
Definition import_store : Store :=
  mkStore [mkFolder 1 0 "user" "import" "admin"] [] [] 2 [].

(** The same tree after an upload: the folders foo and bar exist, and the
    item test holds a file uploaded through the adapter. *)
Definition uploaded_store : Store :=
  mkStore
    [ mkFolder 1 0 "user" "import" "admin";
      mkFolder 2 1 "folder" "foo" "admin";
      mkFolder 3 2 "folder" "bar" "admin" ]
    [ mkItem 4 3 "test" "admin" ]
    [ mkFile 5 "test" 4 4 "as1" (Some "/b/test/89/ab/89ab")
        (Some "test/89/ab/89ab") (Some false) None None ]
    6 [].

(** ** What the theorems are stated with *)

(** The multipart uploads on the pages one enumeration reads: it stops at an
    error, at an empty page and after a page that is not truncated. *)
Fixpoint visited (listing : MPListing) : list MultiPartUpload :=
  match listing with
  | ListingError => []
  | ListingPage page is_truncated next =>
      if (List.length page =? 0)%nat then []
      else if negb is_truncated then page
      else page ++ visited next
  end.

(** The prefix [untrackedUploads] compares key names with. *)
Definition sweep_prefix (assetstore : Assetstore) : string :=
  let prefix := default "" (prefix assetstore) in
  if negb (String.eqb prefix "") then prefix +:+ "/" else prefix.

(** An upload of the known list that carries this upload id and this key. *)
Definition known_as (multipartUpload : MultiPartUpload) (upload : Upload)
  : Prop :=
  exists i, s3 upload = Some i /\
            uploadId i = Some (mp_id multipartUpload) /\
            key i = Some (mp_key_name multipartUpload).

Definition untracked_of (multipartUpload : MultiPartUpload) : Untracked :=
  mkUntracked (mp_id multipartUpload) (mp_key_name multipartUpload).

(** The multipart uploads an enumeration reports: not known, and under the
    prefix. *)
Definition orphan (prefix : string) (knownUploads : list Upload)
    (multipartUpload : MultiPartUpload) : bool :=
  negb (_uploadIsKnown multipartUpload knownUploads)
  && Py.startswith (mp_key_name multipartUpload) prefix.

(** The multipart uploads one enumeration reports. *)
Definition reported (assetstore : Assetstore) (knownUploads : list Upload)
    (listing : MPListing) : list MultiPartUpload :=
  List.filter (orphan (sweep_prefix assetstore) knownUploads)
    (visited listing).

(** Whether one of the uploads [cancel_upload] was called on has the id and
    the key of this upload. *)
Definition cancelled_in (l : list MultiPartUpload)
    (multipartUpload : MultiPartUpload) : bool :=
  existsb
    (fun mp => Boto.same_upload (mp_id mp) (mp_key_name mp) multipartUpload)
    l.

(** The triggers a call has enqueued; a call that raises has enqueued none. *)
Definition triggers (r : Result (list (string * DeleteEvent)))
  : list (string * DeleteEvent) :=
  match r with
  | Return l => l
  | Raise _ => []
  end.

(** The File records of a collection that have this relpath in this
    assetstore. *)
Definition sharing (coll : list File) (relpath assetstoreId' : string)
  : list File :=
  List.filter (matches_query relpath assetstoreId') coll.

(** The bytes of a stream. *)
Definition stream_bytes (chunks : list string) : string :=
  String.concat "" chunks.

(** The headers a call has set on the response, and what its stream yields. *)
Definition headers_set (r : Result Download) : option Headers :=
  match r with
  | Return d => Some (response_headers d)
  | Raise _ => None
  end.

Definition streamed (r : Result Download) (w : S3) : option (list string) :=
  match r with
  | Return d =>
      match stream d w with
      | Return chunks => Some chunks
      | Raise _ => None
      end
  | Raise _ => None
  end.

(** Whether a character occurs in a string. *)
Fixpoint contains (c : ascii) (s : string) : bool :=
  match s with
  | EmptyString => false
  | String a s' => Ascii.eqb a c || contains c s'
  end.

(** *** Stores before and after an import *)

(** What identifies a File record: its id, its item and its name. *)
Definition file_key (f : File) : Z * Z * string :=
  (file_id f, itemId f, file_name f).

(** File ids are distinct and below the next fresh id, as a document store
    keeps them. *)
Definition wf (s : Store) : Prop :=
  NoDup (map file_id (files s)) /\
  Forall (fun f => file_id f < next_id s) (files s).

(** [t] has the records of [s], in front and in the same order. *)
Definition extends (t s : Store) : Prop :=
  (exists fs, folders t = folders s ++ fs) /\
  (exists its, items t = items s ++ its) /\
  (exists ks, map file_key (files t) = map file_key (files s) ++ ks).

(** [t'] has the folders, the items and the File records of [t], and no
    other: nothing was created. *)
Definition same_records (t' t : Store) : Prop :=
  folders t' = folders t /\ items t' = items t /\
  map file_key (files t') = map file_key (files t) /\
  next_id t' = next_id t.

(** Every File record of [s'] is a record of [s] or is marked as a reference:
    [imported] is true, an S3 key is set, and the relpath is that of the
    record of [s] it was, or none if it is new. *)
Definition marked (s s' : Store) : Prop :=
  forall f', In f' (files s') ->
    In f' (files s) \/
    (imported f' = Some true /\ is_Some (s3Key f') /\
     (file_relpath f' = None \/
      exists f, In f (files s) /\ file_id f = file_id f' /\
                file_relpath f' = file_relpath f)).

Definition Run : Type := Store -> Result unit * Store.

Definition in_bounds (st : Session) : Prop :=
  0 <= received (session_upload st) <= size (session_upload st).

(** The progress sink does not touch the collections. *)
Definition same_collections (s' s : Store) : Prop :=
  folders s' = folders s /\ items s' = items s /\ files s' = files s /\
  next_id s' = next_id s.

(** Whether a File record is the one looked for depends on its key only. *)
Definition key_matches (itemId' : Z) (name : string)
    (k : Z * Z * string) : bool :=
  (snd (fst k) =? itemId')%Z && String.eqb (snd k) name.

(** A run keeps the store well formed, only adds records, marks the File
    records it touches, and, started again from any store that has the
    records it left, ends the same way and creates nothing. *)
Definition run_ok (run : Run) : Prop :=
  forall s r s', wf s -> run s = (r, s') ->
    wf s' /\ extends s' s /\ marked s s' /\
    forall t, wf t -> extends t s' ->
      exists t', run t = (r, t') /\ same_records t' t.

(** The bucket [importData] lists: the one it is given, or the one of the
    assetstore. *)
Definition bucket_used (assetstore : Assetstore) (w : S3)
    (bucket : option Bucket) : Result Bucket :=
  match bucket with
  | Some b => Return b
  | None => fst (_getBucket assetstore w)
  end.

(** The path [importData] lists: the given one without the blanks around it
    and the slashes before it, and with a slash after it unless it is
    empty. *)
Definition listed_path (importPath : string) : string :=
  let importPath := Py.lstrip Py.is_slash (Py.strip importPath) in
  if negb (String.eqb importPath "") && negb (Py.endswith importPath "/")
  then importPath +:+ "/" else importPath.

(** The names of the keys an import walks over, down to the depth the
    interpreter allows: those of the path that have a last segment, and
    those under its prefixes. *)
Fixpoint walk_keys `{Library} (depth : nat) (b : Bucket) (importPath : string)
  : list string :=
  match depth with
  | O => []
  | S depth' =>
      List.flat_map
        (fun obj =>
           match obj with
           | Prefix name => walk_keys depth' b name
           | Key name _ =>
               if String.eqb (Py.rsplit_last "/" name) "" then []
               else [name]
           end)
        (bucket_list b (listed_path importPath) "/")
  end.

(** The store has a File record for the key of that name: it has the last
    segment of the name as its name, is marked imported and has an S3 key. *)
Definition has_reference (s : Store) (name : string) : Prop :=
  exists f, In f (files s) /\ file_name f = Py.rsplit_last "/" name /\
            imported f = Some true /\ is_Some (s3Key f).

(** ** The rest of the adapter *)

Section Cleanup.

Variable assetstore : Assetstore.

(** [key = bucket.get_key(k, validate=True); if key: bucket.delete_key(key)] *)
Definition delete_if_present (k : string) (b : Bucket) : Bucket :=
  match objects b !! k with
  | Some _ => Boto.delete_key b k
  | None => b
  end.

(** The [for] loop of [cancelUpload] over one page; the uploads cancelled are
    collected. *)
Fixpoint cancel_page (uploadId' key' : string) (page : list MultiPartUpload)
    (cancelled : list MultiPartUpload) : list MultiPartUpload :=
  match page with
  | [] => cancelled
  | multipartUpload :: rest =>
      if String.eqb (mp_id multipartUpload) uploadId'
         && String.eqb (mp_key_name multipartUpload) key'
      then cancel_page uploadId' key' rest (cancelled ++ [multipartUpload])
      else cancel_page uploadId' key' rest cancelled
  end.

(** The [while True] loop of [cancelUpload] over the pages. *)
Fixpoint cancel_pages (uploadId' key' : string) (listing : MPListing)
    (cancelled : list MultiPartUpload) : list MultiPartUpload :=
  match listing with
  | ListingError => cancelled
  | ListingPage page is_truncated next =>
      if (List.length page =? 0)%nat then cancelled
      else
        let cancelled := cancel_page uploadId' key' page cancelled in
        if negb is_truncated then cancelled
        else cancel_pages uploadId' key' next cancelled
  end.

(** [listing] is what S3 answers to the enumeration of multipart uploads.
    The uploads on which [cancel_upload] was called are returned, and they
    are dropped from the bucket. *)
Definition cancelUpload (listing : MPListing) (upload : Upload)
  : M (list MultiPartUpload) :=
  match s3 upload with
  | None => ret []
  | Some i =>
      match key i with
      | None => ret []
      | Some k =>
          _getBucket assetstore ;;;
          on_bucket assetstore
            (fun b => Return (delete_if_present k b, tt)) ;;;
          match uploadId i with
          | Some id =>
              let cancelled := cancel_pages id k listing [] in
              on_bucket assetstore
                (fun b =>
                   Return (List.fold_left Boto.cancel_upload cancelled b,
                           tt)) ;;;
              ret cancelled
          | None => ret []
          end
      end
  end.

End Cleanup.

(** The handler of the [_s3_assetstore_delete_file] trigger. The bucket is
    looked up without validation, and [get_key] gives [None] for a key, or a
    bucket, that S3 does not have. *)
Definition _deleteFileImpl (info : DeleteEvent) : M unit :=
  fun w =>
    match w !! ev_bucket info with
    | Some b =>
        match objects b !! ev_key info with
        | Some _ =>
            (Return tt,
             <[ev_bucket info := Boto.delete_key b (ev_key info)]> w)
        | None => (Return tt, w)
        end
    | None => (Return tt, w)
    end.

(** The session after a sequence of [uploadChunk] operations. *)
Definition session_after `{Library} (remote_ip : string)
    (assetstore : Assetstore) (st : Session) (chunks : list Chunk) : Session :=
  List.fold_left (session_uploadChunk remote_ip assetstore) chunks st.

(** The parts of a multipart upload whose chunks were sent in order, the
    first as part [n]. *)
Fixpoint numbered (n : Z) (chunks : list string) : list (Z * string) :=
  match chunks with
  | [] => []
  | c :: rest => (n, c) :: numbered (n + 1) rest
  end.

(** Every chunk but the last has at least the size S3 wants of a part. *)
Fixpoint chunks_sized (minimum : Z) (chunks : list string) : bool :=
  match chunks with
  | [] => true
  | c :: rest =>
      match rest with
      | [] => true
      | _ :: _ => (minimum <=? Py.len c)%Z && chunks_sized minimum rest
      end
  end.

(** The bytes of a sequence of chunks. *)
Fixpoint total_len (chunks : list string) : Z :=
  match chunks with
  | [] => 0
  | c :: rest => Py.len c + total_len rest
  end.


(** The S3 state of an upload that girder proxies as the multipart upload
    [id] of key [k], after part [n]. *)
Definition in_progress (i : S3Info) (id k : string) (n : Z) : S3Info :=
  mkS3Info (chunked i) (chunkLength i) (relpath i) (key i) (request i)
    (Some id) (Some k) (Some n).

(** The File record as [finalizeUpload] stamps it. *)
Definition stamped (file : File) (i : S3Info) (k : string) : File :=
  mkFile (file_id file) (file_name file) (file_size file) (itemId file)
    (assetstoreId file) (Some (relpath i)) (Some k) (Some false)
    (imported file) (s3FinalizeRequest file).


(** ** Validation of an assetstore document *)

(** *** Regular expressions

    The part of Python's [re] the pattern of a service needs: literals,
    [[...]+] over a character class, sequence, [?], capturing groups and
    [$]. The matcher backtracks as [re] does: [+] and [?] first take as much
    as they can and give back when what follows fails. Groups are numbered
    as the tuple [groups()] indexes them, from 0; a group that took no part
    in the match is absent. [$] matches at the end of the string and before
    a newline that ends it. *)

Module Re.

Inductive regex : Type :=
| Lit (s : string)
| Plus (p : ascii -> bool)
| Seq (r1 r2 : regex)
| Opt (r : regex)
| Group (n : nat) (r : regex)
| Dollar.

Abbreviation Groups := (gmap nat string).

Fixpoint strip_prefix (l s : string) : option string :=
  match l, s with
  | EmptyString, _ => Some s
  | String a l', String b s' =>
      if Ascii.eqb a b then strip_prefix l' s' else None
  | String _ _, EmptyString => None
  end.

(** Zero or more characters of the class, the longest run first. *)
Fixpoint star {A} (p : ascii -> bool) (s : string) (k : string -> option A)
  : option A :=
  match s with
  | String a s' =>
      if p a then
        match star p s' k with
        | Some r => Some r
        | None => k s
        end
      else k s
  | EmptyString => k s
  end.

(** What was read between the rest [s] and the later rest [s']. *)
Definition consumed (s s' : string) : string :=
  String.substring 0 (String.length s - String.length s') s.

Definition newline : string := String (ascii_of_nat 10) EmptyString.

(** [k] is what remains to be matched after [r]. *)
Fixpoint run (r : regex) (s : string) (groups : Groups)
    (k : string -> Groups -> option Groups) : option Groups :=
  match r with
  | Lit l =>
      match strip_prefix l s with
      | Some s' => k s' groups
      | None => None
      end
  | Plus p =>
      match s with
      | String a s' =>
          if p a then star p s' (fun s'' => k s'' groups) else None
      | EmptyString => None
      end
  | Seq r1 r2 => run r1 s groups (fun s' groups' => run r2 s' groups' k)
  | Opt r =>
      match run r s groups k with
      | Some g => Some g
      | None => k s groups
      end
  | Group n r =>
      run r s groups (fun s' groups' => k s' (<[n := consumed s s']> groups'))
  | Dollar =>
      if String.eqb s "" || String.eqb s newline then k s groups else None
  end.

(** [re.match(r, s)]: the match starts at the start of the string (so a
    leading [^] adds nothing) and need not reach its end. *)
Definition match_ (r : regex) (s : string) : option Groups :=
  run r s ∅ (fun _ groups => Some groups).

End Re.

(** [[^:/]] and [[0-9]] *)
Definition host_char (a : ascii) : bool :=
  negb (Ascii.eqb a ":"%char || Ascii.eqb a "/"%char).

Definition is_digit (a : ascii) : bool :=
  (48 <=? nat_of_ascii a)%nat && (nat_of_ascii a <=? 57)%nat.

(** ["^((https?)://)?([^:/]+)(:([0-9]+))?$"], in its three parts:
    [((https?)://)], [([^:/]+)] and [(:([0-9]+))]. *)
Definition scheme_re : Re.regex :=
  Re.Group 0
    (Re.Seq (Re.Group 1 (Re.Seq (Re.Lit "http") (Re.Opt (Re.Lit "s"))))
            (Re.Lit "://")).

Definition host_re : Re.regex := Re.Group 2 (Re.Plus host_char).

Definition port_re : Re.regex :=
  Re.Group 3 (Re.Seq (Re.Lit ":") (Re.Group 4 (Re.Plus is_digit))).

Definition service_re : Re.regex :=
  Re.Seq (Re.Opt scheme_re)
    (Re.Seq host_re (Re.Seq (Re.Opt port_re) Re.Dollar)).

(** [int(s)] for a string of decimal digits *)
Fixpoint int_digits (acc : Z) (s : string) : Z :=
  match s with
  | EmptyString => acc
  | String a s' => int_digits (10 * acc + (Z.of_nat (nat_of_ascii a) - 48)) s'
  end.

Definition int (s : string) : Z := int_digits 0 s.

(** [service.groups()] on a failed match is an [AttributeError], which the
    model has as an [Exception]. *)
Definition makeBotoConnectParams (accessKeyId secret service : string)
  : Result ConnectParams :=
  let connect :=
    if nonempty accessKeyId && nonempty secret
    then mkConnectParams (Some accessKeyId) (Some secret) None None None None
    else mkConnectParams None None (Some true) None None None in
  if nonempty service then
    match Re.match_ service_re service with
    | None =>
        Raise (Exception "'NoneType' object has no attribute 'groups'")
    | Some groups =>
        Return
          (mkConnectParams (aws_access_key_id connect)
             (aws_secret_access_key connect) (anon connect)
             (if bool_decide (groups !! 1%nat = Some "http") then Some false
              else is_secure connect)
             (groups !! 2%nat)
             (match groups !! 4%nat with
              | Some digits => Some (int digits)
              | None => port connect
              end))
    end
  else Return connect.

(** The document of an assetstore as [validateInfo] and the constructor of
    the adapter read it. *)
Record AssetstoreDoc := mkAssetstoreDoc {
  doc_prefix : option string;
  doc_bucket : option string;
  doc_readOnly : option bool;
  doc_secret : option string;
  doc_accessKeyId : option string;
  doc_service : option string;
  doc_botoConnect : option ConnectParams
}.

(** [conn.get_bucket(bucket_name=..., validate=True)] raises for a bucket S3
    does not have; [except Exception] turns that into the validation error
    [message]. *)
Definition checked_bucket (bucket_name message : string) : M Bucket :=
  fun w =>
    match w !! bucket_name with
    | Some b => (Return b, w)
    | None =>
        (Raise (ValidationException
                  (message +:+ dquote +:+ bucket_name +:+ dquote +:+ ".")
                  (Some "bucket")), w)
    end.

Definition validateInfo (doc : AssetstoreDoc) : M AssetstoreDoc :=
  let prefix :=
    Py.rstrip Py.is_slash
      (Py.lstrip Py.is_slash (default "" (doc_prefix doc))) in
  if negb (truthy (doc_bucket doc)) then
    raise (ValidationException "Bucket must not be empty." (Some "bucket"))
  else
    let readOnly := bool_decide (doc_readOnly doc = Some true) in
    if negb readOnly && negb (truthy (doc_secret doc)) then
      raise (ValidationException "Secret key must not be empty."
               (Some "secret"))
    else if negb readOnly && negb (truthy (doc_accessKeyId doc)) then
      raise (ValidationException "Access key ID must not be empty."
               (Some "accessKeyId"))
    else
      let service := default "" (doc_service doc) in
      if nonempty service
         && negb (bool_decide (is_Some (Re.match_ service_re service)))
      then
        raise (ValidationException
                 ("The service must of the form [http[s]://](host domain)"
                  +:+ "[:(port)].") (Some "service"))
      else
        accessKeyId <- lift (getitem "accessKeyId" (doc_accessKeyId doc)) ;;
        secret <- lift (getitem "secret" (doc_secret doc)) ;;
        botoConnect <- lift (makeBotoConnectParams accessKeyId secret service) ;;
        let doc :=
          mkAssetstoreDoc (Some prefix) (doc_bucket doc) (doc_readOnly doc)
            (doc_secret doc) (doc_accessKeyId doc) (Some service)
            (Some botoConnect) in
        let bucket_name := default "" (doc_bucket doc) in
        if readOnly then
          checked_bucket bucket_name "Unable to connect to bucket " ;;;
          ret doc
        else
          b <- checked_bucket bucket_name "Unable to write into bucket " ;;
          (fun w =>
             (Return tt,
              <[bucket_name :=
                  fst (Boto.set_contents_from_file b
                         (Py.join_nonempty "/" [prefix; "test"]) "" [])]> w)) ;;;
          ret doc.

(** The constructor of the adapter: the connection parameters are made anew
    when the document has the three keys they are made from. *)
Definition __init__ (assetstore : AssetstoreDoc) : Result AssetstoreDoc :=
  match doc_accessKeyId assetstore, doc_secret assetstore,
        doc_service assetstore with
  | Some accessKeyId, Some secret, Some service =>
      match makeBotoConnectParams accessKeyId secret service with
      | Return botoConnect =>
          Return
            (mkAssetstoreDoc (doc_prefix assetstore) (doc_bucket assetstore)
               (doc_readOnly assetstore) (doc_secret assetstore)
               (doc_accessKeyId assetstore) (doc_service assetstore)
               (Some botoConnect))
      | Raise e => Raise e
      end
  | _, _, _ => Return assetstore
  end.

(** The keys of a saved document that the methods of the adapter read;
    [validateInfo] has set the bucket and the service. *)
Definition assetstore_of (id : string) (doc : AssetstoreDoc) : Assetstore :=
  mkAssetstore id (doc_prefix doc) (default "" (doc_bucket doc))
    (default "" (doc_service doc)) (doc_botoConnect doc).


(** *** Services

    The services of the form [[http[s]://](host domain)[:(port)]]. *)

Fixpoint all_chars (p : ascii -> bool) (s : string) : bool :=
  match s with
  | EmptyString => true
  | String a s' => p a && all_chars p s'
  end.

Inductive Scheme : Type := NoScheme | Http | Https.

Definition scheme_text (scheme : Scheme) : string :=
  match scheme with
  | NoScheme => ""
  | Http => "http://"
  | Https => "https://"
  end.

Definition port_text (digits : option string) : string :=
  match digits with
  | Some d => ":" +:+ d
  | None => ""
  end.

Definition service_text (scheme : Scheme) (h : string)
    (digits : option string) : string :=
  scheme_text scheme +:+ (h +:+ port_text digits).

(** A host is a non-empty string without colon or slash, a port a non-empty
    string of digits. *)
Definition well_formed (h : string) (digits : option string) : Prop :=
  h <> "" /\ all_chars host_char h = true /\
  match digits with
  | Some d => d <> "" /\ all_chars is_digit d = true
  | None => True
  end.

(** The groups of a match of a service. *)
Definition service_groups (scheme : Scheme) (h : string)
    (digits : option string) : Re.Groups :=
  let g : Re.Groups :=
    match scheme with
    | NoScheme => ∅
    | Http => <[0%nat := "http://"]> (<[1%nat := "http"]> ∅)
    | Https => <[0%nat := "https://"]> (<[1%nat := "https"]> ∅)
    end in
  let g := <[2%nat := h]> g in
  match digits with
  | Some d => <[3%nat := ":" +:+ d]> (<[4%nat := d]> g)
  | None => g
  end.


(** A string at whose start a run of the class [p] ends. *)
Definition stops (p : ascii -> bool) (s : string) : Prop :=
  match s with
  | EmptyString => True
  | String a _ => p a = false
  end.

(** The services [validateInfo] lets through: of the form above, with or
    without a newline at the end. *)
Definition service_form (s : string) : Prop :=
  exists scheme h digits nl,
    s = service_text scheme h digits +:+ nl /\ well_formed h digits /\
    (nl = "" \/ nl = Re.newline).

(** The key of the object [validateInfo] writes. *)
Definition test_key (prefix : string) : string :=
  if String.eqb prefix "" then "test" else prefix +:+ "/test".


(** A key whose name ends with a slash, as the consoles of S3 make them to
    stand for a directory. *)
Definition placeholder (obj : S3Obj) : Prop :=
  exists name size, obj = Key (name +:+ "/") size.

(** The messages the progress sink is given for these objects. *)
Definition messages (progress : bool) (objs : list S3Obj) : list string :=
  if progress then List.map obj_name objs else [].

(** The same folders, items, files and next id; the progress messages may
    differ. *)
Definition same_store (s' s : Store) : Prop :=
  folders s' = folders s /\ items s' = items s /\ files s' = files s /\
  next_id s' = next_id s.


(** ** More examples *)

(** An upload that has its upload id and its key, and a bucket that still
    holds an object at that key. *)
Definition known_upload : Upload :=
  mkUpload "a.txt" None (5 * GiB) "user1" 0 (Some "s3")
    (Some (mkS3Info true CHUNK_LEN "/b/test/ef/gh/efgh3"
             (Some "test/ef/gh/efgh3") None (Some "id3") None (Some 1))).

Definition stale_bucket : Bucket :=
  mkBucket {[ "test/ef/gh/efgh3" := "part" ]}
    [ mkMultiPartUpload "id3" "test/ef/gh/efgh3" [(1, "part")];
      mkMultiPartUpload "id4" "test/ij/kl/ijkl4" [] ] 2.

Definition stale_s3 : S3 := {[ "b" := stale_bucket ]}.

(** A trigger for that object. *)
Definition stale_event : DeleteEvent :=
  mkDeleteEvent (get_botoConnect example_assetstore) "b" "test/ef/gh/efgh3".

(** The service of the repository's test: a moto server told to accept
    parts of five bytes. *)
Definition moto_lib : Library :=
  {| generate_url := @generate_url example_lib;
     bucket_list := @bucket_list example_lib;
     iter_content := @iter_content example_lib;
     upload_part_min_size := 5 |}.

(** The File record of an upload of eleven bytes, before and after
    [finalizeUpload]. *)
Definition hello_file : File :=
  mkFile 7 "hello.txt" 11 10 "as1" None None None None None.

Definition hello_file_finalized : File :=
  mkFile 7 "hello.txt" 11 10 "as1" (Some "/b/test/01/23/0123456789abcdef")
    (Some "test/01/23/0123456789abcdef") (Some false) None None.

(** The document of an assetstore on a local server, and what
    [validateInfo] makes of it. *)
Definition example_doc : AssetstoreDoc :=
  mkAssetstoreDoc (Some "/test/") (Some "b") None (Some "secret")
    (Some "access") (Some "http://127.0.0.1:5000") None.

Definition validated (doc : AssetstoreDoc) (w : S3) : AssetstoreDoc * S3 :=
  match validateInfo doc w with
  | (Return doc', w') => (doc', w')
  | (Raise _, w') => (doc, w')
  end.

(** A read-only document without credentials, and one whose service ends
    with a slash. *)
Definition anonymous_doc : AssetstoreDoc :=
  mkAssetstoreDoc None (Some "b") (Some true) (Some "") (Some "") (Some "")
    None.

Definition slash_doc : AssetstoreDoc :=
  mkAssetstoreDoc None (Some "b") None (Some "secret") (Some "access")
    (Some "https://s3.amazonaws.com/") None.

(** A bucket in which the key [foo/] stands for a directory: listed under
    [foo/] it is a key. In the second bucket the directory holds a file. *)
Definition placeholder_lib : Library :=
  example_library 1000 [("foo/", [Key "foo/" 0])] [].

Definition top_key_lib : Library :=
  example_library 1000 [("foo/", [Key "foo/" 0; Key "foo/a.txt" 3])] [].

(** * Theorems *)

Ltac run_M :=
  unfold bind, lift, ret, raise, getitem, on_bucket, _getBucket in *;
  repeat (case_match; simplify_eq/=); simplify_eq/=.

Section Uploads.

Context `{Library}.
Variable remote_ip : string.
Variable assetstore : Assetstore.

Lemma len_nonneg (s : string) : 0 <= Py.len s.
Proof. unfold Py.len. lia. Qed.

Lemma upload_part_size b id kn data n hs b' sz :
  Boto.upload_part_from_file b id kn data n hs = Return (b', sz) ->
  sz = Py.len data.
Proof. unfold Boto.upload_part_from_file. case_match; congruence. Qed.

(** What a chunk the adapter has accepted does to the Upload document: a
    client chunk leaves [received] alone, a proxied chunk of a multipart
    upload adds its length, a proxied single-shot chunk sets [received] to
    its length, which is then at least [size]. *)
Lemma uploadChunk_received upload chunk w upload' w' :
  uploadChunk remote_ip assetstore upload chunk w = (Return upload', w') ->
  size upload' = size upload /\
  match chunk with
  | ChunkStr _ => received upload' = received upload
  | ChunkFile data =>
      received upload' = received upload + Py.len data \/
      (received upload' = Py.len data /\ size upload <= Py.len data)
  end.
Proof.
  destruct chunk as [info|data]; simpl.
  - unfold _clientUploadChunk. intros Hrun. run_M. auto.
  - unfold _proxiedUploadChunk. intros Hrun. run_M;
      try (split; [reflexivity|]);
      try (left; f_equal; eauto using upload_part_size; fail);
      try (right; unfold Boto.set_contents_from_file in *; simplify_eq; lia).
Qed.

(** One [uploadChunk] operation with a chunk that fits keeps the declared
    size, does not lower [received] and keeps it within the size. *)
Lemma session_uploadChunk_step st chunk :
  in_bounds st -> fits (session_upload st) chunk ->
  let st' := session_uploadChunk remote_ip assetstore st chunk in
  size (session_upload st') = size (session_upload st) /\
  received (session_upload st) <= received (session_upload st') /\
  in_bounds st'.
Proof.
  unfold in_bounds, session_uploadChunk. intros Hb Hfits.
  destruct (uploadChunk remote_ip assetstore (session_upload st) chunk
              (session_s3 st)) as [[upload'|e] w'] eqn:Hrun;
    cbn [session_upload]; [|lia].
  apply uploadChunk_received in Hrun as [Hsize Hrec].
  destruct chunk as [info|data]; simpl in Hfits; [lia|].
  pose proof (len_nonneg data). lia.
Qed.

Lemma uploadChunks_length st chunks :
  length (uploadChunks remote_ip assetstore st chunks) = S (length chunks).
Proof.
  revert st. induction chunks as [|chunk rest IH]; intros st; simpl;
    [reflexivity|]. by rewrite IH.
Qed.

Lemma uploadChunks_head st chunks :
  uploadChunks remote_ip assetstore st chunks !! 0%nat = Some st.
Proof. destruct chunks; reflexivity. Qed.

(** Every session along the operations is within bounds, has the declared
    size of the first and has received at least as much. *)
Lemma uploadChunks_from_first st chunks j stj :
  in_bounds st -> all_fit remote_ip assetstore st chunks ->
  uploadChunks remote_ip assetstore st chunks !! j = Some stj ->
  size (session_upload stj) = size (session_upload st) /\
  received (session_upload st) <= received (session_upload stj) /\
  in_bounds stj.
Proof.
  revert st j. induction chunks as [|chunk rest IH]; intros st j Hb Hfit Hj.
  - destruct j; simplify_eq/=. unfold in_bounds in *. lia.
  - destruct j as [|j]; simplify_eq/=; [unfold in_bounds in *; lia|].
    destruct Hfit as [Hfit Hrest].
    destruct (session_uploadChunk_step st chunk Hb Hfit) as (Hsz & Hle & Hb').
    destruct (IH _ _ Hb' Hrest Hj) as (Hsz' & Hle' & Hbj).
    repeat split; [congruence|lia|apply Hbj..].
Qed.

Lemma uploadChunks_pairs st chunks i j sti stj :
  in_bounds st -> all_fit remote_ip assetstore st chunks -> (i <= j)%nat ->
  uploadChunks remote_ip assetstore st chunks !! i = Some sti ->
  uploadChunks remote_ip assetstore st chunks !! j = Some stj ->
  received (session_upload sti) <= received (session_upload stj).
Proof.
  revert st i j. induction chunks as [|chunk rest IH];
    intros st i j Hb Hfit Hij Hi Hj.
  - destruct i, j; simplify_eq/=. lia.
  - destruct i as [|i].
    + simpl in Hi. simplify_eq.
      by destruct (uploadChunks_from_first _ _ _ _ Hb Hfit Hj) as (_ & ? & _).
    + destruct j as [|j]; [lia|]. simpl in Hi, Hj.
      destruct Hfit as [Hfit Hrest].
      refine (IH _ i j _ Hrest _ Hi Hj); [|lia].
      apply (session_uploadChunk_step st chunk Hb Hfit).
Qed.


End Uploads.

Section SessionManager.

Context `{Library}.
Variable remote_ip : string.
Variable assetstore : Assetstore.
Variable minimum_chunk_size : Z.

(** What the session manager lets through fits the upload. *)
Lemma checkChunk_fits (upload : Upload) (offset : Z) (chunk : Chunk) :
  checkChunk minimum_chunk_size upload offset chunk = Return tt ->
  fits upload chunk.
Proof.
  unfold checkChunk, fits. destruct (negb _); [done|].
  destruct chunk as [info|data]; [done|].
  destruct (_ <? Py.len data)%Z eqn:Hmany; [done|]. intros _.
  by apply Z.ltb_ge in Hmany.
Qed.

(** A submission leaves the session as it was, or is an [uploadChunk]
    operation with a chunk that fits. *)
Lemma submitChunk_session st offset chunk :
  let st' := snd (submitChunk remote_ip assetstore minimum_chunk_size
                    st offset chunk) in
  st' = st \/
  (fits (session_upload st) chunk /\
   st' = session_uploadChunk remote_ip assetstore st chunk).
Proof.
  unfold submitChunk, session_uploadChunk.
  destruct (checkChunk minimum_chunk_size (session_upload st) offset chunk)
    as [[]|e] eqn:Hcheck; [|by left].
  right. split; [by apply (checkChunk_fits _ offset)|].
  by destruct (uploadChunk _ _ _ _ _) as [[upload'|e] w'].
Qed.

(** One submission through the session manager, accepted or not, keeps the
    declared size, does not lower [received] and keeps it within the size. *)
Corollary submitChunk_step st offset chunk :
  in_bounds st ->
  let st' := snd (submitChunk remote_ip assetstore minimum_chunk_size
                    st offset chunk) in
  size (session_upload st') = size (session_upload st) /\
  received (session_upload st) <= received (session_upload st') /\
  in_bounds st'.
Proof.
  intros Hb st'.
  destruct (submitChunk_session st offset chunk) as [Heq|[Hfits Heq]];
    fold st' in Heq; rewrite Heq.
  - unfold in_bounds in *. lia.
  - by apply session_uploadChunk_step.
Qed.

(** C2. A chunk whose claimed offset differs from the session's [received]
    is refused with a validation error that names both numbers, and the
    session (the Upload document and S3) is left as it was. *)
Theorem offset_mismatch_rejected (st : Session) (offset : Z) (chunk : Chunk) :
  offset <> received (session_upload st) ->
  submitChunk remote_ip assetstore minimum_chunk_size st offset chunk
  = (Raise (ValidationException
              ("Server has received " +:+
               Py.str (received (session_upload st)) +:+
               " bytes, but client sent offset " +:+ Py.str offset +:+ ".")
              None),
     st).
Proof.
  intros Hne. unfold submitChunk, checkChunk.
  destruct (offset =? received (session_upload st))%Z eqn:Heq; [|reflexivity].
  apply Z.eqb_eq in Heq. contradiction.
Qed.

End SessionManager.



(** The proxied multipart upload of testS3Assetstore: two chunks, six bytes
    and then five more. *)
Example multipart_run :
  map (fun st => received (session_upload st))
    (@uploadChunks example_lib "10.0.0.1" example_assetstore
       (new_session (5 * GiB)) [ChunkFile "hello "; ChunkFile "world"])
  = [0; 6; 11].
Proof. vm_compute. reflexivity. Qed.

Lemma offset_mismatch_rejected_witness :
  let st := new_session 11 in
  100 <> received (session_upload st) /\
  @submitChunk example_lib "10.0.0.1" example_assetstore 0 st 100
    (ChunkFile "world")
  = (Raise (ValidationException
              "Server has received 0 bytes, but client sent offset 100." None),
     st).
Proof.
  intros st.
  assert (Hne : 100 <> received (session_upload st))
    by (vm_compute; discriminate).
  split; [exact Hne|].
  exact (@offset_mismatch_rejected example_lib "10.0.0.1" example_assetstore 0
           st 100 (ChunkFile "world") Hne).
Defined.

(** The run of testS3Assetstore: a single-shot upload of 11 bytes refuses the
    first 6 on their own, refuses offset 100, and accepts the 11 at once. *)
Example single_shot_run :
  map (fun st => received (session_upload st))
    (@submitChunks example_lib "10.0.0.1" example_assetstore 0 (new_session 11)
       [(0, ChunkFile "hello "); (100, ChunkFile "world");
        (0, ChunkFile "hello world")])
  = [0; 0; 0; 11].
Proof. vm_compute. reflexivity. Qed.

(** The adapter on its own does not bound [received]: handed seventeen
    bytes for an upload of eleven, it records seventeen. The session manager
    refuses them before. *)
Example uploadChunk_alone_unbounded :
  (received <$>
     match fst (@uploadChunk example_lib "10.0.0.1" example_assetstore
                  (new_upload 11) (ChunkFile "extra_world_bytes") example_s3)
     with Return upload => Some upload | Raise _ => None end) = Some 17 /\
  fst (@submitChunk example_lib "10.0.0.1" example_assetstore 0
         (new_session 11) 0 (ChunkFile "extra_world_bytes"))
  = Raise (ValidationException "Received too many bytes." None).
Proof. vm_compute. split; reflexivity. Qed.

Section Adapter.

Context `{Library}.
Variable remote_ip : string.
Variable assetstore : Assetstore.

(** C3, amended. On an upload whose state has [chunked = true] and for
    which no bytes have been proxied ([received <= 0], as for a new upload
    of 5 GiB), [requestOffset] fails with the validation error that it
    should not be called on a chunked direct-to-S3 upload; once proxied
    bytes have been received it returns their count instead. *)
Theorem requestOffset_chunked (upload : Upload) (i : S3Info) :
  s3 upload = Some i -> chunked i = true ->
  requestOffset remote_ip assetstore upload
  = if (0 <? received upload)%Z then Return (OffsetInt (received upload))
    else Raise (ValidationException
                  "You should not call requestOffset on a chunked direct-to-S3 upload."
                  None).
Proof.
  intros Hs3 Hchunked. unfold requestOffset. rewrite Hs3, Hchunked.
  destruct (0 <? received upload)%Z; reflexivity.
Qed.

(** C4. [CHUNK_LEN] is 32 MiB. For a declared size of at most 0,
    [initUpload] returns the upload as it was given and leaves S3 as it was.
    For a positive size it fills in the S3 sub-state, with [chunked] true
    exactly when the size exceeds [CHUNK_LEN], the method [POST] when
    chunked and [PUT] otherwise, and again leaves S3 as it was. *)
Theorem initUpload_chunked_above_CHUNK_LEN (uid : string) (upload : Upload)
    (w : S3) :
  CHUNK_LEN = 32 * 1024 * 1024 /\
  (size upload <= 0 ->
   initUpload remote_ip assetstore uid upload w = (Return upload, w)) /\
  (0 < size upload ->
   exists upload' i r,
     initUpload remote_ip assetstore uid upload w = (Return upload', w) /\
     size upload' = size upload /\ received upload' = received upload /\
     s3 upload' = Some i /\ request i = Some r /\
     chunkLength i = CHUNK_LEN /\
     (chunked i = true <-> CHUNK_LEN < size upload) /\
     method r = (if chunked i then "POST" else "PUT")).
Proof.
  split; [reflexivity|]. unfold initUpload. split; intros Hsize.
  - apply Z.leb_le in Hsize. by rewrite Hsize.
  - apply Z.leb_gt in Hsize. rewrite Hsize. unfold ret.
    eexists _, _, _. split; [reflexivity|]. cbn.
    do 5 (split; [reflexivity|]).
    split; [apply Z.ltb_lt|].
    destruct (CHUNK_LEN <? size upload)%Z; reflexivity.
Qed.

(** C6. When a proxied chunk of a single-shot upload is shorter than the
    declared size, [uploadChunk] fails with a validation error, the object
    it has just written is deleted from the bucket (whose other objects and
    multipart uploads are as before), and no Upload document is returned. *)
Theorem short_write_deleted_and_refused (upload : Upload) (i : S3Info)
    (k data : string) (w : S3) (b : Bucket) :
  s3 upload = Some i -> chunked i = false -> key i = Some k ->
  w !! bucket assetstore = Some b ->
  Py.len data < size upload ->
  exists b',
    uploadChunk remote_ip assetstore upload (ChunkFile data) w
    = (Raise (ValidationException
                "Uploads of this length must be sent in a single chunk."
                None),
       <[bucket assetstore := b']> w) /\
    objects b' !! k = None /\
    (forall k', k' <> k -> objects b' !! k' = objects b !! k') /\
    multipart_uploads b' = multipart_uploads b.
Proof.
  intros Hs3 Hchunked Hkey Hb Hshort.
  exists (Boto.delete_key
            (fst (Boto.set_contents_from_file b k data
                    (_getRequestHeaders remote_ip upload))) k).
  split.
  - unfold uploadChunk, _proxiedUploadChunk, bind, lift, ret, raise,
      getitem, on_bucket, _getBucket.
    rewrite Hb, Hs3, Hchunked, Hkey. cbn. rewrite Hb.
    apply Z.ltb_lt in Hshort. rewrite Hshort.
    rewrite lookup_insert_eq. by rewrite insert_insert_eq.
  - cbn. split; [apply lookup_delete_eq|]. split; [|reflexivity].
    intros k' Hne. rewrite lookup_delete_ne, lookup_insert_ne; done.
Qed.

End Adapter.

(** C3, as stated, fails: a 5 GiB upload is chunked, and after girder has
    proxied six bytes of it [requestOffset] answers 6 instead of failing. *)
Lemma requestOffset_chunked_counterexample :
  size proxied_upload = 5 * GiB /\
  chunked (s3_of proxied_upload) = true /\
  s3 proxied_upload = Some (s3_of proxied_upload) /\
  @requestOffset example_lib "10.0.0.1" example_assetstore proxied_upload
  = Return (OffsetInt 6) /\
  is_validation_error
    (@requestOffset example_lib "10.0.0.1" example_assetstore proxied_upload)
  = false.
Proof. vm_compute. repeat split; reflexivity. Qed.

Lemma requestOffset_chunked_witness :
  let upload := new_upload (5 * GiB) in
  s3 upload = Some (s3_of upload) /\ chunked (s3_of upload) = true /\
  @requestOffset example_lib "10.0.0.1" example_assetstore upload
  = Raise (ValidationException
             "You should not call requestOffset on a chunked direct-to-S3 upload."
             None).
Proof.
  intros upload.
  assert (Hs3 : s3 upload = Some (s3_of upload)) by (vm_compute; reflexivity).
  assert (Hchunked : chunked (s3_of upload) = true) by (vm_compute; reflexivity).
  split; [exact Hs3|]. split; [exact Hchunked|].
  exact (@requestOffset_chunked example_lib "10.0.0.1" example_assetstore
           upload (s3_of upload) Hs3 Hchunked).
Defined.

Lemma initUpload_chunked_above_CHUNK_LEN_witness :
  let upload := example_upload 1024 in
  0 < size upload /\
  exists upload' i r,
    @initUpload example_lib "10.0.0.1" example_assetstore "0123456789abcdef"
      upload example_s3 = (Return upload', example_s3) /\
    size upload' = size upload /\ received upload' = received upload /\
    s3 upload' = Some i /\ request i = Some r /\
    chunkLength i = CHUNK_LEN /\
    (chunked i = true <-> CHUNK_LEN < size upload) /\
    method r = (if chunked i then "POST" else "PUT").
Proof.
  intros upload.
  assert (Hpos : 0 < size upload) by (vm_compute; reflexivity).
  split; [exact Hpos|].
  exact (proj2 (proj2 (@initUpload_chunked_above_CHUNK_LEN example_lib
                         "10.0.0.1" example_assetstore "0123456789abcdef"
                         upload example_s3)) Hpos).
Defined.

(** The two uploads of the assetstore test: 1024 bytes go in one [PUT], 5 GiB
    are chunked and start with a [POST]; an empty upload is left alone. *)
Example initUpload_1024 :
  chunked (s3_of (new_upload 1024)) = false /\
  method <$> request (s3_of (new_upload 1024)) = Some "PUT".
Proof. vm_compute. split; reflexivity. Qed.

Example initUpload_5GiB :
  chunked (s3_of (new_upload (5 * GiB))) = true /\
  method <$> request (s3_of (new_upload (5 * GiB))) = Some "POST".
Proof. vm_compute. split; reflexivity. Qed.

Example initUpload_empty :
  @initUpload example_lib "10.0.0.1" example_assetstore "0123456789abcdef"
    (example_upload 0) example_s3
  = (Return (example_upload 0), example_s3).
Proof. reflexivity. Qed.

Lemma short_write_deleted_and_refused_witness :
  let upload := new_upload 11 in
  let k := "test/01/23/0123456789abcdef" in
  s3 upload = Some (s3_of upload) /\ chunked (s3_of upload) = false /\
  key (s3_of upload) = Some k /\
  example_s3 !! bucket example_assetstore = Some empty_bucket /\
  Py.len "hello " < size upload /\
  exists b',
    @uploadChunk example_lib "10.0.0.1" example_assetstore upload
      (ChunkFile "hello ") example_s3
    = (Raise (ValidationException
                "Uploads of this length must be sent in a single chunk." None),
       <[bucket example_assetstore := b']> example_s3) /\
    objects b' !! k = None /\
    (forall k', k' <> k -> objects b' !! k' = objects empty_bucket !! k') /\
    multipart_uploads b' = multipart_uploads empty_bucket.
Proof.
  intros upload k.
  assert (Hs3 : s3 upload = Some (s3_of upload)) by (vm_compute; reflexivity).
  assert (Hchunked : chunked (s3_of upload) = false) by (vm_compute; reflexivity).
  assert (Hkey : key (s3_of upload) = Some k) by (vm_compute; reflexivity).
  assert (Hb : example_s3 !! bucket example_assetstore = Some empty_bucket)
    by (vm_compute; reflexivity).
  assert (Hshort : Py.len "hello " < size upload) by (vm_compute; reflexivity).
  do 5 (split; [assumption|]).
  exact (@short_write_deleted_and_refused example_lib "10.0.0.1"
           example_assetstore upload (s3_of upload) k "hello " example_s3
           empty_bucket Hs3 Hchunked Hkey Hb Hshort).
Defined.

(** ** Orphaned multipart uploads *)

Section Orphans.

Variable assetstore : Assetstore.

Lemma startswith_app (s p q : string) :
  Py.startswith s (p +:+ q) = true -> Py.startswith s p = true.
Proof.
  unfold Py.startswith. revert s.
  induction p as [|a p IH]; intros s; [by destruct s|].
  destruct s as [|b s]; simpl; [done|].
  destruct (ascii_dec a b); [apply IH|done].
Qed.

Lemma sweep_prefix_configured (s : string) :
  Py.startswith s (sweep_prefix assetstore) = true ->
  Py.startswith s (default "" (prefix assetstore)) = true.
Proof.
  unfold sweep_prefix. destruct (negb _); [apply startswith_app|done].
Qed.

Lemma _uploadIsKnown_cons (mp : MultiPartUpload) (upload : Upload)
    (rest : list Upload) :
  _uploadIsKnown mp (upload :: rest) = true <->
  known_as mp upload \/ _uploadIsKnown mp rest = true.
Proof.
  simpl. unfold known_as.
  destruct (s3 upload) as [i|] eqn:Hs3.
  2: { split; [auto|]. intros [(i & ? & _)|?]; [discriminate|done]. }
  destruct (uploadId i) as [id|] eqn:Hid.
  2: { split; [auto|].
       intros [(i' & ? & ? & _)|?]; [simplify_eq; congruence|done]. }
  destruct (key i) as [k|] eqn:Hkey.
  2: { split; [auto|].
       intros [(i' & ? & _ & ?)|?]; [simplify_eq; congruence|done]. }
  destruct (String.eqb_spec (mp_id mp) id) as [<-|Hne1];
    [destruct (String.eqb_spec (mp_key_name mp) k) as [<-|Hne2]|]; simpl.
  - split; [|done]. intros _. left. by exists i.
  - split; [auto|].
    intros [(i' & ? & _ & ?)|?]; [simplify_eq; congruence|done].
  - split; [auto|].
    intros [(i' & ? & ? & _)|?]; [simplify_eq; congruence|done].
Qed.

Lemma _uploadIsKnown_spec (mp : MultiPartUpload) (knownUploads : list Upload) :
  _uploadIsKnown mp knownUploads = true <->
  exists upload, In upload knownUploads /\ known_as mp upload.
Proof.
  induction knownUploads as [|upload rest IH].
  - simpl. split; [done|]. by intros (? & [] & _).
  - rewrite _uploadIsKnown_cons, IH. simpl. split.
    + intros [?|(u & ? & ?)]; eauto.
    + intros (u & [<-|?] & ?); eauto.
Qed.

Local Arguments orphan : simpl never.

Lemma sweep_page_spec prefix knownUploads delete page acc :
  sweep_page prefix knownUploads delete page acc
  = mkSweep
      (untrackedList acc
       ++ map untracked_of (List.filter (orphan prefix knownUploads) page))
      (cancelled acc
       ++ if delete then List.filter (orphan prefix knownUploads) page
          else []).
Proof.
  revert acc. induction page as [|mp rest IH]; intros [l c].
  - simpl. destruct delete; by rewrite !app_nil_r.
  - cbn [sweep_page List.filter].
    assert (Ho : orphan prefix knownUploads mp
                 = negb (_uploadIsKnown mp knownUploads)
                   && Py.startswith (mp_key_name mp) prefix) by reflexivity.
    destruct (_uploadIsKnown mp knownUploads),
             (Py.startswith (mp_key_name mp) prefix);
      cbn in Ho; rewrite Ho; cbn [negb]; rewrite IH; try reflexivity.
    cbn [untrackedList cancelled map].
    destruct delete; by rewrite <- !app_assoc.
Qed.

Lemma sweep_spec prefix knownUploads delete listing acc :
  sweep prefix knownUploads delete listing acc
  = mkSweep
      (untrackedList acc
       ++ map untracked_of
            (List.filter (orphan prefix knownUploads) (visited listing)))
      (cancelled acc
       ++ if delete
          then List.filter (orphan prefix knownUploads) (visited listing)
          else []).
Proof.
  revert acc.
  induction listing as [|page is_truncated next IH]; intros [l c]; simpl.
  - destruct delete; by rewrite !app_nil_r.
  - destruct (length page =? 0)%nat; simpl.
    { destruct delete; by rewrite !app_nil_r. }
    destruct is_truncated; simpl; [|apply sweep_page_spec].
    rewrite IH, sweep_page_spec. simpl.
    rewrite List.filter_app, map_app.
    destruct delete; by rewrite <- !app_assoc, ?app_nil_r.
Qed.

Lemma filter_true {A} (l : list A) : List.filter (fun _ => true) l = l.
Proof. induction l as [|a l IH]; [done|]. cbn. by rewrite IH. Qed.

Lemma filter_filter {A} (f g : A -> bool) (l : list A) :
  List.filter f (List.filter g l) = List.filter (fun a => g a && f a) l.
Proof.
  induction l as [|a l IH]; [done|]. cbn [List.filter].
  destruct (g a); cbn [andb List.filter]; by rewrite IH.
Qed.

(** What the calls of [cancel_upload] leave of a bucket. *)
Lemma cancel_uploads_spec (l : list MultiPartUpload) (b : Bucket) :
  List.fold_left Boto.cancel_upload l b
  = mkBucket (objects b)
      (List.filter (fun mp => negb (cancelled_in l mp)) (multipart_uploads b))
      (initiated b).
Proof.
  revert b. induction l as [|c l IH]; intros b.
  - cbn. rewrite filter_true. by destruct b.
  - cbn [List.fold_left]. rewrite IH. unfold Boto.cancel_upload.
    cbn [objects multipart_uploads initiated]. rewrite filter_filter.
    f_equal. apply List.filter_ext. intros mp. cbn [cancelled_in existsb].
    by rewrite negb_orb.
Qed.

(** The run of [untrackedUploads] against a bucket S3 has. *)
Lemma untrackedUploads_run (listing : MPListing)
    (knownUploads : list Upload) (delete : bool) (w : S3) (b : Bucket) :
  w !! bucket assetstore = Some b ->
  let found := reported assetstore knownUploads listing in
  let sw := mkSweep (map untracked_of found) (if delete then found else []) in
  untrackedUploads assetstore listing knownUploads delete w
  = (Return sw,
     <[bucket assetstore :=
         List.fold_left Boto.cancel_upload (cancelled sw) b]> w).
Proof.
  intros Hb found sw.
  unfold untrackedUploads, bind, ret, _getBucket, on_bucket. rewrite Hb.
  fold (sweep_prefix assetstore). rewrite sweep_spec. cbn [fst snd].
  by rewrite Hb.
Qed.

Lemma reported_spec (knownUploads : list Upload) (listing : MPListing)
    (mp : MultiPartUpload) :
  In mp (reported assetstore knownUploads listing) <->
  In mp (visited listing) /\ _uploadIsKnown mp knownUploads = false /\
  Py.startswith (mp_key_name mp) (sweep_prefix assetstore) = true.
Proof.
  unfold reported, orphan.
  rewrite List.filter_In, andb_true_iff, negb_true_iff. tauto.
Qed.

Lemma cancelled_in_self (l : list MultiPartUpload) (mp : MultiPartUpload) :
  In mp l -> cancelled_in l mp = true.
Proof.
  intros Hin. apply List.existsb_exists. exists mp. split; [done|].
  unfold Boto.same_upload. by rewrite !String.eqb_refl.
Qed.

(** C10, amended. When the bucket is there, [untrackedUploads] returns and
    reports exactly the multipart uploads on the pages it reads that match
    no known upload's id and key and whose key name starts with the
    configured prefix followed by a slash (with no prefix configured, every
    key name does). Asked to delete, it calls [cancel_upload] on those and
    only those, and the bucket loses the uploads that have their id and key
    and nothing else; not asked, it leaves S3 as it was. So each upload
    reported or cancelled matches no known upload and has a key name that
    starts with the configured prefix and a slash; an upload whose key name
    does not start so is neither reported nor cancelled and stays in the
    bucket; and an upload read that matches no known upload and whose key
    name does start so is reported, and cancelled when deletion is asked
    for, whatever longer prefix another assetstore may have for it. *)
Theorem untrackedUploads_unknown_under_prefix (listing : MPListing)
    (knownUploads : list Upload) (delete : bool) (w : S3) (b : Bucket) :
  w !! bucket assetstore = Some b ->
  exists sw b',
    untrackedUploads assetstore listing knownUploads delete w
    = (Return sw, <[bucket assetstore := b']> w) /\
    untrackedList sw
    = map untracked_of (reported assetstore knownUploads listing) /\
    cancelled sw
    = (if delete then reported assetstore knownUploads listing else []) /\
    objects b' = objects b /\ initiated b' = initiated b /\
    multipart_uploads b'
    = List.filter (fun mp => negb (cancelled_in (cancelled sw) mp))
        (multipart_uploads b) /\
    (delete = false -> <[bucket assetstore := b']> w = w) /\
    (forall u, In u (untrackedList sw) ->
       exists mp, In mp (visited listing) /\ u = untracked_of mp /\
         (forall upload, In upload knownUploads -> ~ known_as mp upload) /\
         Py.startswith (untracked_key u) (sweep_prefix assetstore) = true /\
         Py.startswith (untracked_key u) (default "" (prefix assetstore))
         = true) /\
    (forall mp, In mp (cancelled sw) ->
       delete = true /\ In (untracked_of mp) (untrackedList sw)) /\
    (forall mp,
       Py.startswith (mp_key_name mp) (sweep_prefix assetstore) = false ->
       ~ In (untracked_of mp) (untrackedList sw) /\ ~ In mp (cancelled sw) /\
       (In mp (multipart_uploads b) -> In mp (multipart_uploads b'))) /\
    (forall mp,
       In mp (visited listing) -> _uploadIsKnown mp knownUploads = false ->
       Py.startswith (mp_key_name mp) (sweep_prefix assetstore) = true ->
       In (untracked_of mp) (untrackedList sw) /\
       (delete = true ->
        In mp (cancelled sw) /\ ~ In mp (multipart_uploads b'))).
Proof.
  intros Hb.
  pose proof (untrackedUploads_run listing knownUploads delete w b Hb)
    as Hrun. cbv zeta in Hrun.
  set (found := reported assetstore knownUploads listing) in *.
  set (sw := mkSweep (map untracked_of found)
               (if delete then found else [])) in *.
  rewrite cancel_uploads_spec in Hrun.
  assert (Horphan : forall mp, In mp found ->
    In mp (visited listing) /\
    (forall upload, In upload knownUploads -> ~ known_as mp upload) /\
    Py.startswith (mp_key_name mp) (sweep_prefix assetstore) = true).
  { intros mp (Hin & Hk & Hp)%reported_spec. split; [done|].
    split; [|done]. intros upload Hup Hknown.
    assert (_uploadIsKnown mp knownUploads = true)
      by (apply _uploadIsKnown_spec; eauto).
    congruence. }
  assert (Hkeys : forall c mp,
    In c (cancelled sw) ->
    Boto.same_upload (mp_id c) (mp_key_name c) mp = true ->
    Py.startswith (mp_key_name mp) (sweep_prefix assetstore) = true).
  { intros c mp Hc Hsame. subst sw. cbn [cancelled] in Hc.
    destruct delete; [|done]. destruct (Horphan c Hc) as (_ & _ & Hp).
    unfold Boto.same_upload in Hsame.
    apply andb_true_iff in Hsame as [_ ->%String.eqb_eq]. exact Hp. }
  eexists sw, _. split; [exact Hrun|].
  cbn [untrackedList cancelled objects multipart_uploads initiated].
  do 5 (split; [reflexivity|]). split; [|split; [|split; [|split]]].
  - intros ->. cbn [cancelled_in existsb negb]. rewrite filter_true.
    rewrite <- (insert_id w (bucket assetstore) b Hb) at 2. by destruct b.
  - intros u (mp & <- & Hin)%List.in_map_iff.
    destruct (Horphan mp Hin) as (Hv & Hk & Hp).
    exists mp. repeat split; try done.
    by apply sweep_prefix_configured.
  - intros mp Hin. destruct delete; [|done].
    split; [done|]. apply List.in_map_iff. eauto.
  - intros mp Hp. split; [|split].
    + intros (mp' & Heq & Hin)%List.in_map_iff.
      destruct (Horphan mp' Hin) as (_ & _ & Hp').
      unfold untracked_of in Heq. simplify_eq. congruence.
    + intros Hin. destruct delete; [|done].
      destruct (Horphan mp Hin) as (_ & _ & Hp'). congruence.
    + intros Hin. apply List.filter_In. split; [done|].
      apply negb_true_iff. destruct (cancelled_in _ mp) eqn:Hc; [|done].
      apply List.existsb_exists in Hc as (c & Hcin & Hsame).
      pose proof (Hkeys c mp Hcin Hsame). congruence.
  - intros mp Hin Hunknown Hp.
    assert (Hfound : In mp found) by by apply reported_spec.
    split; [by apply List.in_map|]. intros ->. split; [done|].
    intros [_ Hkeep%negb_true_iff]%List.filter_In.
    by rewrite cancelled_in_self in Hkeep.
Qed.

End Orphans.

(** C10, as stated, fails. Two assetstores share a bucket, one with the
    prefix [test], the other with the prefix [test/sub]. A multipart upload
    of the second, under its prefix, is reported by the enumeration of the
    first and cancelled on S3. And an assetstore without a prefix reports
    and cancels the uploads under every prefix. *)
Lemma untrackedUploads_counterexample :
  prefix example_assetstore = Some "test" /\
  prefix sub_assetstore = Some "test/sub" /\
  bucket sub_assetstore = bucket example_assetstore /\
  Py.startswith (mp_key_name sub_upload) (sweep_prefix sub_assetstore)
  = true /\
  untrackedUploads example_assetstore
    (ListingPage [sub_upload] false ListingError) [] true
    {[ "b" := mkBucket ∅ [sub_upload] 1 ]}
  = (Return (mkSweep [untracked_of sub_upload] [sub_upload]),
     {[ "b" := mkBucket ∅ [] 1 ]}) /\
  prefix bare_assetstore = None /\
  untrackedUploads bare_assetstore
    (ListingPage [sub_upload] false ListingError) [] true
    {[ "b" := mkBucket ∅ [sub_upload] 1 ]}
  = (Return (mkSweep [untracked_of sub_upload] [sub_upload]),
     {[ "b" := mkBucket ∅ [] 1 ]}).
Proof. vm_compute. repeat split; reflexivity. Qed.

Lemma untrackedUploads_unknown_under_prefix_witness :
  let w : S3 :=
    {[ "b" := mkBucket ∅
                [ mkMultiPartUpload "id1" "test/ab/cd/abcd1" [(1, "part")];
                  mkMultiPartUpload "id2" "other/ab/cd/abcd2" [] ] 2 ]} in
  w !! bucket example_assetstore
  = Some (mkBucket ∅
            [ mkMultiPartUpload "id1" "test/ab/cd/abcd1" [(1, "part")];
              mkMultiPartUpload "id2" "other/ab/cd/abcd2" [] ] 2) /\
  exists sw b',
    untrackedUploads example_assetstore example_listing example_known true w
    = (Return sw, <[bucket example_assetstore := b']> w) /\
    untrackedList sw = [mkUntracked "id1" "test/ab/cd/abcd1"] /\
    cancelled sw = [mkMultiPartUpload "id1" "test/ab/cd/abcd1" []] /\
    multipart_uploads b' = [mkMultiPartUpload "id2" "other/ab/cd/abcd2" []].
Proof.
  intros w.
  assert (Hb : w !! bucket example_assetstore
               = Some (mkBucket ∅
                         [ mkMultiPartUpload "id1" "test/ab/cd/abcd1"
                             [(1, "part")];
                           mkMultiPartUpload "id2" "other/ab/cd/abcd2" [] ]
                         2))
    by (vm_compute; reflexivity).
  split; [exact Hb|].
  destruct (untrackedUploads_unknown_under_prefix example_assetstore
              example_listing example_known true w _ Hb)
    as (sw & b' & Hrun & Hlist & Hcancel & _ & _ & Hleft & _).
  exists sw, b'. split; [exact Hrun|]. split; [|split].
  - rewrite Hlist. vm_compute. reflexivity.
  - rewrite Hcancel. vm_compute. reflexivity.
  - rewrite Hleft, Hcancel. vm_compute. reflexivity.
Defined.

(** ** Deletion *)

Section Deletion.

Variable assetstore : Assetstore.

(** A count taken under a limit of 2 is 1 exactly when one record matches. *)
Lemma count_limit_2 (coll : list File) (rp : string) :
  count (find coll rp (_id assetstore) 2) = 1 <->
  length (sharing coll rp (_id assetstore)) = 1%nat.
Proof.
  unfold count, find, sharing.
  destruct (List.filter _ coll) as [|f1 [|f2 l]]; simpl; lia.
Qed.

(** What [deleteFile] enqueues, whatever the record. *)
Lemma deleteFile_enqueued (coll : list File) (file : File) :
  let enqueued := triggers (deleteFile assetstore coll file) in
  (enqueued <> [] <->
   0 < file_size file /\ is_Some (s3Key file) /\
   exists rp, file_relpath file = Some rp /\
              length (sharing coll rp (_id assetstore)) = 1%nat) /\
  (forall k, s3Key file = Some k -> enqueued <> [] ->
     enqueued = [("_s3_assetstore_delete_file",
                  mkDeleteEvent (get_botoConnect assetstore)
                    (bucket assetstore) k)]).
Proof.
  intros enqueued. subst enqueued. unfold deleteFile.
  destruct (0 <? file_size file)%Z eqn:Hsize;
    [apply Z.ltb_lt in Hsize|apply Z.ltb_ge in Hsize].
  2: { repeat split; try done. intros (? & _); lia. }
  destruct (file_relpath file) as [rp|] eqn:Hrp.
  2: { repeat split; try done. intros (_ & _ & ? & ? & _); done. }
  destruct (count (find coll rp (_id assetstore) 2) =? 1)%Z eqn:Hcount;
    [apply Z.eqb_eq, count_limit_2 in Hcount
    |apply Z.eqb_neq in Hcount; rewrite count_limit_2 in Hcount].
  - destruct (s3Key file) as [k|] eqn:Hkey; simpl.
    + repeat split; try done; eauto.
      intros k' ? _. by simplify_eq.
    + repeat split; try done. intros (_ & [? ?] & _); done.
  - simpl. repeat split; try done.
    intros (_ & _ & rp' & ? & ?). by simplify_eq.
Qed.

(** C5, amended. For a file that is not marked imported, [deleteFile]
    enqueues a deletion trigger exactly when the file has a positive size,
    carries a relpath and an S3 key, and exactly one File record has that
    relpath in the assetstore, which is what a count of 1 under a limit of 2
    says. The trigger is then the single [_s3_assetstore_delete_file] for
    that key. A file without relpath, as import creates them, or one whose
    relpath another record shares, enqueues nothing. *)
Theorem deleteFile_enqueues_iff (coll : list File) (file : File) :
  let enqueued := triggers (deleteFile assetstore coll file) in
  (imported file <> Some true ->
   (enqueued <> [] <->
    0 < file_size file /\ is_Some (s3Key file) /\
    exists rp, file_relpath file = Some rp /\
               length (sharing coll rp (_id assetstore)) = 1%nat)) /\
  (forall rp,
     count (find coll rp (_id assetstore) 2) = 1 <->
     length (sharing coll rp (_id assetstore)) = 1%nat) /\
  (forall k, s3Key file = Some k -> enqueued <> [] ->
     enqueued = [("_s3_assetstore_delete_file",
                  mkDeleteEvent (get_botoConnect assetstore)
                    (bucket assetstore) k)]) /\
  (forall rp, file_relpath file = Some rp ->
     (2 <= length (sharing coll rp (_id assetstore)))%nat ->
     enqueued = []) /\
  (file_relpath file = None -> enqueued = []).
Proof.
  intros enqueued.
  destruct (deleteFile_enqueued coll file) as [Hiff Htrigger].
  fold enqueued in Hiff, Htrigger.
  split; [intros _; exact Hiff|]. split; [apply count_limit_2|].
  split; [exact Htrigger|].
  assert (Hnone : ~ enqueued <> [] -> enqueued = []).
  { intros Hn. destruct enqueued; [done|]. by destruct Hn. }
  split.
  - intros rp Hrp Hshared. apply Hnone. rewrite Hiff.
    intros (_ & _ & rp' & Hrp' & Hone). simplify_eq. lia.
  - intros Hrp. apply Hnone. rewrite Hiff.
    intros (_ & _ & rp' & Hrp' & _). congruence.
Qed.

End Deletion.

(** C5, as stated, fails in both directions: an empty file that is not
    imported and is the only record with its relpath enqueues nothing, and a
    file marked imported that carries a relpath enqueues a deletion. *)
Lemma deleteFile_counterexample :
  (imported empty_located_file <> Some true /\
   length (sharing [empty_located_file] "/b/test/01/23/0123" "as1") = 1%nat /\
   deleteFile example_assetstore [empty_located_file] empty_located_file
   = Return []) /\
  (imported imported_located_file = Some true /\
   deleteFile example_assetstore [imported_located_file] imported_located_file
   = Return [("_s3_assetstore_delete_file",
              mkDeleteEvent (get_botoConnect example_assetstore) "b"
                "foo/bar/b.txt")]).
Proof. vm_compute. repeat split; try reflexivity. discriminate. Qed.

Lemma deleteFile_enqueues_iff_witness :
  let coll := [uploaded_file; empty_located_file] in
  let enqueued := triggers (deleteFile example_assetstore coll uploaded_file) in
  imported uploaded_file <> Some true /\
  s3Key uploaded_file = Some "test/89/ab/89ab" /\
  enqueued <> [] /\
  (enqueued <> [] <->
   0 < file_size uploaded_file /\ is_Some (s3Key uploaded_file) /\
   exists rp, file_relpath uploaded_file = Some rp /\
              length (sharing coll rp (_id example_assetstore)) = 1%nat) /\
  enqueued
  = [("_s3_assetstore_delete_file",
      mkDeleteEvent (get_botoConnect example_assetstore)
        (bucket example_assetstore) "test/89/ab/89ab")].
Proof.
  intros coll enqueued.
  assert (Himp : imported uploaded_file <> Some true) by discriminate.
  assert (Hkey : s3Key uploaded_file = Some "test/89/ab/89ab") by reflexivity.
  assert (Hne : enqueued <> []) by (vm_compute; discriminate).
  split; [exact Himp|]. split; [exact Hkey|]. split; [exact Hne|].
  destruct (deleteFile_enqueues_iff example_assetstore coll uploaded_file)
    as (Hiff & _ & Htrigger & _).
  split; [exact (Hiff Himp)|].
  exact (Htrigger "test/89/ab/89ab" Hkey Hne).
Defined.

(** Two records that share a locator: deleting one of them enqueues
    nothing. *)
Example deleteFile_shared_locator :
  deleteFile example_assetstore
    [uploaded_file;
     mkFile 5 "copy.txt" 4 11 "as1" (Some "/b/test/89/ab/89ab")
       (Some "test/89/ab/89ab") (Some false) None None]
    uploaded_file
  = Return [].
Proof. reflexivity. Qed.

(** ** Downloads *)

Section Downloads.

Context `{Library}.
Variable assetstore : Assetstore.

Lemma append_empty_r (s : string) : s +:+ "" = s.
Proof.
  induction s as [|a s IH]; [done|].
  change (String a (s +:+ "") = String a s). by rewrite IH.
Qed.

Lemma stream_bytes_cons (c : string) (chunks : list string) :
  stream_bytes (c :: chunks) = c +:+ stream_bytes chunks.
Proof.
  unfold stream_bytes. destruct chunks as [|c' chunks]; cbn.
  - symmetry. apply append_empty_r.
  - reflexivity.
Qed.

(** Dropping the empty chunks of a response does not change its bytes. *)
Lemma stream_bytes_nonempty (chunks : list string) :
  stream_bytes (List.filter nonempty chunks) = stream_bytes chunks.
Proof.
  induction chunks as [|c chunks IH]; [done|].
  cbn [List.filter]. rewrite stream_bytes_cons.
  destruct c as [|a c]; cbn [nonempty String.eqb negb].
  - by rewrite IH.
  - by rewrite stream_bytes_cons, IH.
Qed.

Lemma filter_nonempty_Forall (chunks : list string) :
  Forall (fun c => c <> "") (List.filter nonempty chunks).
Proof.
  apply List.Forall_forall. intros c [_ Hc]%List.filter_In.
  by destruct c.
Qed.

(** C7, amended. For an empty file [downloadFile] returns a stream of no
    bytes, and sets the Content-Length, Content-Type and
    Content-Disposition headers exactly when it serves headers. For a file
    of positive size with an S3 key it redirects to the backend URL when it
    serves headers, and otherwise returns, with no header set, a stream
    that passes on the bytes of the response to that URL. The URL is signed
    with an expiry of [HMAC_TTL] seconds unless the connection is
    anonymous. *)
Theorem downloadFile_by_size_and_headers (file : File) (offset : Z)
    (headers : bool) :
  (file_size file <= 0 ->
   exists d,
     downloadFile assetstore file offset headers = Return d /\
     (forall w, exists chunks,
        stream d w = Return chunks /\ stream_bytes chunks = "") /\
     response_headers d
     = if headers
       then [ ("Content-Length", "0");
              ("Content-Type", "application/octet-stream");
              ("Content-Disposition",
               "attachment; filename=" +:+ dquote +:+ file_name file
               +:+ dquote) ]
       else []) /\
  (forall k, 0 < file_size file -> s3Key file = Some k ->
     urlFn assetstore k
     = (if is_anon assetstore then _anonDownloadUrl assetstore k
        else generate_url (botoConnectS3 (get_botoConnect assetstore))
               HMAC_TTL "GET" (bucket assetstore) k None) /\
     if headers
     then downloadFile assetstore file offset headers
          = Raise (HTTPRedirect (urlFn assetstore k))
     else exists d,
            downloadFile assetstore file offset headers = Return d /\
            response_headers d = [] /\
            forall w, exists chunks,
              stream d w = Return chunks /\
              Forall (fun c => c <> "") chunks /\
              stream_bytes chunks
              = stream_bytes (iter_content w (urlFn assetstore k))).
Proof.
  unfold downloadFile. split.
  - intros Hsize. apply Z.ltb_ge in Hsize. rewrite Hsize.
    destruct headers; eexists; (split; [reflexivity|]); simpl;
      (split; [|reflexivity]); intros w; exists [""]; by rewrite ?Hsize.
  - intros k Hsize Hkey. apply Z.ltb_lt in Hsize. rewrite Hsize, Hkey.
    split; [unfold urlFn, _botoGenerateUrl; by destruct (is_anon _)|].
    destruct headers; [reflexivity|].
    eexists. split; [reflexivity|]. split; [reflexivity|].
    intros w. eexists. simpl. split; [reflexivity|].
    split; [apply filter_nonempty_Forall|apply stream_bytes_nonempty].
Qed.

End Downloads.

(** C7, as stated, fails: for an empty file that is not served with headers
    no content header is set; and the stream of a file read from offset 2
    passes on all the bytes of the response. *)
Lemma downloadFile_counterexample :
  (file_size empty_file = 0 /\
   headers_set (@downloadFile download_lib example_assetstore empty_file 0 false)
   = Some []) /\
  (file_size uploaded_file = 4 /\
   @iter_content download_lib example_s3 example_url = ["te"; ""; "st"] /\
   streamed (@downloadFile download_lib example_assetstore uploaded_file 2 false)
     example_s3
   = Some ["te"; "st"]).
Proof. vm_compute. repeat split; reflexivity. Qed.

Lemma downloadFile_by_size_and_headers_witness :
  0 < file_size uploaded_file /\
  s3Key uploaded_file = Some "test/89/ab/89ab" /\
  @downloadFile download_lib example_assetstore uploaded_file 0 true
  = Raise (HTTPRedirect
             ("https://s3.amazonaws.com/b/test/89/ab/89ab" +:+
              "?Signature=sig3387&Expires=1120&AWSAccessKeyId=access")).
Proof.
  assert (Hsize : 0 < file_size uploaded_file) by (vm_compute; reflexivity).
  assert (Hkey : s3Key uploaded_file = Some "test/89/ab/89ab") by reflexivity.
  split; [exact Hsize|]. split; [exact Hkey|].
  exact (proj2 (proj2 (@downloadFile_by_size_and_headers download_lib
                         example_assetstore uploaded_file 0 true)
                  "test/89/ab/89ab" Hsize Hkey)).
Defined.

(** ** Signed URLs *)

Section SignedUrls.

Context `{Library}.
Variable assetstore : Assetstore.

Lemma split_without (c : ascii) (s : string) :
  contains c s = false -> Py.split c s = [s].
Proof.
  induction s as [|a s IH]; simpl; [done|].
  intros [Ha Hs]%orb_false_iff. by rewrite Ha, (IH Hs).
Qed.

Lemma split_at (c : ascii) (s t : string) :
  contains c s = false ->
  Py.split c (s +:+ String c t) = s :: Py.split c t.
Proof.
  induction s as [|a s IH]; intros Hs.
  - change (Py.split c (String c t) = "" :: Py.split c t).
    simpl. by rewrite Ascii.eqb_refl.
  - simpl in Hs. apply orb_false_iff in Hs as [Ha Hs].
    change (Py.split c (String a (s +:+ String c t))
            = String a s :: Py.split c t).
    simpl. by rewrite Ha, (IH Hs).
Qed.

Lemma split_three (p0 p1 p2 : string) :
  contains "?" p0 = false -> contains "?" p1 = false ->
  contains "?" p2 = false ->
  Py.split "?" (p0 +:+ "?" +:+ p1 +:+ "?" +:+ p2) = [p0; p1; p2].
Proof.
  intros H0 H1 H2.
  change (p0 +:+ "?" +:+ p1 +:+ "?" +:+ p2)
    with (p0 +:+ String "?" (p1 +:+ String "?" p2)).
  by rewrite !split_at, split_without.
Qed.

(** C9, amended. The URL is signed for [HMAC_TTL] = 120 seconds. Without
    query parameters it is the signed URL of the key. With query parameters
    the signing call is given the key with a question mark and the
    parameters appended, so that the path the adapter's calling format
    builds for authentication contains them; when what comes back has
    exactly three parts around question marks, the URL is the first part,
    the parameters, and the signature parameters after an ampersand, except
    under the moto clause, where the signature parameters are left out. *)
Theorem botoGenerateUrl_signs_key_with_query (key method : string)
    (headers : option Headers) (queryParams : option string) :
  let conn := botoConnectS3 (get_botoConnect assetstore) in
  HMAC_TTL = 120 /\
  (truthy queryParams = false ->
   _botoGenerateUrl assetstore key method headers queryParams
   = generate_url conn HMAC_TTL method (bucket assetstore) key headers) /\
  (forall q p0 p1 p2,
     queryParams = Some q -> q <> "" ->
     contains "?" p0 = false -> contains "?" p1 = false ->
     contains "?" p2 = false ->
     generate_url conn HMAC_TTL method (bucket assetstore)
       (key +:+ "?" +:+ q) headers
     = p0 +:+ "?" +:+ p1 +:+ "?" +:+ p2 ->
     _botoGenerateUrl assetstore key method headers queryParams
     = if moto_clause q (get_botoConnect assetstore)
       then p0 +:+ "?" +:+ p1
       else p0 +:+ "?" +:+ p1 +:+ "&" +:+ p2) /\
  (forall q,
     bucket assetstore <> "" ->
     BotoCallingFormat.build_auth_path (bucket assetstore)
       (key +:+ "?" +:+ q)
     = "/" +:+ bucket assetstore +:+ "/" +:+ key +:+ "?" +:+ q).
Proof.
  intros conn. split; [reflexivity|]. unfold _botoGenerateUrl.
  split; [|split].
  - intros Hq. by rewrite Hq.
  - intros q p0 p1 p2 -> Hq H0 H1 H2 Hurl.
    assert (Ht : truthy (Some q) = true).
    { simpl. by destruct (String.eqb_spec q ""). }
    rewrite Ht. simpl. fold conn. by rewrite Hurl, split_three.
  - intros q Hb. unfold BotoCallingFormat.build_auth_path.
    destruct (String.eqb_spec (bucket assetstore) ""); [done|].
    generalize (bucket assetstore) as b.
    induction b as [|a b IH]; [reflexivity|].
    change ("/" +:+ String a b) with (String "/" (String a b)).
    reflexivity.
Qed.

End SignedUrls.

(** C9, as stated, fails. Under the moto clause the URL that starts a
    multipart upload carries the [uploads] parameter and no signature
    parameter, although the signing call returned them. And the signature is
    not computed over the path alone: in the model of boto's signing, where
    the signed path is the one [BotoCallingFormat] builds, two part numbers
    for the same key give two signatures. *)
Lemma botoGenerateUrl_counterexample :
  let key := "test/01/23/0123" in
  (@generate_url example_lib (botoConnectS3 (get_botoConnect moto_assetstore))
     HMAC_TTL "POST" "b" (key +:+ "?" +:+ "uploads") None
   = "http://127.0.0.1:5000/b/test/01/23/0123?uploads" +:+
     "?Signature=sig4092&Expires=1120&AWSAccessKeyId=access" /\
   @_botoGenerateUrl example_lib moto_assetstore key "POST" None (Some "uploads")
   = "http://127.0.0.1:5000/b/test/01/23/0123?uploads") /\
  (@_botoGenerateUrl example_lib example_assetstore key "PUT" None
     (Some "partNumber=1&uploadId=abcd")
   = "https://s3.amazonaws.com/b/test/01/23/0123?partNumber=1&uploadId=abcd" +:+
     "&Signature=sig5732&Expires=1120&AWSAccessKeyId=access" /\
   @_botoGenerateUrl example_lib example_assetstore key "PUT" None
     (Some "partNumber=2&uploadId=abcd")
   = "https://s3.amazonaws.com/b/test/01/23/0123?partNumber=2&uploadId=abcd" +:+
     "&Signature=sig5733&Expires=1120&AWSAccessKeyId=access").
Proof. vm_compute. repeat split; reflexivity. Qed.

Lemma botoGenerateUrl_signs_key_with_query_witness :
  let key := "test/01/23/0123" in
  let q := "partNumber=1&uploadId=abcd" in
  let p0 := "https://s3.amazonaws.com/b/test/01/23/0123" in
  let p2 := "Signature=sig5732&Expires=1120&AWSAccessKeyId=access" in
  q <> "" /\ contains "?" p0 = false /\ contains "?" q = false /\
  contains "?" p2 = false /\
  @generate_url example_lib (botoConnectS3 (get_botoConnect example_assetstore))
    HMAC_TTL "PUT" (bucket example_assetstore) (key +:+ "?" +:+ q) None
  = p0 +:+ "?" +:+ q +:+ "?" +:+ p2 /\
  @_botoGenerateUrl example_lib example_assetstore key "PUT" None (Some q)
  = p0 +:+ "?" +:+ q +:+ "&" +:+ p2.
Proof.
  intros key q p0 p2.
  assert (Hq : q <> "") by discriminate.
  assert (H0 : contains "?" p0 = false) by (vm_compute; reflexivity).
  assert (H1 : contains "?" q = false) by (vm_compute; reflexivity).
  assert (H2 : contains "?" p2 = false) by (vm_compute; reflexivity).
  assert (Hurl :
    @generate_url example_lib
      (botoConnectS3 (get_botoConnect example_assetstore))
      HMAC_TTL "PUT" (bucket example_assetstore) (key +:+ "?" +:+ q) None
    = p0 +:+ "?" +:+ q +:+ "?" +:+ p2) by (vm_compute; reflexivity).
  do 4 (split; [assumption|]). split; [exact Hurl|].
  exact (proj1 (proj2 (proj2 (@botoGenerateUrl_signs_key_with_query example_lib
                                example_assetstore key "PUT" None (Some q))))
           q p0 q p2 eq_refl Hq H0 H1 H2 Hurl).
Defined.

(** ** Import *)

Section ImportRuns.

Context `{Library}.
Variable assetstore : Assetstore.

(** *** The relations between stores *)

Lemma extends_refl (s : Store) : extends s s.
Proof. repeat split; exists []; by rewrite app_nil_r. Qed.

Lemma extends_trans (s1 s2 s3 : Store) :
  extends s3 s2 -> extends s2 s1 -> extends s3 s1.
Proof.
  intros ([f3 Hf3] & [i3 Hi3] & [k3 Hk3]) ([f2 Hf2] & [i2 Hi2] & [k2 Hk2]).
  repeat split.
  - exists (f2 ++ f3). by rewrite Hf3, Hf2, app_assoc.
  - exists (i2 ++ i3). by rewrite Hi3, Hi2, app_assoc.
  - exists (k2 ++ k3). by rewrite Hk3, Hk2, app_assoc.
Qed.

Lemma same_records_extends (t' t s : Store) :
  same_records t' t -> extends t s -> extends t' s.
Proof.
  intros (Hf & Hi & Hk & _) (Ef & Ei & Ek).
  unfold extends. by rewrite Hf, Hi, Hk.
Qed.

Lemma same_records_refl (t : Store) : same_records t t.
Proof. by repeat split. Qed.

Lemma same_records_trans (t1 t2 t3 : Store) :
  same_records t3 t2 -> same_records t2 t1 -> same_records t3 t1.
Proof.
  intros (? & ? & ? & ?) (? & ? & ? & ?). repeat split; congruence.
Qed.

Lemma file_id_key (l : list File) :
  map file_id l = map (fun k => fst (fst k)) (map file_key l).
Proof. rewrite List.map_map. reflexivity. Qed.

Lemma same_records_wf (t' t : Store) :
  same_records t' t -> wf t -> wf t'.
Proof.
  intros (_ & _ & Hk & Hn) [Hnd Hlt]. split.
  - by rewrite file_id_key, Hk, <- file_id_key.
  - rewrite Hn. apply List.Forall_forall. intros f Hf.
    assert (Hid : In (file_id f) (map file_id (files t))).
    { rewrite file_id_key, <- Hk, <- file_id_key. by apply List.in_map. }
    apply List.in_map_iff in Hid as (g & <- & Hg).
    by apply (proj1 (List.Forall_forall _ _) Hlt).
Qed.

Lemma marked_refl (s : Store) : marked s s.
Proof. intros f Hf. by left. Qed.

Lemma marked_trans (s1 s2 s3 : Store) :
  marked s1 s2 -> marked s2 s3 -> marked s1 s3.
Proof.
  intros H12 H23 f3 Hf3.
  destruct (H23 f3 Hf3) as [Hin|(Himp & Hkey & Hrel)]; [by apply H12|].
  right. split; [done|]. split; [done|].
  destruct Hrel as [Hnone|(f2 & Hf2 & Hid & Hrp)]; [by left|].
  destruct (H12 f2 Hf2) as [Hin|(_ & _ & [Hnone|(f1 & Hf1 & Hid1 & Hrp1)])].
  - right. exists f2. eauto.
  - left. congruence.
  - right. exists f1. repeat split; [done|congruence..].
Qed.

Lemma update_same (message : string) (s : Store) :
  same_collections (update message s) s.
Proof. by repeat split. Qed.

(** *** Create-or-reuse, run again *)

Lemma find_app_l {A} (p : A -> bool) (l l' : list A) (x : A) :
  List.find p l = Some x -> List.find p (l ++ l') = Some x.
Proof.
  induction l as [|a l IH]; simpl; [done|]. destruct (p a); auto.
Qed.

Lemma find_app_new {A} (p : A -> bool) (l l' : list A) (x : A) :
  List.find p l = None -> p x = true ->
  List.find p (l ++ x :: l') = Some x.
Proof.
  induction l as [|a l IH]; simpl; [by intros _ ->|].
  destruct (p a); [done|auto].
Qed.

Lemma createFolder_rerun parent name parentType creator s folder s1 :
  createFolder parent name parentType creator s = (folder, s1) ->
  same_collections s1 s \/
  (folders s1 = folders s ++ [folder] /\ items s1 = items s /\
   files s1 = files s /\ next_id s1 = next_id s + 1).
Proof.
  unfold createFolder. destruct (List.find _ _); intros ?; simplify_eq.
  - left. by repeat split.
  - right. by repeat split.
Qed.

Lemma createFolder_again parent name parentType creator s folder s1 t :
  createFolder parent name parentType creator s = (folder, s1) ->
  (exists fs, folders t = folders s1 ++ fs) ->
  createFolder parent name parentType creator t = (folder, t).
Proof.
  unfold createFolder.
  destruct (List.find _ (folders s)) as [existing|] eqn:Hfind;
    intros ? [fs Hfs]; simplify_eq; rewrite Hfs.
  - by rewrite (find_app_l _ _ _ _ Hfind).
  - simpl. rewrite <- app_assoc. simpl.
    rewrite (find_app_new _ _ _ _ Hfind); [done|].
    unfold same_folder. simpl.
    by rewrite Z.eqb_refl, !String.eqb_refl.
Qed.

Lemma createItem_rerun name creator folderId s item s1 :
  createItem name creator folderId s = (item, s1) ->
  same_collections s1 s \/
  (folders s1 = folders s /\ items s1 = items s ++ [item] /\
   files s1 = files s /\ next_id s1 = next_id s + 1).
Proof.
  unfold createItem. destruct (List.find _ _); intros ?; simplify_eq.
  - left. by repeat split.
  - right. by repeat split.
Qed.

Lemma createItem_again name creator folderId s item s1 t :
  createItem name creator folderId s = (item, s1) ->
  (exists its, items t = items s1 ++ its) ->
  createItem name creator folderId t = (item, t).
Proof.
  unfold createItem.
  destruct (List.find _ (items s)) as [existing|] eqn:Hfind;
    intros ? [its Hits]; simplify_eq; rewrite Hits.
  - by rewrite (find_app_l _ _ _ _ Hfind).
  - simpl. rewrite <- app_assoc. simpl.
    rewrite (find_app_new _ _ _ _ Hfind); [done|].
    unfold same_item. simpl. by rewrite Z.eqb_refl, String.eqb_refl.
Qed.

Lemma same_file_key itemId' name f :
  same_file itemId' name f = key_matches itemId' name (file_key f).
Proof. reflexivity. Qed.

Lemma find_same_file_keys itemId' name (l l2 : list File) ks :
  map file_key l2 = map file_key l ++ ks ->
  match List.find (same_file itemId' name) l with
  | Some f =>
      exists f', List.find (same_file itemId' name) l2 = Some f' /\
                 file_key f' = file_key f
  | None =>
      forall k ks', ks = k :: ks' -> key_matches itemId' name k = true ->
        exists f', List.find (same_file itemId' name) l2 = Some f' /\
                   file_key f' = k
  end.
Proof.
  revert l2. induction l as [|a l IH]; intros l2 Hmap; simpl in *.
  - intros k ks' -> Hk. destruct l2 as [|b l2]; simplify_eq/=.
    exists b. by rewrite same_file_key, Hk.
  - destruct l2 as [|b l2]; simplify_eq/=.
    assert (Hab : same_file itemId' name b = same_file itemId' name a)
      by (rewrite !same_file_key; unfold file_key; congruence).
    rewrite Hab. destruct (same_file itemId' name a); [|by apply IH].
    exists b. split; [done|]. unfold file_key. congruence.
Qed.

Lemma In_find_Some {A} (p : A -> bool) (l : list A) (x : A) :
  List.find p l = Some x -> In x l.
Proof. intros Hf. by apply List.find_some in Hf as [? _]. Qed.

Lemma createFile_rerun name creator item size s f s1 :
  createFile assetstore name creator item size s = (f, s1) ->
  In f (files s1) /\
  ((same_collections s1 s /\ In f (files s)) \/
   (folders s1 = folders s /\ items s1 = items s /\
    files s1 = files s ++ [f] /\ next_id s1 = next_id s + 1 /\
    file_id f = next_id s /\ file_relpath f = None)).
Proof.
  unfold createFile.
  destruct (List.find _ _) as [existing|] eqn:Hfind; intros ?; simplify_eq.
  - apply In_find_Some in Hfind. split; [done|]. left. by repeat split.
  - split; [apply List.in_app_iff; simpl; auto|]. right. by repeat split.
Qed.

Lemma createFile_again name creator item size s f s1 t :
  createFile assetstore name creator item size s = (f, s1) ->
  (exists ks, map file_key (files t) = map file_key (files s1) ++ ks) ->
  exists f', createFile assetstore name creator item size t = (f', t) /\
             In f' (files t) /\ file_key f' = file_key f.
Proof.
  unfold createFile.
  destruct (List.find _ (files s)) as [existing|] eqn:Hfind;
    intros ? [ks Hks]; simplify_eq.
  - pose proof (find_same_file_keys (item_id item) name _ _ _ Hks) as Hk.
    rewrite Hfind in Hk. destruct Hk as (f' & Hf' & Hkey).
    exists f'. rewrite Hf'. split; [done|]. split; [|done].
    by apply In_find_Some in Hf'.
  - simpl in Hks. rewrite map_app, <- app_assoc in Hks. simpl in Hks.
    pose proof (find_same_file_keys (item_id item) name _ _ _ Hks) as Hk.
    rewrite Hfind in Hk.
    destruct (Hk _ _ eq_refl) as (f' & Hf' & Hkey).
    { unfold key_matches. simpl. by rewrite Z.eqb_refl, String.eqb_refl. }
    exists f'. rewrite Hf'. split; [done|]. split; [|done].
    by apply In_find_Some in Hf'.
Qed.

(** *** Saving a reference *)

Lemma NoDup_file_id_inj (l : list File) (x y : File) :
  NoDup (map file_id l) -> In x l -> In y l ->
  file_id x = file_id y -> x = y.
Proof.
  induction l as [|a l IH]; simpl; [done|].
  intros [Ha Hl]%NoDup_cons [->|Hx] [->|Hy] Hid; try done.
  - exfalso. apply Ha. apply list_elem_of_In. rewrite Hid.
    by apply List.in_map.
  - exfalso. apply Ha. apply list_elem_of_In. rewrite <- Hid.
    by apply List.in_map.
  - by apply IH.
Qed.

Lemma save_keys (g f : File) (s : Store) :
  NoDup (map file_id (files s)) -> In f (files s) ->
  file_key g = file_key f ->
  map file_key (files (save g s)) = map file_key (files s).
Proof.
  intros Hnd Hf Hkey. unfold save. simpl. rewrite List.map_map.
  apply List.map_ext_in. intros x Hx.
  destruct (file_id x =? file_id g)%Z eqn:Hid; [|done].
  apply Z.eqb_eq in Hid.
  assert (file_id g = file_id f) by (unfold file_key in Hkey; congruence).
  assert (x = f) by (apply (NoDup_file_id_inj _ _ _ Hnd Hx Hf); congruence).
  by subst.
Qed.

Lemma save_files (g : File) (s : Store) (f' : File) :
  In f' (files (save g s)) ->
  f' = g \/ (In f' (files s) /\ file_id f' <> file_id g).
Proof.
  unfold save. simpl. intros (x & Hx & Hin)%List.in_map_iff.
  destruct (file_id x =? file_id g)%Z eqn:Hid; subst; [by left|].
  right. split; [done|]. by apply Z.eqb_neq.
Qed.

Lemma save_same (g : File) (s : Store) :
  folders (save g s) = folders s /\ items (save g s) = items s /\
  next_id (save g s) = next_id s.
Proof. by repeat split. Qed.

Lemma wf_same_files (s s1 : Store) :
  files s1 = files s -> next_id s <= next_id s1 -> wf s -> wf s1.
Proof.
  intros Hf Hn [Hnd Hlt]. split; rewrite Hf; [done|].
  eapply List.Forall_impl; [|exact Hlt]. simpl. lia.
Qed.

Lemma wf_new_file (s s1 : Store) (f : File) :
  files s1 = files s ++ [f] -> file_id f = next_id s ->
  next_id s1 = next_id s + 1 -> wf s -> wf s1.
Proof.
  intros Hf Hid Hn [Hnd Hlt]. split; rewrite Hf.
  - rewrite map_app. simpl. apply NoDup_app. split; [done|].
    split; [|apply NoDup_singleton].
    intros x Hx%list_elem_of_In Hx'%list_elem_of_In.
    apply List.in_map_iff in Hx as (g & <- & Hg). simpl in Hx'.
    destruct Hx' as [Hx'|[]].
    pose proof (proj1 (List.Forall_forall _ _) Hlt g Hg). simpl in *. lia.
  - apply List.Forall_app. split.
    + eapply List.Forall_impl; [|exact Hlt]. simpl. lia.
    + constructor; [lia|constructor].
Qed.

(** *** Runs that can be repeated *)

Lemma run_ok_pre (upd : Store -> Store) (run : Run) :
  (forall s, same_collections (upd s) s) ->
  run_ok run -> run_ok (fun s => run (upd s)).
Proof.
  intros Hupd Hrun s r s' Hwf Hs.
  destruct (Hupd s) as (Hf & Hi & Hfi & Hn).
  assert (Hwf' : wf (upd s))
    by (apply (wf_same_files s); [done|lia|done]).
  destruct (Hrun _ _ _ Hwf' Hs) as (Hwf1 & Hext & Hmark & Hre).
  split; [done|]. split; [|split].
  - unfold extends in *. by rewrite <- Hf, <- Hi, <- Hfi.
  - intros f' Hf'. destruct (Hmark f' Hf') as [Hin|Hm].
    + left. by rewrite <- Hfi.
    + right. by rewrite <- Hfi.
  - intros t Hwft Hextt.
    destruct (Hupd t) as (Tf & Ti & Tfi & Tn).
    destruct (Hre (upd t)) as (t' & Ht' & Hsame).
    + apply (wf_same_files t); [done|lia|done].
    + unfold extends in *. by rewrite Tf, Ti, Tfi.
    + exists t'. split; [done|].
      destruct Hsame as (? & ? & ? & ?). repeat split; congruence.
Qed.

Lemma run_ok_return : run_ok (fun s => (Return tt, s)).
Proof.
  intros s r s' Hwf ?. simplify_eq.
  split; [done|]. split; [apply extends_refl|]. split; [apply marked_refl|].
  intros t _ _. exists t. split; [done|apply same_records_refl].
Qed.

Lemma run_ok_raise (e : Exn) : run_ok (fun s => (Raise e, s)).
Proof.
  intros s r s' Hwf ?. simplify_eq.
  split; [done|]. split; [apply extends_refl|]. split; [apply marked_refl|].
  intros t _ _. exists t. split; [done|apply same_records_refl].
Qed.

Local Arguments save : simpl never.

(** Creating or reusing an item and a file for a key and saving the file
    as a reference. *)
Lemma run_ok_key (name user obj_name : string) (parent obj_size : Z) :
  run_ok (fun st =>
            let '(item, st) := createItem name user parent st in
            let '(file, st) :=
              createFile assetstore name user item obj_size st in
            (Return tt, save (as_reference file obj_name) st)).
Proof.
  intros s r s' Hwf Hrun.
  destruct (createItem name user parent s) as [item s1] eqn:Hitem.
  destruct (createFile assetstore name user item obj_size s1)
    as [f s2] eqn:Hfile.
  simplify_eq.
  pose proof (createItem_rerun _ _ _ _ _ _ Hitem) as Hi.
  pose proof (createFile_rerun _ _ _ _ _ _ _ Hfile) as [Hin Hf].
  destruct (save_same (as_reference f obj_name) s2) as (Sf & Si & Sn).
  assert (Hfiles1 : files s1 = files s /\ next_id s <= next_id s1).
  { destruct Hi as [(_ & _ & ? & ?)|(_ & _ & ? & ?)]; split; auto; lia. }
  destruct Hfiles1 as [Hfiles1 Hnext1].
  assert (Hwf1 : wf s1) by by apply (wf_same_files s).
  assert (Hwf2 : wf s2).
  { destruct Hf as [[(_ & _ & ? & ?) _]|(_ & _ & ? & ? & ? & _)].
    - apply (wf_same_files s1); auto; lia.
    - by apply (wf_new_file s1 s2 f). }
  assert (Hkeys : map file_key (files (save (as_reference f obj_name) s2))
                  = map file_key (files s2)).
  { apply (save_keys _ f); [apply Hwf2|done|reflexivity]. }
  assert (Hext : extends (save (as_reference f obj_name) s2) s).
  { unfold extends. rewrite Hkeys, Sf, Si. split; [|split].
    - exists []. rewrite app_nil_r.
      transitivity (folders s1).
      + by destruct Hf as [[(? & _) _]|(? & _)].
      + by destruct Hi as [(? & _)|(? & _)].
    - assert (Hitems2 : items s2 = items s1)
        by by destruct Hf as [[(_ & ? & _) _]|(_ & ? & _)].
      rewrite Hitems2.
      destruct Hi as [(_ & -> & _)|(_ & -> & _)]; [|eauto].
      exists []. by rewrite app_nil_r.
    - rewrite <- Hfiles1.
      destruct Hf as [[(_ & _ & -> & _) _]|(_ & _ & -> & _)].
      + exists []. by rewrite app_nil_r.
      + rewrite map_app. eauto. }
  split.
  { apply (same_records_wf _ s2); [|done]. by repeat split. }
  split; [exact Hext|]. split.
  { intros f' Hf'. apply save_files in Hf' as [->|[Hf' Hid]].
    - right. simpl. split; [done|]. split; [eauto|].
      destruct Hf as [[_ Hold]|(_ & _ & _ & _ & _ & Hnone)]; [|by left].
      right. exists f. rewrite <- Hfiles1. by repeat split.
    - left. rewrite <- Hfiles1.
      destruct Hf as [[(_ & _ & <- & _) _]|(_ & _ & Hfs & _)]; [done|].
      rewrite Hfs in Hf'. apply List.in_app_iff in Hf' as [?|[<-|[]]];
        [done|]. by destruct Hid. }
  intros t Hwft (Tf & Ti & Tk).
  rewrite Si in Ti. rewrite Hkeys in Tk.
  assert (Hitems2 : items s2 = items s1).
  { by destruct Hf as [[(_ & ? & _) _]|(_ & ? & _)]. }
  rewrite Hitems2 in Ti.
  rewrite (createItem_again _ _ _ _ _ _ t Hitem Ti).
  destruct (createFile_again _ _ _ _ _ _ _ t Hfile Tk)
    as (f' & -> & Hin' & Hkey').
  eexists. split; [reflexivity|].
  destruct (save_same (as_reference f' obj_name) t) as (Uf & Ui & Un).
  repeat split; try done.
  apply (save_keys _ f'); [apply Hwft|done|reflexivity].
Qed.

(** Creating or reusing a folder for a prefix and importing into it. *)
Lemma run_ok_prefix (rec : Z -> string -> Run)
    (parent : Z) (name parentType user obj_name : string) :
  (forall folder path, run_ok (rec folder path)) ->
  run_ok (fun st =>
            let '(folder, st) :=
              createFolder parent name parentType user st in
            rec (folder_id folder) obj_name st).
Proof.
  intros Hrec s r s' Hwf Hrun.
  destruct (createFolder parent name parentType user s)
    as [folder s1] eqn:Hfolder.
  pose proof (createFolder_rerun _ _ _ _ _ _ _ Hfolder) as Hc.
  assert (Hfiles1 : files s1 = files s /\ next_id s <= next_id s1).
  { destruct Hc as [(_ & _ & ? & ?)|(_ & _ & ? & ?)]; split; auto; lia. }
  destruct Hfiles1 as [Hfiles1 Hnext1].
  assert (Hwf1 : wf s1) by by apply (wf_same_files s).
  assert (Hext1 : extends s1 s).
  { unfold extends. rewrite Hfiles1. split; [|split].
    - destruct Hc as [(-> & _)|(-> & _)]; [|eauto].
      exists []. by rewrite app_nil_r.
    - exists []. rewrite app_nil_r.
      by destruct Hc as [(_ & ? & _)|(_ & ? & _)].
    - exists []. by rewrite app_nil_r. }
  destruct (Hrec _ _ _ _ _ Hwf1 Hrun) as (Hwf' & Hext & Hmark & Hre).
  split; [done|]. split; [by apply (extends_trans s s1 s')|]. split.
  { unfold marked in *. by rewrite <- Hfiles1. }
  intros t Hwft Hextt.
  assert (Tf : exists fs, folders t = folders s1 ++ fs).
  { by destruct (extends_trans s1 s' t Hextt Hext) as (? & _). }
  rewrite (createFolder_again _ _ _ _ _ _ _ t Hfolder Tf).
  by apply Hre.
Qed.

Lemma import_object_ok (rec : Z -> string -> Run)
    (parent : Z) (parentType : string) (progress : bool) (user : string)
    (obj : S3Obj) :
  (forall folder path, run_ok (rec folder path)) ->
  run_ok (import_object assetstore rec parent parentType progress user obj).
Proof.
  intros Hrec. unfold import_object.
  apply (run_ok_pre
           (fun st => if progress then update (obj_name obj) st else st)
           (fun st =>
              match obj with
              | Prefix obj_name =>
                  let '(folder, st) :=
                    createFolder parent
                      (Py.rsplit_last "/" (Py.rstrip Py.is_slash obj_name))
                      parentType user st in
                  rec (folder_id folder) obj_name st
              | Key obj_name obj_size =>
                  if String.eqb (Py.rsplit_last "/" obj_name) "" then
                    (Return tt, st)
                  else if negb (String.eqb parentType "folder") then
                    (Raise (ValidationException
                              ("Keys cannot be imported directly underneath a "
                               +:+ parentType +:+ ".") None), st)
                  else
                    let '(item, st) :=
                      createItem (Py.rsplit_last "/" obj_name) user parent st in
                    let '(file, st) :=
                      createFile assetstore (Py.rsplit_last "/" obj_name)
                        user item obj_size st in
                    (Return tt, save (as_reference file obj_name) st)
              end)).
  - intros s. destruct progress; [apply update_same|by repeat split].
  - destruct obj as [nm|nm sz].
    + by apply run_ok_prefix.
    + destruct (String.eqb _ ""); [apply run_ok_return|].
      destruct (negb _); [apply run_ok_raise|apply run_ok_key].
Qed.

Lemma import_objects_ok (rec : Z -> string -> Run)
    (parent : Z) (parentType : string) (progress : bool) (user : string)
    (objs : list S3Obj) :
  (forall folder path, run_ok (rec folder path)) ->
  run_ok (import_objects assetstore rec parent parentType progress user objs).
Proof.
  intros Hrec. induction objs as [|obj rest IH]; [apply run_ok_return|].
  intros s r s' Hwf Hrun. simpl in Hrun.
  destruct (import_object assetstore rec parent parentType progress user
              obj s) as [r1 s1] eqn:Hobj.
  destruct (import_object_ok rec parent parentType progress user obj Hrec
              _ _ _ Hwf Hobj) as (Hwf1 & Hext1 & Hmark1 & Hre1).
  destruct r1 as [[]|e].
  - destruct (IH _ _ _ Hwf1 Hrun) as (Hwf' & Hext & Hmark & Hre).
    split; [done|]. split; [by apply (extends_trans s s1 s')|].
    split; [by apply (marked_trans s s1 s')|].
    intros t Hwft Hextt.
    destruct (Hre1 t Hwft (extends_trans _ _ _ Hextt Hext))
      as (t1 & Ht1 & Hsame1).
    destruct (Hre t1) as (t' & Ht' & Hsame').
    { by apply (same_records_wf t1 t). }
    { by apply (same_records_extends t1 t s'). }
    exists t'. simpl. rewrite Ht1. split; [done|].
    by apply (same_records_trans t t1 t').
  - simplify_eq. split; [done|]. split; [done|]. split; [done|].
    intros t Hwft Hextt. destruct (Hre1 t Hwft Hextt) as (t1 & Ht1 & Hsame1).
    exists t1. simpl. by rewrite Ht1.
Qed.

Lemma importData_ok (depth : nat) (w : S3) (parent : Z)
    (parentType importPath : string) (progress : bool) (user : string)
    (bucket : option Bucket) :
  run_ok (importData assetstore depth w parent parentType importPath
            progress user bucket).
Proof.
  revert parent parentType importPath bucket.
  induction depth as [|depth IH]; intros parent parentType importPath bucket;
    [apply run_ok_raise|].
  cbn [importData].
  destruct (match bucket with
            | Some b => Return b
            | None => fst (_getBucket assetstore w)
            end) as [b|e]; [|apply run_ok_raise].
  apply import_objects_ok. intros folder path. apply IH.
Qed.

End ImportRuns.

Section ImportTwice.

Context `{Library}.
Variable assetstore : Assetstore.

Lemma save_In (g f : File) (s : Store) :
  In f (files s) -> file_id f = file_id g -> In g (files (save g s)).
Proof.
  intros Hf Hid. unfold save. simpl. apply List.in_map_iff.
  exists f. split; [|done]. by rewrite Hid, Z.eqb_refl.
Qed.

(** An object that is imported gets a File record of its name whose S3 key
    is the name of the object and which is marked imported. *)
Lemma import_object_marks rec parent progress user obj_name obj_size st :
  Py.rsplit_last "/" obj_name <> "" ->
  exists st' f,
    import_object assetstore rec parent "folder" progress user
      (Key obj_name obj_size) st = (Return tt, st') /\
    In f (files st') /\ file_name f = Py.rsplit_last "/" obj_name /\
    s3Key f = Some obj_name /\ imported f = Some true.
Proof.
  intros Hname. unfold import_object.
  destruct (String.eqb_spec (Py.rsplit_last "/" obj_name) ""); [done|].
  cbn [negb String.eqb Ascii.eqb Bool.eqb].
  destruct (createItem _ _ _ _) as [item s1] eqn:Hitem.
  destruct (createFile _ _ _ _ _ _) as [f s2] eqn:Hfile.
  exists (save (as_reference f obj_name) s2), (as_reference f obj_name).
  split; [reflexivity|].
  pose proof (createFile_rerun _ _ _ _ _ _ _ _ Hfile) as [Hin _].
  split; [by apply (save_In _ f)|].
  repeat split. unfold createFile in Hfile.
  destruct (List.find _ _) as [existing|] eqn:Hfind; simplify_eq; [|done].
  apply List.find_some in Hfind as [_ Hsame].
  unfold same_file in Hsame. apply andb_true_iff in Hsame as [_ Hn].
  by apply String.eqb_eq in Hn.
Qed.

(** A record for a key stays one through what an import does next. *)
Lemma has_reference_kept (s s' : Store) (name : string) :
  wf s -> extends s' s -> marked s s' ->
  has_reference s name -> has_reference s' name.
Proof.
  intros [Hnd _] (_ & _ & ks & Hk) Hmark (f & Hin & Hname & Himp & Hkey).
  assert (Hkey' : In (file_key f) (map file_key (files s'))).
  { rewrite Hk. apply List.in_or_app. left. by apply List.in_map. }
  apply List.in_map_iff in Hkey' as (f' & Hsame & Hin').
  unfold file_key in Hsame. injection Hsame as Hid _ Hn.
  destruct (Hmark f' Hin') as [Hold|(Himp' & Hkey' & _)].
  - assert (f' = f) by by apply (NoDup_file_id_inj (files s)).
    subst f'. by exists f.
  - exists f'. rewrite Hn. done.
Qed.

Section Walk.

Variables (w : S3) (progress : bool) (user : string) (b : Bucket).
Variable depth : nat.

Hypothesis walked : forall parent path s s',
  wf s ->
  importData assetstore depth w parent "folder" path progress user (Some b) s
  = (Return tt, s') ->
  forall name, In name (walk_keys depth b path) -> has_reference s' name.

(** The loop of an import that returns leaves a record for each key it
    walks over. *)
Lemma import_objects_walk (objs : list S3Obj) (parent : Z)
    (parentType : string) (s s' : Store) :
  wf s ->
  import_objects assetstore
    (fun folder path st =>
       importData assetstore depth w folder "folder" path progress user
         (Some b) st)
    parent parentType progress user objs s = (Return tt, s') ->
  forall name,
    In name
      (List.flat_map
         (fun obj =>
            match obj with
            | Prefix name => walk_keys depth b name
            | Key name _ =>
                if String.eqb (Py.rsplit_last "/" name) "" then []
                else [name]
            end) objs) ->
    has_reference s' name.
Proof.
  set (rec := fun folder path st =>
                importData assetstore depth w folder "folder" path progress
                  user (Some b) st).
  assert (Hrec : forall folder path, run_ok (rec folder path)).
  { intros folder path. apply importData_ok. }
  revert s. induction objs as [|obj rest IH]; intros s Hwf Hrun name Hin;
    [done|].
  cbn [import_objects] in Hrun.
  destruct (import_object assetstore rec parent parentType progress user
              obj s) as [r1 s1] eqn:Hobj.
  destruct (import_object_ok assetstore rec parent parentType progress user
              obj Hrec _ _ _ Hwf Hobj) as (Hwf1 & _ & _ & _).
  destruct r1 as [[]|e]; [|done].
  cbn [List.flat_map] in Hin. apply List.in_app_or in Hin as [Hin|Hin];
    [|by apply (IH s1)].
  destruct (import_objects_ok assetstore rec parent parentType progress user
              rest Hrec _ _ _ Hwf1 Hrun) as (_ & Hext & Hmark & _).
  apply (has_reference_kept s1 s'); try done.
  unfold import_object in Hobj.
  assert (Hwf0 : wf (if progress then update (obj_name obj) s else s)).
  { destruct progress; [|done]. by apply (wf_same_files s). }
  destruct obj as [nm|nm sz].
  - destruct (createFolder _ _ _ _ _) as [folder s0] eqn:Hfolder.
    pose proof (createFolder_rerun _ _ _ _ _ _ _ Hfolder) as Hc.
    assert (Hwf0' : wf s0).
    { apply (wf_same_files _ s0) in Hwf0; [done| |];
        destruct Hc as [(_ & _ & ? & ?)|(_ & _ & ? & ?)]; auto; lia. }
    by apply (walked (folder_id folder) nm s0 s1).
  - destruct (String.eqb_spec (Py.rsplit_last "/" nm) "") as [|Hseg];
      [done|]. destruct Hin as [<-|[]].
    destruct (String.eqb_spec parentType "folder") as [->|];
      cbn [negb] in Hobj; [|done].
    destruct (import_object_marks rec parent progress user nm sz s Hseg)
      as (st' & f & Hrun' & Hf & Hname & Hkey & Himp).
    unfold import_object in Hrun'.
    apply String.eqb_neq in Hseg. rewrite Hseg in Hrun'.
    cbn [negb String.eqb Ascii.eqb Bool.eqb] in Hrun'.
    rewrite Hobj in Hrun'. injection Hrun' as <-.
    exists f. by rewrite Hkey.
Qed.

End Walk.

(** An import that returns has left a record for each key it walked
    over. *)
Lemma importData_walk (w : S3) (progress : bool) (user : string)
    (b : Bucket) (depth : nat) :
  forall parent parentType path bucket s s',
  wf s -> bucket_used assetstore w bucket = Return b ->
  importData assetstore depth w parent parentType path progress user bucket s
  = (Return tt, s') ->
  forall name, In name (walk_keys depth b path) -> has_reference s' name.
Proof.
  induction depth as [|depth IH];
    intros parent parentType path bucket s s' Hwf Hb Hrun name Hin; [done|].
  cbn [importData] in Hrun.
  change (match bucket with
          | Some b => Return b
          | None => fst (_getBucket assetstore w)
          end) with (bucket_used assetstore w bucket) in Hrun.
  rewrite Hb in Hrun. cbn [walk_keys] in Hin.
  refine (import_objects_walk w progress user b depth _ _ _ _ _ _ Hwf Hrun
            name Hin).
  intros parent' path' t t' Hwft Ht.
  by apply (IH parent' "folder" path' (Some b) t t').
Qed.


End ImportTwice.



(** The import of the assetstore test: the folders foo and bar, an item and
    a file named test, the file imported and without relpath; the second run
    ends well too and adds nothing. *)
Example import_test_bucket :
  let run := @importData import_lib example_assetstore 10 example_s3 1
               "folder" "" true "admin" None in
  fst (run import_store) = Return tt /\
  map folder_name (folders (snd (run import_store))) = ["import"; "foo"; "bar"] /\
  map item_name (items (snd (run import_store))) = ["test"] /\
  files (snd (run import_store))
  = [mkFile 5 "test" 0 4 "as1" None (Some "foo/bar/test") None (Some true) None] /\
  fst (run (snd (run import_store))) = Return tt /\
  files (snd (run (snd (run import_store)))) = files (snd (run import_store)).
Proof. vm_compute. repeat split; reflexivity. Qed.

(** * More of the adapter

    ** Cancelling an upload *)

Section Cancellation.

Variable assetstore : Assetstore.

Lemma cancel_page_spec (id k : string) (page cancelled : list MultiPartUpload) :
  cancel_page id k page cancelled
  = cancelled ++ List.filter (Boto.same_upload id k) page.
Proof.
  revert cancelled. induction page as [|mp page IH]; intros cancelled;
    cbn [cancel_page List.filter]; [by rewrite app_nil_r|].
  unfold Boto.same_upload at 1.
  destruct (String.eqb (mp_id mp) id && String.eqb (mp_key_name mp) k);
    rewrite IH; [by rewrite <- app_assoc|done].
Qed.

Lemma cancel_pages_spec (id k : string) (listing : MPListing)
    (cancelled : list MultiPartUpload) :
  cancel_pages id k listing cancelled
  = cancelled ++ List.filter (Boto.same_upload id k) (visited listing).
Proof.
  revert cancelled.
  induction listing as [|page is_truncated next IH]; intros cancelled;
    cbn [cancel_pages visited]; [by rewrite app_nil_r|].
  destruct (List.length page =? 0)%nat; [by rewrite app_nil_r|].
  destruct is_truncated; cbn [negb].
  - rewrite IH, cancel_page_spec, List.filter_app. by rewrite <- app_assoc.
  - apply cancel_page_spec.
Qed.

Lemma delete_if_present_objects (k : string) (b : Bucket) :
  objects (delete_if_present k b) = delete k (objects b).
Proof.
  unfold delete_if_present.
  destruct (objects b !! k) eqn:Hk; [reflexivity|].
  symmetry. by apply delete_id.
Qed.

Lemma filter_filter_same {A} (f : A -> bool) (l : list A) :
  List.filter f (List.filter f l) = List.filter f l.
Proof.
  induction l as [|a l IH]; [reflexivity|]. cbn [List.filter].
  destruct (f a) eqn:Ha; [|done]. cbn [List.filter]. by rewrite Ha, IH.
Qed.

Lemma same_upload_eq (id k : string) (mp : MultiPartUpload) :
  Boto.same_upload id k mp = true -> mp_id mp = id /\ mp_key_name mp = k.
Proof.
  unfold Boto.same_upload.
  by intros [?%String.eqb_eq ?%String.eqb_eq]%andb_true_iff.
Qed.

(** Cancelling uploads that all have one id and key drops the uploads of
    that id and key. *)
Lemma cancel_all (id k : string) (cancelled : list MultiPartUpload)
    (b : Bucket) :
  Forall (fun mp => Boto.same_upload id k mp = true) cancelled ->
  List.fold_left Boto.cancel_upload cancelled b
  = match cancelled with
    | [] => b
    | _ :: _ =>
        mkBucket (objects b)
          (List.filter (fun mp => negb (Boto.same_upload id k mp))
             (multipart_uploads b))
          (initiated b)
    end.
Proof.
  intros Hall. revert b.
  induction Hall as [|mp cancelled [Hid Hk]%same_upload_eq Hrest IH];
    intros b; [reflexivity|].
  cbn [List.fold_left]. rewrite IH.
  unfold Boto.cancel_upload. rewrite Hid, Hk.
  destruct cancelled as [|mp' rest]; [reflexivity|].
  cbn [objects multipart_uploads initiated].
  by rewrite filter_filter_same.
Qed.

(** X1. [cancelUpload] on an upload that has its key, against a bucket S3
    has: the object at the key, if there is one, is deleted and no other
    object is touched. The multipart uploads on which [cancel_upload] is
    called are exactly those, on the pages the enumeration reads, that carry
    both the upload's id and its key; when there is one, the bucket loses
    its multipart uploads of that id and key and keeps the others; when
    there is none, as for an upload without an upload id, it keeps them
    all. *)
Theorem cancelUpload_effect (listing : MPListing) (upload : Upload)
    (i : S3Info) (k : string) (w : S3) (b : Bucket) :
  s3 upload = Some i -> key i = Some k ->
  w !! bucket assetstore = Some b ->
  let cancelled :=
    match uploadId i with
    | Some id => List.filter (Boto.same_upload id k) (visited listing)
    | None => []
    end in
  exists b',
    cancelUpload assetstore listing upload w
    = (Return cancelled, <[bucket assetstore := b']> w) /\
    objects b' = delete k (objects b) /\
    (cancelled = [] -> multipart_uploads b' = multipart_uploads b) /\
    (cancelled <> [] -> forall id, uploadId i = Some id ->
     multipart_uploads b'
     = List.filter (fun mp => negb (Boto.same_upload id k mp))
         (multipart_uploads b)) /\
    initiated b' = initiated b.
Proof.
  intros Hs3 Hkey Hb cancelled.
  assert (Hdel : multipart_uploads (delete_if_present k b)
                 = multipart_uploads b /\
                 initiated (delete_if_present k b) = initiated b).
  { unfold delete_if_present. by destruct (objects b !! k). }
  destruct Hdel as [Hmp Hinit].
  unfold cancelUpload, bind, _getBucket, on_bucket, ret.
  rewrite Hs3, Hkey, Hb. cbn [fst snd]. rewrite Hb.
  destruct (uploadId i) as [id|] eqn:Hid.
  - subst cancelled.
    rewrite lookup_insert_eq, insert_insert_eq, cancel_pages_spec.
    cbn [app].
    rewrite (cancel_all id k) by (apply List.Forall_forall; intros mp
                                    [_ ?]%List.filter_In; done).
    destruct (List.filter _ (visited listing)) as [|mp rest] eqn:Hc.
    + exists (delete_if_present k b).
      split; [done|]. split; [apply delete_if_present_objects|].
      by repeat split.
    + eexists. split; [reflexivity|].
      cbn [objects multipart_uploads initiated].
      split; [apply delete_if_present_objects|].
      split; [done|]. split; [|done].
      intros _ id' [= <-]. by rewrite Hmp.
  - exists (delete_if_present k b).
    split; [done|]. split; [apply delete_if_present_objects|].
    by repeat split.
Qed.

(** X2. [cancelUpload] after [initUpload] alone. An upload of size at most
    0, which [initUpload] leaves without S3 state, is cancelled without a
    call to S3, whether the bucket is there or not. An upload of positive
    size needs the bucket: without it [cancelUpload] raises and S3 is as it
    was; with it nothing is cancelled, no multipart upload having been
    started under this upload, and only the object at the upload's key is
    removed. *)
Theorem cancelUpload_after_initUpload `{Library} (remote_ip uid : string)
    (listing : MPListing) (upload : Upload) (w : S3) :
  s3 upload = None ->
  let cancel :=
    bind (initUpload remote_ip assetstore uid upload)
      (cancelUpload assetstore listing) in
  (size upload <= 0 -> cancel w = (Return [], w)) /\
  (0 < size upload -> w !! bucket assetstore = None ->
   cancel w = (Raise (Exception "Could not connect to S3 bucket."), w)) /\
  (0 < size upload -> forall b, w !! bucket assetstore = Some b ->
   let k :=
     Py.join_nonempty "/"
       [default "" (prefix assetstore); Py.slice 0 2 uid; Py.slice 2 4 uid;
        uid] in
   exists b',
     cancel w = (Return [], <[bucket assetstore := b']> w) /\
     objects b' = delete k (objects b) /\
     multipart_uploads b' = multipart_uploads b).
Proof.
  intros Hs3 cancel. subst cancel. unfold bind, initUpload.
  split; [|split].
  - intros Hsize. apply Z.leb_le in Hsize. rewrite Hsize.
    unfold ret, cancelUpload. by rewrite Hs3.
  - intros Hsize Hb. apply Z.leb_gt in Hsize. rewrite Hsize.
    unfold ret, cancelUpload, bind, _getBucket. cbn. by rewrite Hb.
  - intros Hsize b Hb. apply Z.leb_gt in Hsize. rewrite Hsize.
    set (k := Py.join_nonempty "/" _).
    exists (delete_if_present k b).
    split; [|split; [apply delete_if_present_objects|]].
    + unfold ret, cancelUpload, bind, _getBucket, on_bucket.
      cbn [s3 key uploadId]. by rewrite !Hb.
    + unfold delete_if_present. by destruct (objects b !! k).
Qed.

End Cancellation.

(** ** The deletion handler, and the life of a single-shot upload *)

Section Lifecycle.

Context `{Library}.
Variable remote_ip : string.
Variable assetstore : Assetstore.

(** X3. The handler of the deletion trigger never raises. It removes the
    object at the trigger's key from the trigger's bucket and touches
    nothing else: the other objects, the bucket's multipart uploads and the
    other buckets are as before, and when S3 has no such bucket nothing
    happens. Handling the same trigger a second time changes nothing. *)
Theorem deleteFileImpl_removes_key (info : DeleteEvent) (w : S3) :
  exists w',
    _deleteFileImpl info w = (Return tt, w') /\
    (forall b, w !! ev_bucket info = Some b ->
       exists b', w' !! ev_bucket info = Some b' /\
                  objects b' = delete (ev_key info) (objects b) /\
                  multipart_uploads b' = multipart_uploads b /\
                  initiated b' = initiated b) /\
    (w !! ev_bucket info = None -> w' = w) /\
    (forall other, other <> ev_bucket info -> w' !! other = w !! other) /\
    _deleteFileImpl info w' = (Return tt, w').
Proof.
  unfold _deleteFileImpl.
  destruct (w !! ev_bucket info) as [b|] eqn:Hb.
  2: { exists w. rewrite Hb. repeat split; try done. }
  destruct (objects b !! ev_key info) as [data|] eqn:Hk.
  - eexists. split; [reflexivity|]. rewrite lookup_insert_eq. cbn.
    rewrite lookup_delete_eq. repeat split; try done.
    + intros b0 ?. simplify_eq. eauto.
    + intros other Hne. by rewrite lookup_insert_ne.
  - exists w. rewrite Hb, Hk. repeat split; try done.
    intros b0 ?. simplify_eq. exists b0. rewrite delete_id by done. done.
Qed.

(** X4. A proxied chunk of a single-shot upload that carries at least the
    declared size is stored whole under the upload's key, replacing what was
    there; [received] becomes the length of the chunk, which may exceed the
    declared size; the rest of the Upload document and of the bucket is as
    before. *)
Theorem single_shot_write_stored (upload : Upload) (i : S3Info)
    (k data : string) (w : S3) (b : Bucket) :
  s3 upload = Some i -> chunked i = false -> key i = Some k ->
  w !! bucket assetstore = Some b ->
  size upload <= Py.len data ->
  uploadChunk remote_ip assetstore upload (ChunkFile data) w
  = (Return (set_received upload (Py.len data)),
     <[bucket assetstore :=
         mkBucket (<[k := data]> (objects b)) (multipart_uploads b)
           (initiated b)]> w).
Proof.
  intros Hs3 Hchunked Hkey Hb Hlong.
  unfold uploadChunk, _proxiedUploadChunk, bind, lift, ret, raise,
    getitem, on_bucket, _getBucket.
  rewrite Hb, Hs3, Hchunked, Hkey. cbn. rewrite Hb.
  apply Z.ltb_ge in Hlong. by rewrite Hlong.
Qed.

(** X5. The life of a single-shot proxied upload. The chunk is stored,
    [finalizeUpload] stamps the File record with the upload's locator and
    key without a call to S3, [deleteFile] of that record, when no other
    record has its locator, enqueues one trigger, and the handler of that
    trigger removes the object the upload wrote: the bucket is left with the
    objects it had, less the one at the key, and when the key was new S3 is
    exactly as it was before the upload. *)
Theorem upload_then_delete_restores (upload : Upload) (i : S3Info)
    (k data : string) (w : S3) (b : Bucket) (file : File)
    (files : list File) :
  0 < size upload -> s3 upload = Some i -> chunked i = false ->
  key i = Some k -> w !! bucket assetstore = Some b ->
  size upload <= Py.len data -> 0 < file_size file ->
  length (sharing files (relpath i) (_id assetstore)) = 1%nat ->
  exists upload' w1 file' info w2 b2,
    uploadChunk remote_ip assetstore upload (ChunkFile data) w
    = (Return upload', w1) /\
    finalizeUpload assetstore upload' file w1 = (Return file', w1) /\
    file_relpath file' = Some (relpath i) /\ s3Key file' = Some k /\
    deleteFile assetstore files file'
    = Return [("_s3_assetstore_delete_file", info)] /\
    _deleteFileImpl info w1 = (Return tt, w2) /\
    w2 !! bucket assetstore = Some b2 /\
    objects b2 = delete k (objects b) /\
    multipart_uploads b2 = multipart_uploads b /\
    (objects b !! k = None -> w2 = w).
Proof.
  intros Hsize Hs3 Hchunked Hkey Hb Hlong Hfsize Hone.
  set (b1 := mkBucket (<[k := data]> (objects b)) (multipart_uploads b)
               (initiated b)).
  assert (Hrun :
    uploadChunk remote_ip assetstore upload (ChunkFile data) w
    = (Return (set_received upload (Py.len data)),
       <[bucket assetstore := b1]> w)).
  { unfold uploadChunk, _proxiedUploadChunk, bind, lift, ret, raise,
      getitem, on_bucket, _getBucket.
    rewrite Hb, Hs3, Hchunked, Hkey. cbn. rewrite Hb.
    assert (Hge : (Py.len data <? size upload)%Z = false)
      by by apply Z.ltb_ge.
    by rewrite Hge. }
  exists (set_received upload (Py.len data)), (<[bucket assetstore := b1]> w).
  eexists. exists (mkDeleteEvent (get_botoConnect assetstore)
                     (bucket assetstore) k).
  exists (<[bucket assetstore := Boto.delete_key b1 k]> w).
  exists (Boto.delete_key b1 k).
  split; [exact Hrun|]. split.
  { unfold finalizeUpload, bind, lift, getitem, ret. cbn [size set_received s3].
    apply Z.leb_gt in Hsize. rewrite Hsize, Hs3, Hkey, Hchunked.
    reflexivity. }
  cbn [file_relpath s3Key]. do 2 (split; [reflexivity|]). split.
  { unfold deleteFile. cbn [file_size file_relpath s3Key].
    apply Z.ltb_lt in Hfsize. rewrite Hfsize.
    apply (count_limit_2 assetstore) in Hone. apply Z.eqb_eq in Hone.
    by rewrite Hone. }
  split.
  { unfold _deleteFileImpl. cbn [ev_bucket ev_key].
    rewrite lookup_insert_eq. subst b1. cbn [objects].
    rewrite lookup_insert_eq. by rewrite insert_insert_eq. }
  split; [apply lookup_insert_eq|]. subst b1. cbn.
  split; [apply delete_insert_eq|]. split; [reflexivity|].
  intros Hfresh. unfold Boto.delete_key. cbn.
  rewrite delete_insert_eq, delete_id by done.
  rewrite <- (insert_id w (bucket assetstore) b Hb) at 2.
  by destruct b.
Qed.

(** X6. Cancelling a single-shot proxied upload whose chunk has been
    stored removes the object the chunk wrote: the bucket is left with the
    objects it had, less the one at the key, and when the key was new S3 is
    exactly as it was before the upload. No multipart upload is cancelled
    for an upload that has no upload id. *)
Theorem upload_then_cancel_restores (upload : Upload) (i : S3Info)
    (k data : string) (w : S3) (b : Bucket) (listing : MPListing) :
  s3 upload = Some i -> chunked i = false -> key i = Some k ->
  uploadId i = None ->
  w !! bucket assetstore = Some b ->
  size upload <= Py.len data ->
  exists upload' w1 w2 b2,
    uploadChunk remote_ip assetstore upload (ChunkFile data) w
    = (Return upload', w1) /\
    cancelUpload assetstore listing upload' w1 = (Return [], w2) /\
    w2 !! bucket assetstore = Some b2 /\
    objects b2 = delete k (objects b) /\
    multipart_uploads b2 = multipart_uploads b /\
    (objects b !! k = None -> w2 = w).
Proof.
  intros Hs3 Hchunked Hkey Hid Hb Hlong.
  set (b1 := mkBucket (<[k := data]> (objects b)) (multipart_uploads b)
               (initiated b)).
  assert (Hrun :
    uploadChunk remote_ip assetstore upload (ChunkFile data) w
    = (Return (set_received upload (Py.len data)),
       <[bucket assetstore := b1]> w)).
  { unfold uploadChunk, _proxiedUploadChunk, bind, lift, ret, raise,
      getitem, on_bucket, _getBucket.
    rewrite Hb, Hs3, Hchunked, Hkey. cbn. rewrite Hb.
    assert (Hge : (Py.len data <? size upload)%Z = false)
      by by apply Z.ltb_ge.
    by rewrite Hge. }
  exists (set_received upload (Py.len data)), (<[bucket assetstore := b1]> w).
  exists (<[bucket assetstore := Boto.delete_key b1 k]> w).
  exists (Boto.delete_key b1 k).
  split; [exact Hrun|]. split.
  { unfold cancelUpload, bind, ret, on_bucket, _getBucket.
    cbn [s3 set_received]. rewrite Hs3, Hkey, Hid, !lookup_insert_eq.
    unfold delete_if_present. subst b1. cbn [objects].
    rewrite lookup_insert_eq. by rewrite insert_insert_eq. }
  split; [apply lookup_insert_eq|]. subst b1. cbn.
  split; [apply delete_insert_eq|]. split; [reflexivity|].
  intros Hfresh. unfold Boto.delete_key. cbn.
  rewrite delete_insert_eq, delete_id by done.
  rewrite <- (insert_id w (bucket assetstore) b Hb) at 2.
  by destruct b.
Qed.

End Lifecycle.

(** ** Proxied multipart uploads *)

Section Multipart.

Context `{Library}.
Variable remote_ip : string.
Variable assetstore : Assetstore.

Lemma insert_part_last (n : Z) (d : string) (parts : list (Z * string)) :
  Forall (fun p => fst p < n) parts ->
  Boto.insert_part n d parts = parts ++ [(n, d)].
Proof.
  induction parts as [|[m d'] parts IH]; intros Hlt; [reflexivity|].
  apply Forall_cons in Hlt as [Hm Hrest]. cbn in Hm.
  cbn [Boto.insert_part].
  assert (Hn1 : (n <? m)%Z = false) by (apply Z.ltb_ge; lia).
  assert (Hn2 : (n =? m)%Z = false) by (apply Z.eqb_neq; lia).
  rewrite Hn1, Hn2, IH by done. reflexivity.
Qed.

Lemma numbered_bound (chunks : list string) (n m : Z) :
  n + Z.of_nat (length chunks) <= m ->
  Forall (fun p => fst p < m) (numbered n chunks).
Proof.
  revert n. induction chunks as [|c chunks IH]; intros n Hle;
    cbn [numbered]; [constructor|].
  cbn [length] in Hle. constructor; [cbn; lia|]. apply IH. lia.
Qed.

Lemma numbered_snoc (chunks : list string) (n : Z) (c : string) :
  numbered n (chunks ++ [c])
  = numbered n chunks ++ [(n + Z.of_nat (length chunks), c)].
Proof.
  revert n. induction chunks as [|c' chunks IH]; intros n;
    cbn [numbered app length].
  - by rewrite Z.add_0_r.
  - rewrite IH.
    by replace (n + 1 + Z.of_nat (length chunks))
      with (n + Z.of_nat (S (length chunks))) by lia.
Qed.

Lemma map_snd_numbered (chunks : list string) (n : Z) :
  List.map snd (numbered n chunks) = chunks.
Proof.
  revert n. induction chunks as [|c chunks IH]; intros n; cbn;
    [reflexivity|]. by rewrite IH.
Qed.

Lemma parts_sized_numbered (minimum : Z) (chunks : list string) (n : Z) :
  Boto.parts_sized minimum (numbered n chunks) = chunks_sized minimum chunks.
Proof.
  revert n. induction chunks as [|c chunks IH]; intros n; [reflexivity|].
  cbn [numbered Boto.parts_sized chunks_sized].
  destruct chunks as [|c' chunks]; [reflexivity|].
  rewrite <- (IH (n + 1)). reflexivity.
Qed.

Lemma total_len_app (l1 l2 : list string) :
  total_len (l1 ++ l2) = total_len l1 + total_len l2.
Proof. induction l1 as [|c l1 IH]; cbn; [reflexivity|]. rewrite IH. lia. Qed.

Lemma map_others (id k : string) (f : MultiPartUpload -> MultiPartUpload)
    (l : list MultiPartUpload) :
  Forall (fun mp => Boto.same_upload id k mp = false) l ->
  List.map (fun mp => if Boto.same_upload id k mp then f mp else mp) l = l.
Proof.
  induction 1 as [|mp l Hmp _ IH]; [reflexivity|].
  cbn [List.map]. by rewrite Hmp, IH.
Qed.

Lemma find_others (id k : string) (l r : list MultiPartUpload) :
  Forall (fun mp => Boto.same_upload id k mp = false) l ->
  List.find (Boto.same_upload id k) (l ++ r)
  = List.find (Boto.same_upload id k) r.
Proof.
  induction 1 as [|mp l Hmp _ IH]; [reflexivity|].
  cbn [app List.find]. by rewrite Hmp.
Qed.

Lemma filter_others (id k : string) (l : list MultiPartUpload) :
  Forall (fun mp => Boto.same_upload id k mp = false) l ->
  List.filter (fun mp => negb (Boto.same_upload id k mp)) l = l.
Proof.
  induction 1 as [|mp l Hmp _ IH]; [reflexivity|].
  cbn [List.filter]. by rewrite Hmp, IH.
Qed.

Lemma session_after_cons (st : Session) (chunk : Chunk) (rest : list Chunk) :
  session_after remote_ip assetstore st (chunk :: rest)
  = session_after remote_ip assetstore
      (session_uploadChunk remote_ip assetstore st chunk) rest.
Proof. reflexivity. Qed.

Section OneUpload.

Variables id k : string.
Variable mps : list MultiPartUpload.
Hypothesis others : Forall (fun mp => Boto.same_upload id k mp = false) mps.

Lemma same_upload_refl (parts : list (Z * string)) :
  Boto.same_upload id k (mkMultiPartUpload id k parts) = true.
Proof. unfold Boto.same_upload. cbn. by rewrite !String.eqb_refl. Qed.

Lemma existsb_last (parts : list (Z * string)) :
  existsb (Boto.same_upload id k) (mps ++ [mkMultiPartUpload id k parts])
  = true.
Proof.
  rewrite existsb_app. cbn [existsb]. rewrite same_upload_refl.
  by rewrite orb_true_r.
Qed.

Lemma map_last (f : MultiPartUpload -> MultiPartUpload)
    (parts : list (Z * string)) :
  List.map (fun mp => if Boto.same_upload id k mp then f mp else mp)
    (mps ++ [mkMultiPartUpload id k parts])
  = mps ++ [f (mkMultiPartUpload id k parts)].
Proof.
  rewrite List.map_app, map_others by done. cbn [List.map].
  by rewrite same_upload_refl.
Qed.

Lemma find_last (parts : list (Z * string)) :
  List.find (Boto.same_upload id k) (mps ++ [mkMultiPartUpload id k parts])
  = Some (mkMultiPartUpload id k parts).
Proof.
  rewrite find_others by done. cbn [List.find].
  by rewrite same_upload_refl.
Qed.

Lemma filter_last (parts : list (Z * string)) :
  List.filter (fun mp => negb (Boto.same_upload id k mp))
    (mps ++ [mkMultiPartUpload id k parts])
  = mps.
Proof.
  rewrite List.filter_app, filter_others by done. cbn [List.filter].
  rewrite same_upload_refl. cbn [negb]. by rewrite app_nil_r.
Qed.

(** One more part of a multipart upload in progress. *)
Lemma proxied_part_step (upload : Upload) (i : S3Info) (p : Z) (c : string)
    (w : S3) (objs : gmap string string) (parts : list (Z * string))
    (init : Z) :
  s3 upload = Some (in_progress i id k p) -> chunked i = true ->
  w !! bucket assetstore
  = Some (mkBucket objs (mps ++ [mkMultiPartUpload id k parts]) init) ->
  uploadChunk remote_ip assetstore upload (ChunkFile c) w
  = (Return (set_received (set_s3 upload (in_progress i id k (p + 1)))
               (received upload + Py.len c)),
     <[bucket assetstore :=
         mkBucket objs
           (mps ++ [mkMultiPartUpload id k (Boto.insert_part (p + 1) c parts)])
           init]> w).
Proof.
  intros Hs3 Hchunked Hb.
  unfold uploadChunk, _proxiedUploadChunk, bind, lift, ret, getitem,
    on_bucket, _getBucket.
  rewrite Hb, Hs3. cbn [in_progress chunked uploadId keyName partNumber].
  rewrite Hchunked. cbn [chunkLength relpath key request].
  rewrite Hb. unfold Boto.upload_part_from_file.
  cbn [multipart_uploads objects initiated]. rewrite existsb_last.
  rewrite map_last. unfold in_progress.
  cbn [chunkLength relpath key request Boto.add_part mp_id mp_key_name
       mp_parts].
  by rewrite Hchunked.
Qed.

Lemma proxied_parts_run (i : S3Info) (objs : gmap string string) (init : Z)
    (chunks : list string) :
  chunked i = true ->
  forall (upload : Upload) (sent : list string) (w : S3),
  s3 upload = Some (in_progress i id k (Z.of_nat (length sent))) ->
  w !! bucket assetstore
  = Some (mkBucket objs (mps ++ [mkMultiPartUpload id k (numbered 1 sent)])
            init) ->
  session_after remote_ip assetstore (mkSession upload w)
    (List.map ChunkFile chunks)
  = mkSession
      (set_received
         (set_s3 upload
            (in_progress i id k (Z.of_nat (length (sent ++ chunks)))))
         (received upload + total_len chunks))
      (<[bucket assetstore :=
           mkBucket objs
             (mps ++ [mkMultiPartUpload id k (numbered 1 (sent ++ chunks))])
             init]> w).
Proof.
  intros Hchunked. unfold session_after.
  induction chunks as [|c chunks IH]; intros upload sent w Hs3 Hb.
  - cbn [List.map fold_left total_len]. rewrite app_nil_r, Z.add_0_r.
    rewrite insert_id by done. f_equal.
    destruct upload. cbn in *. by subst.
  - cbn [List.map fold_left]. unfold session_uploadChunk at 2.
    cbn [session_upload session_s3].
    rewrite (proxied_part_step upload i _ c w objs (numbered 1 sent) init
               Hs3 Hchunked Hb).
    rewrite insert_part_last by (apply numbered_bound; lia).
    rewrite (IH _ (sent ++ [c])).
    + cbn [received set_received set_s3 name mimeType size userId behavior
           s3 total_len].
      rewrite insert_insert_eq, <- app_assoc. cbn [app].
      f_equal. f_equal. lia.
    + cbn [s3 set_received set_s3]. do 2 f_equal.
      rewrite length_app. cbn [length]. lia.
    + rewrite lookup_insert_eq. do 4 f_equal.
      rewrite numbered_snoc.
      by replace (1 + Z.of_nat (length sent))
        with (Z.of_nat (length sent) + 1) by lia.
Qed.

End OneUpload.

(** The session after the chunks of a proxied multipart upload, the first
    of which starts it. *)
Lemma proxied_session (upload : Upload) (i : S3Info) (k c : string)
    (chunks : list string) (w : S3) (b : Bucket) :
  s3 upload = Some i -> chunked i = true ->
  uploadId i = None -> key i = Some k ->
  w !! bucket assetstore = Some b ->
  let id := "upload-" +:+ Py.str (initiated b) in
  Forall (fun mp => Boto.same_upload id k mp = false) (multipart_uploads b) ->
  session_after remote_ip assetstore (mkSession upload w)
    (List.map ChunkFile (c :: chunks))
  = mkSession
      (set_received
         (set_s3 upload
            (in_progress i id k (Z.of_nat (length (c :: chunks)))))
         (received upload + total_len (c :: chunks)))
      (<[bucket assetstore :=
           mkBucket (objects b)
             (multipart_uploads b
              ++ [mkMultiPartUpload id k (numbered 1 (c :: chunks))])
             (initiated b + 1)]> w).
Proof.
  intros Hs3 Hchunked Hid Hkey Hb id Hothers.
  assert (Hfirst :
    uploadChunk remote_ip assetstore upload (ChunkFile c) w
    = (Return (set_received (set_s3 upload (in_progress i id k 1))
                 (received upload + Py.len c)),
       <[bucket assetstore :=
           mkBucket (objects b)
             (multipart_uploads b ++ [mkMultiPartUpload id k (numbered 1 [c])])
             (initiated b + 1)]> w)).
  { unfold uploadChunk, _proxiedUploadChunk, bind, lift, ret, getitem,
      on_bucket, _getBucket.
    rewrite Hb, Hs3, Hchunked, Hid, Hkey.
    cbn [Boto.initiate_multipart_upload fst snd mp_id mp_key_name
         partNumber chunked chunkLength relpath key request uploadId
         keyName].
    rewrite Hb.
    cbn [mp_id mp_key_name partNumber chunked chunkLength relpath key
         request uploadId keyName].
    rewrite lookup_insert_eq. unfold Boto.upload_part_from_file.
    cbn [multipart_uploads objects initiated]. fold id.
    rewrite (existsb_last id k), (map_last id k _ Hothers).
    rewrite insert_insert_eq. unfold in_progress. by rewrite Hchunked, Hkey. }
  cbn [List.map]. rewrite session_after_cons.
  unfold session_uploadChunk. cbn [session_upload session_s3].
  rewrite Hfirst.
  rewrite (proxied_parts_run id k _ Hothers i (objects b) (initiated b + 1)
             chunks Hchunked
             (set_received (set_s3 upload (in_progress i id k 1))
                (received upload + Py.len c))
             [c] _ eq_refl (lookup_insert_eq _ _ _)).
  cbn [received set_received set_s3 name mimeType size userId behavior s3
       total_len app].
  rewrite insert_insert_eq. f_equal. f_equal. lia.
Qed.

(** X7. A proxied multipart upload, from its first chunk to
    [finalizeUpload]. The first chunk starts the multipart upload under the
    upload's key; after the chunks [received] has grown by their total
    length, the part number is their count, and the bucket holds them as
    the parts 1, 2, ... of that one multipart upload, its objects still
    untouched. When every chunk but the last has at least the size S3 wants
    of a part, [finalizeUpload] then completes the upload: the object under
    the upload's key is the concatenation of the chunks in the order sent,
    the multipart upload is gone, and the File record carries the upload's
    locator and key. When a chunk other than the last is smaller, S3
    refuses, [finalizeUpload] raises its error and the multipart upload
    stays, with no object made. S3 gives the new multipart upload an id no
    other upload of that key has. *)
Theorem proxied_multipart_round_trip (upload : Upload) (i : S3Info)
    (k c : string) (chunks : list string) (w : S3) (b : Bucket)
    (file : File) :
  0 < size upload -> s3 upload = Some i -> chunked i = true ->
  uploadId i = None -> key i = Some k ->
  w !! bucket assetstore = Some b ->
  let id := "upload-" +:+ Py.str (initiated b) in
  Forall (fun mp => Boto.same_upload id k mp = false) (multipart_uploads b) ->
  0 < received upload + total_len (c :: chunks) ->
  let st :=
    session_after remote_ip assetstore (mkSession upload w)
      (List.map ChunkFile (c :: chunks)) in
  received (session_upload st) = received upload + total_len (c :: chunks) /\
  s3 (session_upload st)
  = Some (in_progress i id k (Z.of_nat (length (c :: chunks)))) /\
  session_s3 st
  = <[bucket assetstore :=
        mkBucket (objects b)
          (multipart_uploads b
           ++ [mkMultiPartUpload id k (numbered 1 (c :: chunks))])
          (initiated b + 1)]> w /\
  finalizeUpload assetstore (session_upload st) file (session_s3 st)
  = (if chunks_sized upload_part_min_size (c :: chunks)
     then
       (Return (stamped file i k),
        <[bucket assetstore :=
            mkBucket (<[k := String.concat "" (c :: chunks)]> (objects b))
              (multipart_uploads b) (initiated b + 1)]> w)
     else (Raise (S3ResponseError "EntityTooSmall"), session_s3 st)).
Proof.
  intros Hsize Hs3 Hchunked Hid Hkey Hb id Hothers Hpos st.
  assert (Hst := proxied_session upload i k c chunks w b Hs3 Hchunked Hid
                   Hkey Hb Hothers).
  fold id st in Hst.
  rewrite Hst. cbn [session_upload session_s3 received set_received s3 set_s3].
  do 3 (split; [reflexivity|]).
  unfold finalizeUpload, bind, lift, ret, getitem, on_bucket, _getBucket.
  cbn [size set_received set_s3 s3 received in_progress key chunked
       uploadId keyName relpath].
  apply Z.leb_gt in Hsize. apply Z.ltb_lt in Hpos.
  rewrite Hsize, Hkey, Hchunked, Hpos, !lookup_insert_eq.
  unfold Boto.complete_upload. cbn [multipart_uploads objects initiated].
  rewrite (find_last id k _ Hothers), (filter_last id k _ Hothers).
  cbn [mp_parts]. rewrite map_snd_numbered, parts_sized_numbered.
  destruct (chunks_sized upload_part_min_size (c :: chunks)); [|reflexivity].
  by rewrite insert_insert_eq.
Qed.

(** X8. After the chunks of a proxied multipart upload, [requestOffset]
    answers with the number of bytes sent so far, so that an interrupted
    upload resumes where it stopped; it builds no request and never fails
    for being chunked. *)
Theorem requestOffset_after_proxied_chunks (upload : Upload) (i : S3Info)
    (k c : string) (chunks : list string) (w : S3) (b : Bucket) :
  s3 upload = Some i -> chunked i = true ->
  uploadId i = None -> key i = Some k ->
  w !! bucket assetstore = Some b ->
  Forall (fun mp =>
            Boto.same_upload ("upload-" +:+ Py.str (initiated b)) k mp = false)
    (multipart_uploads b) ->
  0 < received upload + total_len (c :: chunks) ->
  requestOffset remote_ip assetstore
    (session_upload
       (session_after remote_ip assetstore (mkSession upload w)
          (List.map ChunkFile (c :: chunks))))
  = Return (OffsetInt (received upload + total_len (c :: chunks))).
Proof.
  intros Hs3 Hchunked Hid Hkey Hb Hothers Hpos.
  rewrite (proxied_session upload i k c chunks w b Hs3 Hchunked Hid Hkey Hb
             Hothers).
  unfold requestOffset. cbn [session_upload received set_received].
  apply Z.ltb_lt in Hpos. by rewrite Hpos.
Qed.

Lemma existsb_filter {A} (f : A -> bool) (l : list A) :
  existsb f l = true -> List.filter f l <> [].
Proof.
  induction l as [|a l IH]; [done|]. cbn [existsb List.filter].
  destruct (f a); [done|]. exact IH.
Qed.

Lemma delete_if_present_eq (k : string) (b : Bucket) :
  delete_if_present k b
  = mkBucket (delete k (objects b)) (multipart_uploads b) (initiated b).
Proof.
  unfold delete_if_present. destruct (objects b !! k) eqn:Hk; [done|].
  rewrite delete_id by done. by destruct b.
Qed.

(** X9. Cancelling a proxied multipart upload after some of its chunks.
    When the enumeration shows the upload, [cancelUpload] calls
    [cancel_upload] on it and the bucket is left with the multipart uploads
    it had before the first chunk, the parts sent being dropped with the
    upload; an object that was at the upload's key is deleted, and no other
    object is touched. *)
Theorem cancel_after_proxied_chunks (upload : Upload) (i : S3Info)
    (k c : string) (chunks : list string) (w : S3) (b : Bucket)
    (listing : MPListing) :
  s3 upload = Some i -> chunked i = true ->
  uploadId i = None -> key i = Some k ->
  w !! bucket assetstore = Some b ->
  let id := "upload-" +:+ Py.str (initiated b) in
  Forall (fun mp => Boto.same_upload id k mp = false) (multipart_uploads b) ->
  existsb (Boto.same_upload id k) (visited listing) = true ->
  let st :=
    session_after remote_ip assetstore (mkSession upload w)
      (List.map ChunkFile (c :: chunks)) in
  let cancelled := List.filter (Boto.same_upload id k) (visited listing) in
  cancelled <> [] /\
  cancelUpload assetstore listing (session_upload st) (session_s3 st)
  = (Return cancelled,
     <[bucket assetstore :=
         mkBucket (delete k (objects b)) (multipart_uploads b)
           (initiated b + 1)]> w).
Proof.
  intros Hs3 Hchunked Hid Hkey Hb id Hothers Hshown st cancelled.
  assert (Hne : cancelled <> []) by by apply existsb_filter.
  split; [exact Hne|]. subst st.
  rewrite (proxied_session upload i k c chunks w b Hs3 Hchunked Hid Hkey Hb
             Hothers).
  fold id. unfold cancelUpload, bind, _getBucket, on_bucket, ret.
  cbn [session_upload session_s3 s3 set_received set_s3 in_progress key
       uploadId].
  rewrite Hkey, !lookup_insert_eq. cbn [fst snd].
  rewrite !insert_insert_eq, cancel_pages_spec.
  cbn [app]. fold cancelled.
  rewrite (cancel_all id k) by (apply List.Forall_forall; intros mp
                                  [_ ?]%List.filter_In; done).
  destruct cancelled as [|mp rest]; [done|].
  rewrite delete_if_present_eq. cbn [objects multipart_uploads initiated].
  by rewrite (filter_last id k _ Hothers).
Qed.

End Multipart.

(** ** Direct uploads *)

Section Direct.

Context `{Library}.
Variable remote_ip : string.
Variable assetstore : Assetstore.

(** X10. A chunked upload that the client sends to S3 itself. For each part
    [uploadChunk] only signs a [PUT] for that part number and upload id of
    the upload's key and records both in the Upload document; it makes no
    call to S3 and leaves [received] as it is. [finalizeUpload] then makes
    no call to S3 either: it stamps the File record with the upload's
    locator and key and attaches the [POST] that completes the multipart
    upload of that id. Without a part, [finalizeUpload] has no upload id and
    raises [KeyError]. *)
Theorem direct_chunked_upload (upload : Upload) (i : S3Info) (k : string)
    (info : ClientChunkInfo) (file : File) (w : S3) :
  0 < size upload -> received upload <= 0 ->
  s3 upload = Some i -> chunked i = true -> key i = Some k ->
  let part :=
    "partNumber=" +:+ Py.str (info_partNumber info) +:+
    "&uploadId=" +:+ info_s3UploadId info in
  let headers := [("Content-Type", "text/plain;charset=UTF-8")] in
  exists upload' i',
    uploadChunk remote_ip assetstore upload (ChunkStr info) w
    = (Return upload', w) /\
    received upload' = received upload /\ size upload' = size upload /\
    s3 upload' = Some i' /\ key i' = Some k /\ relpath i' = relpath i /\
    uploadId i' = Some (info_s3UploadId info) /\
    partNumber i' = Some (info_partNumber info) /\
    request i'
    = Some (mkRequest "PUT"
              (Some (_botoGenerateUrl assetstore k "PUT" None (Some part)))
              None) /\
    finalizeUpload assetstore upload' file w
    = (Return
         (mkFile (file_id file) (file_name file) (file_size file)
            (itemId file) (assetstoreId file) (Some (relpath i)) (Some k)
            (Some false) (imported file)
            (Some (mkRequest "POST"
                     (Some (_botoGenerateUrl assetstore k "POST"
                              (Some headers)
                              (Some ("uploadId=" +:+ info_s3UploadId info))))
                     (Some headers)))),
       w) /\
    (uploadId i = None ->
     finalizeUpload assetstore upload file w
     = (Raise (KeyError "uploadId"), w)).
Proof.
  intros Hsize Hrec Hs3 Hchunked Hkey part headers.
  apply Z.leb_gt in Hsize. apply Z.ltb_ge in Hrec.
  eexists _, _. split.
  { unfold uploadChunk, _clientUploadChunk, bind, lift, ret, getitem.
    rewrite Hs3, Hkey. reflexivity. }
  cbn [received size s3 set_s3 key relpath uploadId partNumber request].
  do 8 (split; [done|]). split.
  - unfold finalizeUpload, bind, lift, ret, getitem.
    cbn [size set_s3 s3 key chunked received uploadId relpath].
    by rewrite Hsize, Hchunked, Hrec.
  - intros Hid. unfold finalizeUpload, bind, lift, ret, getitem.
    by rewrite Hsize, Hs3, Hkey, Hchunked, Hrec, Hid.
Qed.

End Direct.

(** ** The keys of an assetstore's uploads *)

Section Keys.

Context `{Library}.
Variable remote_ip : string.
Variable assetstore : Assetstore.

Lemma prefix_app_same (p q s : string) :
  String.prefix (p +:+ q) (p +:+ s) = String.prefix q s.
Proof.
  induction p as [|a p IH]; [reflexivity|].
  change (String.prefix (String a (p +:+ q)) (String a (p +:+ s))
          = String.prefix q s).
  cbn [String.prefix]. by destruct (ascii_dec a a).
Qed.

Lemma prefix_app (q r : string) : String.prefix q (q +:+ r) = true.
Proof.
  induction q as [|a q IH]; [by destruct r|].
  change (String.prefix (String a q) (String a (q +:+ r)) = true).
  cbn [String.prefix]. by destruct (ascii_dec a a).
Qed.

Lemma join_nonempty_under (p : string) (parts : list string) (uid : string) :
  p <> "" -> uid <> "" ->
  Py.startswith (Py.join_nonempty "/" (p :: parts ++ [uid])) (p +:+ "/")
  = true.
Proof.
  intros Hp Huid. unfold Py.join_nonempty, Py.startswith.
  cbn [List.filter]. apply String.eqb_neq in Hp. rewrite Hp. cbn [negb].
  rewrite List.filter_app. cbn [List.filter].
  apply String.eqb_neq in Huid. rewrite Huid. cbn [negb].
  destruct (List.filter _ parts ++ [uid]) as [|x xs] eqn:Hrest.
  { by apply app_eq_nil in Hrest as [_ ?]. }
  cbn [String.concat]. rewrite prefix_app_same. apply prefix_app.
Qed.

(** X11. The key [initUpload] gives an upload lies under the prefix
    [untrackedUploads] looks under, and the upload's locator is the bucket
    and that key. So a multipart upload of that key which the enumeration
    reads and which matches no known upload is reported by
    [untrackedUploads]; when deletion is asked for, [cancel_upload] is called
    on it and the bucket no longer has it. The objects of the bucket are not
    touched. *)
Theorem own_upload_found_by_sweep (uid : string) (upload : Upload) (w : S3)
    (b : Bucket) (listing : MPListing) (knownUploads : list Upload)
    (delete : bool) :
  0 < size upload -> uid <> "" -> w !! bucket assetstore = Some b ->
  exists upload' i k sw b',
    initUpload remote_ip assetstore uid upload w = (Return upload', w) /\
    s3 upload' = Some i /\ key i = Some k /\
    relpath i = "/" +:+ bucket assetstore +:+ "/" +:+ k /\
    Py.startswith k (sweep_prefix assetstore) = true /\
    untrackedUploads assetstore listing knownUploads delete w
    = (Return sw, <[bucket assetstore := b']> w) /\
    objects b' = objects b /\
    forall mp,
      In mp (visited listing) -> mp_key_name mp = k ->
      _uploadIsKnown mp knownUploads = false ->
      In (untracked_of mp) (untrackedList sw) /\
      (delete = true ->
       In mp (cancelled sw) /\ ~ In mp (multipart_uploads b')).
Proof.
  intros Hsize Huid Hb. apply Z.leb_gt in Hsize.
  set (k := Py.join_nonempty "/"
              [default "" (prefix assetstore); Py.slice 0 2 uid;
               Py.slice 2 4 uid; uid]).
  assert (Hunder : Py.startswith k (sweep_prefix assetstore) = true).
  { unfold sweep_prefix.
    destruct (String.eqb (default "" (prefix assetstore)) "") eqn:Hp;
      cbn [negb].
    - apply String.eqb_eq in Hp. rewrite Hp. unfold Py.startswith.
      by destruct k.
    - apply String.eqb_neq in Hp.
      apply (join_nonempty_under _ [Py.slice 0 2 uid; Py.slice 2 4 uid]);
        done. }
  pose proof (untrackedUploads_run assetstore listing knownUploads delete
                w b Hb) as Hrun. cbv zeta in Hrun.
  rewrite cancel_uploads_spec in Hrun.
  eexists _, _, k, _, _. split.
  { unfold initUpload. rewrite Hsize. reflexivity. }
  cbn [s3 key relpath]. do 3 (split; [reflexivity|]).
  split; [exact Hunder|]. split; [exact Hrun|].
  cbn [objects multipart_uploads untrackedList cancelled].
  split; [reflexivity|].
  intros mp Hin Hname Hunknown.
  assert (Ho : In mp (reported assetstore knownUploads listing)).
  { apply reported_spec. by rewrite Hname. }
  split; [by apply List.in_map|]. intros ->. split; [done|].
  intros [_ Hkeep%negb_true_iff]%List.filter_In.
  by rewrite cancelled_in_self in Hkeep.
Qed.

End Keys.

(** ** The service of an assetstore *)

Section Services.

Lemma append_assoc (a b c : string) : (a +:+ b) +:+ c = a +:+ (b +:+ c).
Proof.
  induction a as [|x a IH]; [reflexivity|].
  change (String x ((a +:+ b) +:+ c) = String x (a +:+ (b +:+ c))).
  by rewrite IH.
Qed.

Lemma length_append (a b : string) :
  String.length (a +:+ b) = (String.length a + String.length b)%nat.
Proof.
  induction a as [|x a IH]; [reflexivity|].
  change (S (String.length (a +:+ b))
          = S (String.length a + String.length b)). by rewrite IH.
Qed.

Lemma substring_append (a b : string) :
  String.substring 0 (String.length a) (a +:+ b) = a.
Proof.
  induction a as [|x a IH]; [by destruct b|].
  change (String x (String.substring 0 (String.length a) (a +:+ b))
          = String x a). by rewrite IH.
Qed.

Lemma consumed_append (a b : string) : Re.consumed (a +:+ b) b = a.
Proof.
  unfold Re.consumed. rewrite length_append.
  replace (String.length a + String.length b - String.length b)%nat
    with (String.length a) by lia.
  apply substring_append.
Qed.

Lemma strip_prefix_append (l s : string) :
  Re.strip_prefix l (l +:+ s) = Some s.
Proof.
  induction l as [|a l IH]; [reflexivity|].
  change (Re.strip_prefix (String a l) (String a (l +:+ s)) = Some s).
  cbn [Re.strip_prefix]. by rewrite Ascii.eqb_refl.
Qed.

Lemma strip_prefix_Some (l s s' : string) :
  Re.strip_prefix l s = Some s' -> s = l +:+ s'.
Proof.
  revert s. induction l as [|a l IH]; intros s; cbn [Re.strip_prefix].
  - by intros [= ->].
  - destruct s as [|b s]; [done|].
    destruct (Ascii.eqb a b) eqn:Hab; [|done].
    apply Ascii.eqb_eq in Hab as ->. intros ->%IH. reflexivity.
Qed.

Lemma star_stops {A} (p : ascii -> bool) (s : string)
    (k : string -> option A) :
  stops p s -> Re.star p s k = k s.
Proof. destruct s as [|a s]; [done|]. cbn. by intros ->. Qed.

Lemma star_all {A} (p : ascii -> bool) (h rest : string)
    (k : string -> option A) (r : A) :
  all_chars p h = true -> stops p rest -> k rest = Some r ->
  Re.star p (h +:+ rest) k = Some r.
Proof.
  intros Hall Hstop Hk. induction h as [|a h IH].
  - change (Re.star p rest k = Some r). by rewrite star_stops.
  - cbn [all_chars] in Hall. apply andb_true_iff in Hall as [Ha Hall].
    change (Re.star p (String a (h +:+ rest)) k = Some r).
    cbn [Re.star]. by rewrite Ha, IH.
Qed.

Lemma star_inv {A} (p : ascii -> bool) (s : string)
    (k : string -> option A) (r : A) :
  Re.star p s k = Some r ->
  exists h rest, s = h +:+ rest /\ all_chars p h = true /\ k rest = Some r.
Proof.
  induction s as [|a s IH]; cbn [Re.star].
  - intros Hk. by exists "", "".
  - destruct (p a) eqn:Ha.
    + destruct (Re.star p s k) as [r'|] eqn:Hstar.
      * intros [= ->]. destruct (IH eq_refl) as (h & rest & -> & Hall & Hk).
        exists (String a h), rest. cbn [all_chars]. by rewrite Ha, Hall.
      * intros Hk. by exists "", (String a s).
    + intros Hk. by exists "", (String a s).
Qed.

Lemma plus_all (p : ascii -> bool) (h rest : string) (g : Re.Groups)
    (k : string -> Re.Groups -> option Re.Groups) (r : Re.Groups) :
  h <> "" -> all_chars p h = true -> stops p rest -> k rest g = Some r ->
  Re.run (Re.Plus p) (h +:+ rest) g k = Some r.
Proof.
  intros Hne Hall Hstop Hk. destruct h as [|a h]; [done|].
  cbn [all_chars] in Hall. apply andb_true_iff in Hall as [Ha Hall].
  change (Re.run (Re.Plus p) (String a (h +:+ rest)) g k = Some r).
  cbn [Re.run]. rewrite Ha. by apply star_all.
Qed.

Lemma plus_inv (p : ascii -> bool) (s : string) (g : Re.Groups)
    (k : string -> Re.Groups -> option Re.Groups) (r : Re.Groups) :
  Re.run (Re.Plus p) s g k = Some r ->
  exists h rest, s = h +:+ rest /\ h <> "" /\ all_chars p h = true /\
                 k rest g = Some r.
Proof.
  cbn [Re.run]. destruct s as [|a s]; [done|].
  destruct (p a) eqn:Ha; [|done].
  intros (h & rest & -> & Hall & Hk)%star_inv.
  exists (String a h), rest. cbn [all_chars]. by rewrite Ha, Hall.
Qed.

Lemma consumed_all (a : string) : Re.consumed a "" = a.
Proof. rewrite <- (append_empty_r a) at 1. apply consumed_append. Qed.

Lemma plus_all_end (p : ascii -> bool) (h : string) (g : Re.Groups)
    (k : string -> Re.Groups -> option Re.Groups) (r : Re.Groups) :
  h <> "" -> all_chars p h = true -> k "" g = Some r ->
  Re.run (Re.Plus p) h g k = Some r.
Proof.
  intros Hne Hall Hk. rewrite <- (append_empty_r h).
  by apply plus_all.
Qed.

Lemma run_Seq r1 r2 s g k :
  Re.run (Re.Seq r1 r2) s g k
  = Re.run r1 s g (fun s' g' => Re.run r2 s' g' k).
Proof. reflexivity. Qed.

Lemma run_Group n r s g k :
  Re.run (Re.Group n r) s g k
  = Re.run r s g (fun s' g' => k s' (<[n := Re.consumed s s']> g')).
Proof. reflexivity. Qed.

Lemma run_Opt r s g k :
  Re.run (Re.Opt r) s g k
  = match Re.run r s g k with Some g' => Some g' | None => k s g end.
Proof. reflexivity. Qed.

Lemma run_Lit l s g k :
  Re.run (Re.Lit l) s g k
  = match Re.strip_prefix l s with Some s' => k s' g | None => None end.
Proof. reflexivity. Qed.

Lemma run_Dollar_end g k : Re.run Re.Dollar "" g k = k "" g.
Proof. reflexivity. Qed.

(** The host and the port of a service of that form are found, also when
    a newline follows the port. *)
Lemma host_port_run (h : string) (digits : option string) (nl : string)
    (g : Re.Groups) :
  well_formed h digits ->
  nl = "" \/ (nl = Re.newline /\ is_Some digits) ->
  Re.run (Re.Seq host_re (Re.Seq (Re.Opt port_re) Re.Dollar))
    ((h +:+ port_text digits) +:+ nl) g (fun _ groups => Some groups)
  = Some match digits with
         | Some d => <[3%nat := ":" +:+ d]> (<[4%nat := d]> (<[2%nat := h]> g))
         | None => <[2%nat := h]> g
         end.
Proof.
  intros (Hh & Hhost & Hport) Hnl. unfold host_re, port_re.
  rewrite run_Seq, run_Group. destruct digits as [d|]; cbn [port_text].
  - destruct Hport as [Hd Hdigits]. rewrite append_assoc.
    apply plus_all; [done|done|reflexivity|].
    rewrite consumed_append, run_Seq, run_Opt, run_Group, run_Seq, run_Lit.
    rewrite append_assoc, strip_prefix_append, run_Group.
    assert (Hdollar : forall g' k, Re.run Re.Dollar nl g' k = k nl g').
    { intros g' k. by destruct Hnl as [->|[-> _]]. }
    erewrite plus_all; [reflexivity|done|done| |].
    + by destruct Hnl as [->|[-> _]].
    + rewrite Hdollar, consumed_append.
      by rewrite <- (append_assoc ":" d nl), consumed_append.
  - destruct Hnl as [->|[_ [? ?]]]; [|done].
    rewrite !append_empty_r. apply plus_all_end; [done|done|].
    by rewrite consumed_all.
Qed.

Lemma contains_append (c : ascii) (a b : string) :
  contains c (a +:+ b) = contains c a || contains c b.
Proof.
  induction a as [|x a IH]; [reflexivity|].
  change (Ascii.eqb x c || contains c (a +:+ b)
          = Ascii.eqb x c || contains c a || contains c b).
  by rewrite IH, orb_assoc.
Qed.

Lemma all_chars_contains (p : ascii -> bool) (c : ascii) (s : string) :
  p c = false -> all_chars p s = true -> contains c s = false.
Proof.
  intros Hc. induction s as [|a s IH]; [done|].
  cbn [all_chars contains]. intros [Ha Hs]%andb_true_iff.
  rewrite IH by done. destruct (Ascii.eqb a c) eqn:Hac; [|done].
  apply Ascii.eqb_eq in Hac. congruence.
Qed.

Lemma well_formed_no_slash (h : string) (digits : option string) :
  well_formed h digits -> contains "/" (h +:+ port_text digits) = false.
Proof.
  intros (_ & Hhost & Hport). rewrite contains_append.
  rewrite (all_chars_contains host_char "/" h) by done.
  destruct digits as [d|]; [|done]. destruct Hport as [_ Hd].
  cbn [port_text]. rewrite contains_append.
  by rewrite (all_chars_contains is_digit "/" d).
Qed.

(** Without a slash there is no scheme. *)
Lemma scheme_none (s : string) (g : Re.Groups)
    (k : string -> Re.Groups -> option Re.Groups) :
  contains "/" s = false -> Re.run scheme_re s g k = None.
Proof.
  intros Hs. unfold scheme_re.
  rewrite run_Group, run_Seq, run_Group, run_Seq, run_Lit.
  destruct (Re.strip_prefix "http" s) as [s1|] eqn:H1; [|done].
  apply strip_prefix_Some in H1 as ->.
  rewrite contains_append in Hs. apply orb_false_iff in Hs as [_ Hs].
  assert (Hlit : forall g' k', Re.run (Re.Lit "://") s1 g' k' = None).
  { intros g' k'. rewrite run_Lit.
    destruct (Re.strip_prefix "://" s1) as [s2|] eqn:H2; [|done].
    apply strip_prefix_Some in H2 as ->. by rewrite contains_append in Hs. }
  rewrite run_Opt, run_Lit, Hlit.
  destruct (Re.strip_prefix "s" s1) as [s2|] eqn:H2; [|done].
  apply strip_prefix_Some in H2 as ->.
  rewrite contains_append in Hs. apply orb_false_iff in Hs as [_ Hs].
  rewrite run_Lit.
  destruct (Re.strip_prefix "://" s2) as [s3|] eqn:H3; [|done].
  apply strip_prefix_Some in H3 as ->. by rewrite contains_append in Hs.
Qed.

(** What [re.match] finds in a service of that form. *)
Lemma service_match (scheme : Scheme) (h : string) (digits : option string)
    (nl : string) :
  well_formed h digits ->
  nl = "" \/ (nl = Re.newline /\ is_Some digits) ->
  Re.match_ service_re (service_text scheme h digits +:+ nl)
  = Some (service_groups scheme h digits).
Proof.
  intros Hwf Hnl. unfold Re.match_, service_re, service_text, service_groups.
  rewrite run_Seq, run_Opt, append_assoc.
  assert (Hrest : forall g,
    Re.run (Re.Seq host_re (Re.Seq (Re.Opt port_re) Re.Dollar))
      ((h +:+ port_text digits) +:+ nl) g (fun _ groups => Some groups)
    = Some match digits with
           | Some d =>
               <[3%nat := ":" +:+ d]> (<[4%nat := d]> (<[2%nat := h]> g))
           | None => <[2%nat := h]> g
           end).
  { intros g. by apply host_port_run. }
  assert (Hslash : contains "/" ((h +:+ port_text digits) +:+ nl) = false).
  { rewrite contains_append, well_formed_no_slash by done.
    by destruct Hnl as [->|[-> _]]. }
  set (rest := (h +:+ port_text digits) +:+ nl) in *.
  destruct scheme; cbn [scheme_text].
  - change ("" +:+ rest) with rest.
    by rewrite scheme_none, Hrest.
  - unfold scheme_re at 1.
    rewrite run_Group, run_Seq, run_Group, run_Seq, run_Lit.
    change ("http://" +:+ rest) with ("http" +:+ ("://" +:+ rest)).
    rewrite strip_prefix_append, run_Opt, !run_Lit.
    change (Re.strip_prefix "s" ("://" +:+ rest)) with (@None string).
    rewrite strip_prefix_append, consumed_append.
    rewrite (consumed_append "http://" rest : Re.consumed
               ("http" +:+ "://" +:+ rest) rest = "http://").
    by rewrite Hrest.
  - unfold scheme_re at 1.
    rewrite run_Group, run_Seq, run_Group, run_Seq, run_Lit.
    change ("https://" +:+ rest) with ("http" +:+ ("s" +:+ ("://" +:+ rest))).
    rewrite strip_prefix_append, run_Opt, !run_Lit.
    rewrite !strip_prefix_append, run_Lit, strip_prefix_append.
    rewrite (consumed_append "https" ("://" +:+ rest) : Re.consumed
               ("http" +:+ "s" +:+ "://" +:+ rest) ("://" +:+ rest) = "https").
    rewrite (consumed_append "https://" rest : Re.consumed
               ("http" +:+ "s" +:+ "://" +:+ rest) rest = "https://").
    by rewrite Hrest.
Qed.

Lemma run_Dollar_inv s g k r :
  Re.run Re.Dollar s g k = Some r ->
  (s = "" \/ s = Re.newline) /\ k s g = Some r.
Proof.
  cbn [Re.run].
  destruct (String.eqb s "") eqn:H1; cbn [orb].
  { apply String.eqb_eq in H1. auto. }
  destruct (String.eqb s Re.newline) eqn:H2; [|done].
  apply String.eqb_eq in H2. auto.
Qed.

(** A string in which the host and the port are found is a host, a port or
    none, and a newline or nothing. *)
Lemma host_port_inv (s : string) (g0 g : Re.Groups) :
  Re.run (Re.Seq host_re (Re.Seq (Re.Opt port_re) Re.Dollar)) s g0
    (fun _ groups => Some groups) = Some g ->
  exists h digits nl,
    s = (h +:+ port_text digits) +:+ nl /\ well_formed h digits /\
    (nl = "" \/ nl = Re.newline) /\
    g = match digits with
        | Some d => <[3%nat := ":" +:+ d]> (<[4%nat := d]> (<[2%nat := h]> g0))
        | None => <[2%nat := h]> g0
        end.
Proof.
  unfold host_re, port_re. rewrite run_Seq, run_Group.
  intros (h & rest & -> & Hh & Hhost & Hrun)%plus_inv.
  rewrite consumed_append, run_Seq, run_Opt in Hrun.
  match type of Hrun with
  | match ?m with _ => _ end = _ => destruct m as [g'|] eqn:Hport
  end.
  - simplify_eq. rewrite run_Group, run_Seq, run_Lit in Hport.
    destruct (Re.strip_prefix ":" rest) as [r1|] eqn:Hcolon; [|done].
    apply strip_prefix_Some in Hcolon as ->.
    rewrite run_Group in Hport.
    apply plus_inv in Hport as (d & nl & -> & Hd & Hdigits & Hend).
    apply run_Dollar_inv in Hend as [Hnl Hg]. simplify_eq.
    exists h, (Some d), nl. cbn [port_text].
    rewrite consumed_append, <- (append_assoc ":" d nl), consumed_append.
    by rewrite !append_assoc.
  - apply run_Dollar_inv in Hrun as [Hnl Hg]. simplify_eq.
    exists h, None, rest. cbn [port_text]. by rewrite append_empty_r.
Qed.

(** What [re.match] finds, it finds in a service of that form, which a
    newline may follow. *)
Lemma service_match_inv (s : string) (g : Re.Groups) :
  Re.match_ service_re s = Some g ->
  exists scheme h digits nl,
    s = service_text scheme h digits +:+ nl /\ well_formed h digits /\
    (nl = "" \/ nl = Re.newline) /\
    g = service_groups scheme h digits.
Proof.
  unfold Re.match_, service_re. rewrite run_Seq, run_Opt.
  match goal with
  | |- match ?m with _ => _ end = _ -> _ => destruct m as [g'|] eqn:Hscheme
  end.
  - intros [= ->]. unfold scheme_re in Hscheme.
    rewrite run_Group, run_Seq, run_Group, run_Seq, run_Lit in Hscheme.
    destruct (Re.strip_prefix "http" s) as [s1|] eqn:H1; [|done].
    apply strip_prefix_Some in H1 as ->.
    rewrite run_Opt, run_Lit in Hscheme.
    destruct (Re.strip_prefix "s" s1) as [s2|] eqn:H2.
    + apply strip_prefix_Some in H2 as ->.
      rewrite !run_Lit in Hscheme.
      change (Re.strip_prefix "://" ("s" +:+ s2)) with (@None string)
        in Hscheme.
      destruct (Re.strip_prefix "://" s2) as [s3|] eqn:H3; [|done].
      apply strip_prefix_Some in H3 as ->.
      match type of Hscheme with
      | match ?m with _ => _ end = _ => destruct m as [g'|] eqn:Hrun
      end; [|done].
      injection Hscheme as ->.
      apply host_port_inv in Hrun
        as (h & digits & nl & -> & Hwf & Hnl & ->).
      exists Https, h, digits, nl. unfold service_text, service_groups.
      set (t := (h +:+ port_text digits) +:+ nl).
      rewrite (consumed_append "https" ("://" +:+ t) : Re.consumed
                 ("http" +:+ "s" +:+ "://" +:+ t) ("://" +:+ t) = "https").
      rewrite (consumed_append "https://" t : Re.consumed
                 ("http" +:+ "s" +:+ "://" +:+ t) t = "https://").
      subst t.
      cbn [scheme_text]. by rewrite !append_assoc.
    + rewrite run_Lit in Hscheme.
      destruct (Re.strip_prefix "://" s1) as [s3|] eqn:H3; [|done].
      apply strip_prefix_Some in H3 as ->.
      apply host_port_inv in Hscheme
        as (h & digits & nl & -> & Hwf & Hnl & ->).
      exists Http, h, digits, nl. unfold service_text, service_groups.
      set (t := (h +:+ port_text digits) +:+ nl).
      rewrite (consumed_append "http" ("://" +:+ t)).
      rewrite (consumed_append "http://" t : Re.consumed
                 ("http" +:+ "://" +:+ t) t = "http://").
      subst t.
      cbn [scheme_text]. by rewrite !append_assoc.
  - intros (h & digits & nl & -> & Hwf & Hnl & ->)%host_port_inv.
    by exists NoScheme, h, digits, nl.
Qed.

Lemma all_chars_append (p : ascii -> bool) (a b : string) :
  all_chars p (a +:+ b) = all_chars p a && all_chars p b.
Proof.
  induction a as [|x a IH]; [reflexivity|].
  change (p x && all_chars p (a +:+ b)
          = p x && all_chars p a && all_chars p b).
  by rewrite IH, andb_assoc.
Qed.

Lemma append_nonempty_l (a b : string) : a <> "" -> a +:+ b <> "".
Proof. by destruct a. Qed.

Lemma append_nonempty_r (a b : string) : b <> "" -> a +:+ b <> "".
Proof. destruct a; [done|]. intros _. discriminate. Qed.

(** [re.match] finds a service exactly in the strings of that form. *)
Lemma service_accepted_iff (s : string) :
  is_Some (Re.match_ service_re s) <-> service_form s.
Proof.
  split.
  - intros [g (scheme & h & digits & nl & -> & Hwf & Hnl & _)%service_match_inv].
    by exists scheme, h, digits, nl.
  - intros (scheme & h & digits & nl & -> & Hwf & [->| ->]).
    + rewrite service_match; eauto.
    + destruct digits as [d|].
      * rewrite service_match; eauto.
      * destruct Hwf as (Hh & Hhost & _).
        replace (service_text scheme h None +:+ Re.newline)
          with (service_text scheme (h +:+ Re.newline) None +:+ "").
        { rewrite service_match; eauto.
          split; [by apply append_nonempty_l|]. split; [|done].
          by rewrite all_chars_append, Hhost. }
        unfold service_text. cbn [port_text].
        by rewrite !append_empty_r, !append_assoc.
Qed.

(** X12. For a service of the form [[http[s]://](host domain)[:(port)]],
    [makeBotoConnectParams] returns parameters whose host is the host of the
    service and whose port is the number its digits write, or absent without
    a port; the connection is marked insecure exactly for the scheme
    [http]. The connection is anonymous exactly when a credential is empty,
    and otherwise carries both. *)
Theorem makeBotoConnectParams_service (accessKeyId secret : string)
    (scheme : Scheme) (h : string) (digits : option string) :
  well_formed h digits ->
  exists connect,
    makeBotoConnectParams accessKeyId secret (service_text scheme h digits)
    = Return connect /\
    host connect = Some h /\ port connect = int <$> digits /\
    is_secure connect
    = match scheme with Http => Some false | _ => None end /\
    (anon connect = Some true <-> accessKeyId = "" \/ secret = "") /\
    (anon connect = Some true \/
     anon connect = None /\ aws_access_key_id connect = Some accessKeyId /\
     aws_secret_access_key connect = Some secret).
Proof.
  intros Hwf. unfold makeBotoConnectParams.
  assert (Hne : nonempty (service_text scheme h digits) = true).
  { unfold nonempty. apply negb_true_iff, String.eqb_neq.
    unfold service_text. apply append_nonempty_r, append_nonempty_l.
    by destruct Hwf. }
  rewrite Hne, <- (append_empty_r (service_text scheme h digits)).
  rewrite service_match by eauto.
  eexists. split; [reflexivity|]. unfold service_groups, nonempty.
  destruct (String.eqb_spec accessKeyId ""), (String.eqb_spec secret "");
    cbn [negb andb host port is_secure anon aws_access_key_id
         aws_secret_access_key];
    (split; [by destruct digits; simplify_map_eq|]);
    (split; [by destruct scheme, digits; simplify_map_eq|]);
    (split; [by destruct scheme, digits; simplify_map_eq|]);
    intuition congruence.
Qed.


End Services.

(** ** Validation *)

Section Validation.

Lemma lstrip_no_lead (s : string) :
  Py.startswith (Py.lstrip Py.is_slash s) "/" = false.
Proof.
  unfold Py.startswith. induction s as [|a s IH]; [reflexivity|].
  cbn [Py.lstrip]. destruct (Py.is_slash a) eqn:Ha; [done|].
  cbn [String.prefix]. destruct (ascii_dec "/" a) as [<-|]; done.
Qed.

Lemma rstrip_no_lead (p : ascii -> bool) (s : string) :
  Py.startswith s "/" = false -> Py.startswith (Py.rstrip p s) "/" = false.
Proof.
  unfold Py.startswith. destruct s as [|a s]; [done|].
  cbn [Py.rstrip String.prefix].
  destruct (ascii_dec "/" a); [by destruct s|]. intros _.
  destruct (Py.rstrip p s); [destruct (p a)|]; cbn [String.prefix];
    try done; by destruct (ascii_dec "/" a).
Qed.

Lemma rstrip_no_trail (s : string) :
  Py.endswith (Py.rstrip Py.is_slash s) "/" = false.
Proof.
  induction s as [|a s IH]; [reflexivity|]. cbn [Py.rstrip].
  destruct (Py.rstrip Py.is_slash s) as [|b r].
  - destruct (Py.is_slash a) eqn:Ha; [done|exact Ha].
  - exact IH.
Qed.

Lemma join_test (prefix : string) :
  Py.join_nonempty "/" [prefix; "test"] = test_key prefix.
Proof.
  unfold Py.join_nonempty, test_key. cbn [List.filter].
  by destruct (String.eqb prefix "").
Qed.

Lemma makeBotoConnectParams_returns (accessKeyId secret service : string) :
  service = "" \/ is_Some (Re.match_ service_re service) ->
  exists connect,
    makeBotoConnectParams accessKeyId secret service = Return connect /\
    (anon connect = Some true <-> accessKeyId = "" \/ secret = "").
Proof.
  intros Hservice. unfold makeBotoConnectParams, nonempty.
  destruct (String.eqb_spec service "") as [->|Hne]; cbn [negb].
  - eexists. split; [reflexivity|].
    destruct (String.eqb_spec accessKeyId ""), (String.eqb_spec secret "");
      cbn; intuition congruence.
  - destruct Hservice as [?|[g Hg]]; [done|]. rewrite Hg.
    eexists. split; [reflexivity|].
    destruct (String.eqb_spec accessKeyId ""), (String.eqb_spec secret "");
      cbn; intuition congruence.
Qed.

Lemma truthy_Some (o : option string) :
  truthy o = true -> exists s, o = Some s /\ s <> "".
Proof.
  destruct o as [s|]; [|done]. cbn. intros Hs%negb_true_iff%String.eqb_neq.
  eauto.
Qed.

(** What [validateInfo] does when nothing stands in its way. *)
Lemma validateInfo_run (doc : AssetstoreDoc) (w : S3) (a k : string)
    (b : Bucket) :
  let service := default "" (doc_service doc) in
  let bucket_name := default "" (doc_bucket doc) in
  let prefix :=
    Py.rstrip Py.is_slash
      (Py.lstrip Py.is_slash (default "" (doc_prefix doc))) in
  truthy (doc_bucket doc) = true ->
  (doc_readOnly doc = Some true \/ a <> "" /\ k <> "") ->
  doc_accessKeyId doc = Some a -> doc_secret doc = Some k ->
  (service = "" \/ is_Some (Re.match_ service_re service)) ->
  w !! bucket_name = Some b ->
  exists connect,
    makeBotoConnectParams a k service = Return connect /\
    validateInfo doc w
    = (Return (mkAssetstoreDoc (Some prefix) (doc_bucket doc)
                 (doc_readOnly doc) (Some k) (Some a) (Some service)
                 (Some connect)),
       if bool_decide (doc_readOnly doc = Some true) then w
       else <[bucket_name :=
                mkBucket (<[test_key prefix := ""]> (objects b))
                  (multipart_uploads b) (initiated b)]> w).
Proof.
  intros service bucket_name prefix Hbucket Hcreds Ha Hk Hservice Hb.
  destruct (makeBotoConnectParams_returns a k service Hservice)
    as (connect & Hconnect & _).
  exists connect. split; [done|]. unfold validateInfo.
  rewrite Hbucket, Ha, Hk. cbn [negb truthy].
  assert (Hchecks :
    negb (bool_decide (doc_readOnly doc = Some true))
    && negb (negb (String.eqb k "")) = false /\
    negb (bool_decide (doc_readOnly doc = Some true))
    && negb (negb (String.eqb a "")) = false).
  { destruct Hcreds as [Hro|[Hane Hkne]].
    - by rewrite (bool_decide_eq_true_2 _ Hro).
    - apply String.eqb_neq in Hane, Hkne. rewrite Hane, Hkne.
      by rewrite !andb_false_r. }
  destruct Hchecks as [-> ->].
  assert (Hmatch :
    nonempty (default "" (doc_service doc))
    && negb (bool_decide
               (is_Some (Re.match_ service_re (default "" (doc_service doc)))))
    = false).
  { fold service. destruct Hservice as [->|Hm]; [done|].
    rewrite (bool_decide_eq_true_2 _ Hm). apply andb_false_r. }
  rewrite Hmatch. unfold bind, lift, getitem, ret, checked_bucket.
  fold service. rewrite Hconnect. cbn [doc_bucket].
  subst bucket_name. rewrite join_test.
  by destruct (bool_decide (doc_readOnly doc = Some true)); rewrite Hb.
Qed.

(** What must hold for [validateInfo] to return. *)
Lemma validateInfo_returns (doc doc' : AssetstoreDoc) (w w' : S3) :
  validateInfo doc w = (Return doc', w') ->
  truthy (doc_bucket doc) = true /\
  (doc_readOnly doc = Some true \/
   truthy (doc_secret doc) = true /\ truthy (doc_accessKeyId doc) = true) /\
  is_Some (doc_accessKeyId doc) /\ is_Some (doc_secret doc) /\
  (default "" (doc_service doc) = "" \/
   is_Some (Re.match_ service_re (default "" (doc_service doc)))) /\
  is_Some (w !! default "" (doc_bucket doc)).
Proof.
  unfold validateInfo.
  destruct (truthy (doc_bucket doc)) eqn:Hbucket; cbn [negb]; [|done].
  destruct (bool_decide (doc_readOnly doc = Some true)) eqn:Hro;
    [apply bool_decide_eq_true in Hro|apply bool_decide_eq_false in Hro];
    cbn [negb andb].
  all: try (destruct (truthy (doc_secret doc)) eqn:Hsecret; cbn [negb];
            [|done];
            destruct (truthy (doc_accessKeyId doc)) eqn:Hkey; cbn [negb];
            [|done]).
  all: unfold nonempty;
    destruct (String.eqb_spec (default "" (doc_service doc)) "") as [Hs|Hs];
    cbn [negb andb];
    try (destruct (bool_decide
                     (is_Some (Re.match_ service_re
                                 (default "" (doc_service doc))))) eqn:Hm;
         [apply bool_decide_eq_true in Hm|done]; cbn [negb]).
  all: unfold bind, lift, getitem, ret, checked_bucket;
    destruct (doc_accessKeyId doc) as [a|]; [|done];
    destruct (doc_secret doc) as [k|]; [|done];
    destruct (makeBotoConnectParams a k _); [|done]; cbn [doc_bucket];
    destruct (w !! default "" (doc_bucket doc)) as [b|] eqn:Hb; [|done];
    intros _; repeat split; eauto.
Qed.

(** X13. [validateInfo] returns the document exactly when: the bucket is
    named; a document that is not read-only has a secret and an access key
    id, both non-empty; the document has the keys [accessKeyId] and
    [secret], which a read-only document may have empty; the service is
    empty or of the form [[http[s]://](host domain)[:(port)]], a final
    newline apart; and S3 has the bucket. *)
Theorem validateInfo_returns_iff (doc : AssetstoreDoc) (w : S3) :
  (exists doc' w', validateInfo doc w = (Return doc', w')) <->
  truthy (doc_bucket doc) = true /\
  (doc_readOnly doc = Some true \/
   truthy (doc_secret doc) = true /\ truthy (doc_accessKeyId doc) = true) /\
  is_Some (doc_accessKeyId doc) /\ is_Some (doc_secret doc) /\
  (default "" (doc_service doc) = "" \/
   service_form (default "" (doc_service doc))) /\
  is_Some (w !! default "" (doc_bucket doc)).
Proof.
  split.
  - intros (doc' & w' & Hrun).
    destruct (validateInfo_returns _ _ _ _ Hrun)
      as (? & ? & ? & ? & Hservice & ?).
    rewrite service_accepted_iff in Hservice. done.
  - intros (Hbucket & Hcreds & [a Ha] & [k Hk] & Hservice & [b Hb]).
    rewrite <- service_accepted_iff in Hservice.
    destruct (validateInfo_run doc w a k b) as (c & _ & Hrun); try done.
    + destruct Hcreds as [?|[Hsecret Hkey]]; [by left|right].
      rewrite Hk in Hsecret. rewrite Ha in Hkey. cbn in Hsecret, Hkey.
      split; eapply String.eqb_neq, negb_true_iff; done.
    + eauto.
Qed.

(** X14. What [validateInfo] has done when it returns. The prefix of the
    document is the given one without the slashes at its ends, so it neither
    starts nor ends with a slash; the bucket is kept and the service is set.
    For a read-only document S3 is as it was. Otherwise an empty object has
    been written to the bucket, at [test] under the prefix, and nothing else
    has changed. *)
Theorem validateInfo_effect (doc doc' : AssetstoreDoc) (w w' : S3) :
  validateInfo doc w = (Return doc', w') ->
  let bucket_name := default "" (doc_bucket doc) in
  exists prefix,
    doc_prefix doc' = Some prefix /\
    prefix
    = Py.rstrip Py.is_slash
        (Py.lstrip Py.is_slash (default "" (doc_prefix doc))) /\
    Py.startswith prefix "/" = false /\ Py.endswith prefix "/" = false /\
    doc_bucket doc' = doc_bucket doc /\
    doc_service doc' = Some (default "" (doc_service doc)) /\
    (doc_readOnly doc = Some true -> w' = w) /\
    (doc_readOnly doc <> Some true ->
     exists b,
       w !! bucket_name = Some b /\
       w' = <[bucket_name :=
                mkBucket (<[test_key prefix := ""]> (objects b))
                  (multipart_uploads b) (initiated b)]> w).
Proof.
  intros Hrun bucket_name.
  destruct (validateInfo_returns _ _ _ _ Hrun)
    as (Hbucket & Hcreds & [a Ha] & [k Hk] & Hservice & [b Hb]).
  destruct (validateInfo_run doc w a k b) as (c & _ & Hrun'); try done.
  { destruct Hcreds as [?|[Hsecret Hkey]]; [by left|right].
    rewrite Hk in Hsecret. rewrite Ha in Hkey. cbn in Hsecret, Hkey.
    split; eapply String.eqb_neq, negb_true_iff; done. }
  rewrite Hrun' in Hrun. injection Hrun as <- <-.
  eexists. split; [reflexivity|]. split; [reflexivity|].
  split; [apply rstrip_no_lead, lstrip_no_lead|].
  split; [apply rstrip_no_trail|]. cbn [doc_bucket doc_service].
  do 2 (split; [reflexivity|]). split.
  - intros Hro. by rewrite (bool_decide_eq_true_2 _ Hro).
  - intros Hro. rewrite (bool_decide_eq_false_2 _ Hro). eauto.
Qed.

(** X15. The connection of a validated document. The adapter constructed
    from it finds the connection parameters it already has. The assetstore
    is anonymous exactly when one of its credentials is empty, which only a
    read-only document may have; nothing was written at its validation, and
    the URL of a download is then the plain one, whatever boto would
    sign. *)
Theorem validated_connection `{Library} (id : string)
    (doc doc' : AssetstoreDoc) (w w' : S3) :
  validateInfo doc w = (Return doc', w') ->
  let assetstore := assetstore_of id doc' in
  __init__ doc' = Return doc' /\
  (is_anon assetstore = true <->
   doc_accessKeyId doc = Some "" \/ doc_secret doc = Some "") /\
  (is_anon assetstore = true ->
   doc_readOnly doc = Some true /\ w' = w /\
   forall k, urlFn assetstore k = _anonDownloadUrl assetstore k).
Proof.
  intros Hrun assetstore.
  destruct (validateInfo_returns _ _ _ _ Hrun)
    as (Hbucket & Hcreds & [a Ha] & [k Hk] & Hservice & [b Hb]).
  assert (Hcreds' : doc_readOnly doc = Some true \/ a <> "" /\ k <> "").
  { destruct Hcreds as [?|[Hsecret Hkey]]; [by left|right].
    rewrite Hk in Hsecret. rewrite Ha in Hkey. cbn in Hsecret, Hkey.
    split; eapply String.eqb_neq, negb_true_iff; done. }
  destruct (validateInfo_run doc w a k b) as (c & Hc & Hrun'); try done.
  destruct (makeBotoConnectParams_returns a k _ Hservice)
    as (c' & Hc' & Hanon).
  rewrite Hc in Hc'. injection Hc' as <-.
  rewrite Hrun' in Hrun. injection Hrun as <- <-.
  assert (His : is_anon assetstore = true <-> a = "" \/ k = "").
  { unfold is_anon, assetstore, assetstore_of, get_botoConnect.
    cbn [botoConnect doc_botoConnect default].
    by rewrite bool_decide_eq_true. }
  split; [|split].
  - unfold __init__. cbn [doc_accessKeyId doc_secret doc_service].
    by rewrite Hc.
  - rewrite His, Ha, Hk. split; (intros [?|?]; [left|right]; congruence).
  - intros Hanon'. apply His in Hanon' as Hempty.
    assert (Hro : doc_readOnly doc = Some true).
    { destruct Hcreds' as [?|[? ?]]; [done|]. by destruct Hempty. }
    split; [done|]. split; [by rewrite (bool_decide_eq_true_2 _ Hro)|].
    intros key. unfold urlFn. by rewrite Hanon'.
Qed.

Lemma endswith_append (a b : string) (c : ascii) :
  b <> "" -> Py.endswith (a +:+ b) c = Py.endswith b c.
Proof.
  intros Hb. induction a as [|x a IH]; [reflexivity|].
  change (Py.endswith (String x (a +:+ b)) c = Py.endswith b c).
  cbn [Py.endswith]. destruct (a +:+ b) eqn:Hab; [|done].
  by destruct a, b.
Qed.

Lemma all_chars_endswith (p : ascii -> bool) (s : string) (c : ascii) :
  p c = false -> all_chars p s = true -> Py.endswith s c = false.
Proof.
  intros Hc. induction s as [|a s IH]; [done|].
  cbn [all_chars Py.endswith]. intros [Ha Hs]%andb_true_iff.
  destruct s; [|by apply IH].
  destruct (Ascii.eqb_spec a c); [congruence|done].
Qed.

(** No service of that form ends with a slash. *)
Lemma service_form_no_trailing_slash (s : string) :
  service_form s -> Py.endswith s "/" = false.
Proof.
  intros (scheme & h & digits & nl & -> & (Hh & Hhost & Hport) & Hnl).
  destruct Hnl as [->| ->]; [|by rewrite endswith_append].
  rewrite append_empty_r. unfold service_text.
  destruct digits as [d|]; cbn [port_text].
  - destruct Hport as [Hd Hdigits].
    rewrite !endswith_append;
      auto using append_nonempty_l, append_nonempty_r.
    by apply (all_chars_endswith is_digit).
  - rewrite append_empty_r, endswith_append by done.
    by apply (all_chars_endswith host_char).
Qed.

(** X16. A service that ends with a slash, as a URL copied from a browser
    may, is refused: when the bucket is named and the credentials are as
    they must be, [validateInfo] raises the validation error on the service
    and makes no call to S3. *)
Theorem service_with_trailing_slash_refused (doc : AssetstoreDoc)
    (service : string) (w : S3) :
  truthy (doc_bucket doc) = true ->
  (doc_readOnly doc = Some true \/
   truthy (doc_secret doc) = true /\ truthy (doc_accessKeyId doc) = true) ->
  doc_service doc = Some service -> Py.endswith service "/" = true ->
  validateInfo doc w
  = (Raise (ValidationException
              "The service must of the form [http[s]://](host domain)[:(port)]."
              (Some "service")), w).
Proof.
  intros Hbucket Hcreds Hservice Hslash. unfold validateInfo.
  rewrite Hbucket, Hservice. cbn [negb].
  change (default "" (Some service)) with service.
  assert (Hchecks :
    negb (bool_decide (doc_readOnly doc = Some true))
    && negb (truthy (doc_secret doc)) = false /\
    negb (bool_decide (doc_readOnly doc = Some true))
    && negb (truthy (doc_accessKeyId doc)) = false).
  { destruct Hcreds as [Hro|[-> ->]].
    - by rewrite (bool_decide_eq_true_2 _ Hro).
    - by rewrite !andb_false_r. }
  destruct Hchecks as [-> ->].
  assert (Hne : nonempty service = true) by by destruct service.
  assert (Hno : bool_decide (is_Some (Re.match_ service_re service)) = false).
  { apply bool_decide_eq_false. rewrite service_accepted_iff.
    intros Hform%service_form_no_trailing_slash. congruence. }
  by rewrite Hne, Hno.
Qed.

End Validation.

(** ** Paths and plain URLs *)

Section Paths.

Variable assetstore : Assetstore.

(** X17. The path [BotoCallingFormat] builds for authentication is the path
    it builds for the request, for every bucket and key: the key goes into
    both as it is, whatever it has after a [?]. *)
Theorem build_auth_path_is_path_base (bucket key : string) :
  BotoCallingFormat.build_auth_path bucket key
  = BotoCallingFormat.build_path_base bucket key /\
  BotoCallingFormat.build_path_base bucket key
  = (if String.eqb bucket "" then "" else "/" +:+ bucket) +:+ "/" +:+ key.
Proof.
  unfold BotoCallingFormat.build_auth_path, BotoCallingFormat.build_path_base.
  destruct (String.eqb bucket ""); [done|].
  by rewrite !append_assoc.
Qed.

Lemma lstrip_slash (key : string) :
  Py.lstrip Py.is_slash ("/" +:+ key) = Py.lstrip Py.is_slash key.
Proof. reflexivity. Qed.

(** X18. The plain URL of a key is the service and the bucket, or the
    bucket's host at amazonaws.com when no service is set, then one slash,
    then the key without the slashes it starts with: slashes at the start
    of a key make no difference, and the key part never starts with one. *)
Theorem anonDownloadUrl_form (key : string) :
  let base :=
    if String.eqb (service assetstore) ""
    then "https://" +:+ bucket assetstore +:+ ".s3.amazonaws.com"
    else service assetstore +:+ "/" +:+ bucket assetstore in
  let rest := Py.lstrip Py.is_slash key in
  _anonDownloadUrl assetstore key = base +:+ "/" +:+ rest /\
  Py.startswith rest "/" = false /\
  _anonDownloadUrl assetstore ("/" +:+ key) = _anonDownloadUrl assetstore key.
Proof.
  intros base rest. subst base rest. unfold _anonDownloadUrl.
  rewrite lstrip_slash. split; [|split; [apply lstrip_no_lead|done]].
  destruct (String.eqb (service assetstore) ""); cbn [negb String.concat];
    [done|]. by rewrite !append_assoc.
Qed.

End Paths.

(** ** Import: the keys that are not imported *)

Section ImportEdges.

Context `{Library}.
Variable assetstore : Assetstore.

Lemma split_trailing (c : ascii) (s : string) :
  exists l, Py.split c (s +:+ String c "") = l ++ [""] /\ l <> [].
Proof.
  induction s as [|a s (l & IH & Hl)].
  - exists [""]. split; [|done].
    change (Py.split c (String c "") = [""; ""]).
    cbn [Py.split]. by rewrite Ascii.eqb_refl.
  - assert (Hstep : Py.split c (String a s +:+ String c "")
                    = if Ascii.eqb a c then "" :: l ++ [""]
                      else match l ++ [""] with
                           | [] => [String a ""]
                           | x :: xs => String a x :: xs
                           end).
    { change (String a s +:+ String c "")
        with (String a (s +:+ String c "")).
      cbn [Py.split]. by rewrite IH. }
    rewrite Hstep. destruct (Ascii.eqb a c).
    + by exists ("" :: l).
    + destruct l as [|x l]; [done|]. by exists (String a x :: l).
Qed.

Lemma rsplit_last_trailing (s : string) : Py.rsplit_last "/" (s +:+ "/") = "".
Proof.
  unfold Py.rsplit_last. destruct (split_trailing "/" s) as (l & -> & _).
  apply last_last.
Qed.

(** The loop goes past the placeholders before the other objects. *)
Lemma import_objects_placeholders rec parent parentType progress user
    (skipped rest : list S3Obj) (st : Store) :
  Forall placeholder skipped ->
  exists st',
    import_objects assetstore rec parent parentType progress user
      (skipped ++ rest) st
    = import_objects assetstore rec parent parentType progress user rest st' /\
    same_store st' st /\
    progress_messages st'
    = progress_messages st ++ messages progress skipped.
Proof.
  intros Hskipped. revert st.
  induction Hskipped as [|obj skipped (name & size & ->) _ IH]; intros st.
  - exists st. unfold messages. destruct progress; by rewrite app_nil_r.
  - cbn [app import_objects]. unfold import_object.
    rewrite rsplit_last_trailing. cbn [String.eqb].
    destruct (IH (if progress then update (obj_name (Key (name +:+ "/") size)) st
                  else st)) as (st' & -> & (Hf & Hi & Hfi & Hn) & Hm).
    exists st'. split; [done|]. unfold same_store, messages in *.
    destruct progress; cbn in *; rewrite ?Hf, ?Hi, ?Hfi, ?Hn, ?Hm;
      by rewrite <- ?app_assoc.
Qed.

(** X19. Placeholders are not imported. When the listing of the path holds
    only keys whose names end with a slash, [importData] returns and leaves
    the folders, the items and the files as they were, under any kind of
    parent; the progress sink, if there is one, has been given their
    names. *)
Theorem importData_skips_placeholders (depth : nat) (w : S3) (parent : Z)
    (parentType importPath : string) (progress : bool) (user : string)
    (b : Bucket) (st : Store) :
  Forall placeholder (bucket_list b (listed_path importPath) "/") ->
  exists st',
    importData assetstore (S depth) w parent parentType importPath progress
      user (Some b) st = (Return tt, st') /\
    same_store st' st /\
    progress_messages st'
    = progress_messages st
      ++ messages progress (bucket_list b (listed_path importPath) "/").
Proof.
  intros Hall. cbn [importData]. fold (listed_path importPath).
  destruct (import_objects_placeholders
              (fun folder path st' =>
                 importData assetstore depth w folder "folder" path progress
                   user (Some b) st')
              parent parentType progress user _ [] st Hall)
    as (st' & Hrun & Hsame & Hm).
  rewrite app_nil_r in Hrun. exists st'. by rewrite Hrun.
Qed.

(** X20. Keys are imported under folders only. When the first object of the
    listing that is not a placeholder is a key, and the parent is not a
    folder, [importData] raises the validation error that names the kind of
    parent, and has created nothing. *)
Theorem importData_key_under_non_folder (depth : nat) (w : S3) (parent : Z)
    (parentType importPath : string) (progress : bool) (user : string)
    (b : Bucket) (st : Store) (skipped rest : list S3Obj)
    (name : string) (size : Z) :
  bucket_list b (listed_path importPath) "/"
  = skipped ++ Key name size :: rest ->
  Forall placeholder skipped ->
  Py.rsplit_last "/" name <> "" -> parentType <> "folder" ->
  exists st',
    importData assetstore (S depth) w parent parentType importPath progress
      user (Some b) st
    = (Raise (ValidationException
                ("Keys cannot be imported directly underneath a "
                 +:+ parentType +:+ ".") None), st') /\
    same_store st' st.
Proof.
  intros Hlist Hskipped Hname Hparent. cbn [importData].
  fold (listed_path importPath). rewrite Hlist.
  destruct (import_objects_placeholders
              (fun folder path st' =>
                 importData assetstore depth w folder "folder" path progress
                   user (Some b) st')
              parent parentType progress user skipped
              (Key name size :: rest) st Hskipped)
    as (st' & -> & Hsame & _).
  cbn [import_objects]. unfold import_object.
  apply String.eqb_neq in Hname, Hparent. rewrite Hname, Hparent. cbn [negb].
  eexists. split; [reflexivity|].
  unfold same_store in *. by destruct progress.
Qed.

End ImportEdges.

(** ** The theorems above, at the examples *)

Lemma cancelUpload_effect_witness :
  let i := s3_of known_upload in
  let k := "test/ef/gh/efgh3" in
  s3 known_upload = Some i /\ key i = Some k /\
  stale_s3 !! bucket example_assetstore = Some stale_bucket /\
  exists b',
    cancelUpload example_assetstore example_listing known_upload stale_s3
    = (Return [mkMultiPartUpload "id3" k []],
       <[bucket example_assetstore := b']> stale_s3) /\
    objects b' = delete k (objects stale_bucket) /\
    multipart_uploads b'
    = List.filter (fun mp => negb (Boto.same_upload "id3" k mp))
        (multipart_uploads stale_bucket).
Proof.
  intros i k.
  assert (Hs3 : s3 known_upload = Some i) by reflexivity.
  assert (Hkey : key i = Some k) by reflexivity.
  assert (Hb : stale_s3 !! bucket example_assetstore = Some stale_bucket)
    by (vm_compute; reflexivity).
  do 3 (split; [assumption|]).
  destruct (cancelUpload_effect example_assetstore example_listing
              known_upload i k stale_s3 stale_bucket Hs3 Hkey Hb)
    as (b' & Hrun & Hobj & _ & Hdrop & _).
  exists b'. split; [exact Hrun|]. split; [exact Hobj|].
  refine (Hdrop _ "id3" eq_refl). discriminate.
Defined.

Lemma cancelUpload_after_initUpload_witness :
  let upload := example_upload 11 in
  let k := "test/01/23/0123456789abcdef" in
  s3 upload = None /\ 0 < size upload /\
  stale_s3 !! bucket example_assetstore = Some stale_bucket /\
  exists b',
    bind (@initUpload example_lib "10.0.0.1" example_assetstore
            "0123456789abcdef" upload)
      (cancelUpload example_assetstore example_listing) stale_s3
    = (Return [], <[bucket example_assetstore := b']> stale_s3) /\
    objects b' = delete k (objects stale_bucket) /\
    multipart_uploads b' = multipart_uploads stale_bucket.
Proof.
  intros upload k.
  assert (Hs3 : s3 upload = None) by reflexivity.
  assert (Hsize : 0 < size upload) by (vm_compute; reflexivity).
  assert (Hb : stale_s3 !! bucket example_assetstore = Some stale_bucket)
    by (vm_compute; reflexivity).
  do 3 (split; [assumption|]).
  exact (proj2 (proj2 (@cancelUpload_after_initUpload example_assetstore
                         example_lib "10.0.0.1" "0123456789abcdef"
                         example_listing upload stale_s3 Hs3))
           Hsize stale_bucket Hb).
Defined.

Lemma deleteFileImpl_removes_key_witness :
  stale_s3 !! ev_bucket stale_event = Some stale_bucket /\
  exists w' b',
    _deleteFileImpl stale_event stale_s3 = (Return tt, w') /\
    w' !! ev_bucket stale_event = Some b' /\
    objects b' = delete (ev_key stale_event) (objects stale_bucket) /\
    _deleteFileImpl stale_event w' = (Return tt, w').
Proof.
  assert (Hb : stale_s3 !! ev_bucket stale_event = Some stale_bucket)
    by (vm_compute; reflexivity).
  split; [assumption|].
  destruct (deleteFileImpl_removes_key stale_event stale_s3)
    as (w' & Hrun & Hbucket & _ & _ & Hagain).
  destruct (Hbucket stale_bucket Hb) as (b' & Hb' & Hobj & _).
  exists w', b'. repeat split; assumption.
Defined.

Lemma single_shot_write_stored_witness :
  let upload := new_upload 11 in
  let i := s3_of upload in
  let k := "test/01/23/0123456789abcdef" in
  s3 upload = Some i /\ chunked i = false /\ key i = Some k /\
  example_s3 !! bucket example_assetstore = Some empty_bucket /\
  size upload <= Py.len "hello world" /\
  @uploadChunk example_lib "10.0.0.1" example_assetstore upload
    (ChunkFile "hello world") example_s3
  = (Return (set_received upload (Py.len "hello world")),
     <[bucket example_assetstore :=
         mkBucket (<[k := "hello world"]> (objects empty_bucket))
           (multipart_uploads empty_bucket) (initiated empty_bucket)]>
       example_s3).
Proof.
  intros upload i k.
  assert (Hs3 : s3 upload = Some i) by (vm_compute; reflexivity).
  assert (Hchunked : chunked i = false) by (vm_compute; reflexivity).
  assert (Hkey : key i = Some k) by (vm_compute; reflexivity).
  assert (Hb : example_s3 !! bucket example_assetstore = Some empty_bucket)
    by (vm_compute; reflexivity).
  assert (Hlong : size upload <= Py.len "hello world")
    by (vm_compute; discriminate).
  do 5 (split; [assumption|]).
  exact (@single_shot_write_stored example_lib "10.0.0.1" example_assetstore
           upload i k "hello world" example_s3 empty_bucket
           Hs3 Hchunked Hkey Hb Hlong).
Defined.

Lemma upload_then_delete_restores_witness :
  let upload := new_upload 11 in
  let i := s3_of upload in
  let k := "test/01/23/0123456789abcdef" in
  let files := [hello_file_finalized] in
  0 < size upload /\ s3 upload = Some i /\ chunked i = false /\
  key i = Some k /\
  example_s3 !! bucket example_assetstore = Some empty_bucket /\
  size upload <= Py.len "hello world" /\ 0 < file_size hello_file /\
  length (sharing files (relpath i) (_id example_assetstore)) = 1%nat /\
  exists upload' w1 file' info w2 b2,
    @uploadChunk example_lib "10.0.0.1" example_assetstore upload
      (ChunkFile "hello world") example_s3 = (Return upload', w1) /\
    @finalizeUpload example_lib example_assetstore upload' hello_file w1
    = (Return file', w1) /\
    file_relpath file' = Some (relpath i) /\ s3Key file' = Some k /\
    deleteFile example_assetstore files file'
    = Return [("_s3_assetstore_delete_file", info)] /\
    _deleteFileImpl info w1 = (Return tt, w2) /\
    w2 !! bucket example_assetstore = Some b2 /\
    objects b2 = delete k (objects empty_bucket) /\
    multipart_uploads b2 = multipart_uploads empty_bucket /\
    (objects empty_bucket !! k = None -> w2 = example_s3).
Proof.
  intros upload i k files.
  assert (Hsize : 0 < size upload) by (vm_compute; reflexivity).
  assert (Hs3 : s3 upload = Some i) by (vm_compute; reflexivity).
  assert (Hchunked : chunked i = false) by (vm_compute; reflexivity).
  assert (Hkey : key i = Some k) by (vm_compute; reflexivity).
  assert (Hb : example_s3 !! bucket example_assetstore = Some empty_bucket)
    by (vm_compute; reflexivity).
  assert (Hlong : size upload <= Py.len "hello world")
    by (vm_compute; discriminate).
  assert (Hfsize : 0 < file_size hello_file) by (vm_compute; reflexivity).
  assert (Hone : length (sharing files (relpath i) (_id example_assetstore))
                 = 1%nat) by (vm_compute; reflexivity).
  do 8 (split; [assumption|]).
  exact (@upload_then_delete_restores example_lib "10.0.0.1"
           example_assetstore upload i k "hello world" example_s3
           empty_bucket hello_file files
           Hsize Hs3 Hchunked Hkey Hb Hlong Hfsize Hone).
Defined.

Lemma upload_then_cancel_restores_witness :
  let upload := new_upload 11 in
  let i := s3_of upload in
  let k := "test/01/23/0123456789abcdef" in
  s3 upload = Some i /\ chunked i = false /\ key i = Some k /\
  uploadId i = None /\
  example_s3 !! bucket example_assetstore = Some empty_bucket /\
  size upload <= Py.len "hello world" /\
  exists upload' w1 w2 b2,
    @uploadChunk example_lib "10.0.0.1" example_assetstore upload
      (ChunkFile "hello world") example_s3 = (Return upload', w1) /\
    cancelUpload example_assetstore example_listing upload' w1
    = (Return [], w2) /\
    w2 !! bucket example_assetstore = Some b2 /\
    objects b2 = delete k (objects empty_bucket) /\
    multipart_uploads b2 = multipart_uploads empty_bucket /\
    (objects empty_bucket !! k = None -> w2 = example_s3).
Proof.
  intros upload i k.
  assert (Hs3 : s3 upload = Some i) by (vm_compute; reflexivity).
  assert (Hchunked : chunked i = false) by (vm_compute; reflexivity).
  assert (Hkey : key i = Some k) by (vm_compute; reflexivity).
  assert (Hid : uploadId i = None) by (vm_compute; reflexivity).
  assert (Hb : example_s3 !! bucket example_assetstore = Some empty_bucket)
    by (vm_compute; reflexivity).
  assert (Hlong : size upload <= Py.len "hello world")
    by (vm_compute; discriminate).
  do 6 (split; [assumption|]).
  exact (@upload_then_cancel_restores example_lib "10.0.0.1"
           example_assetstore upload i k "hello world" example_s3
           empty_bucket example_listing
           Hs3 Hchunked Hkey Hid Hb Hlong).
Defined.

Lemma proxied_multipart_round_trip_witness :
  let upload := new_upload (5 * GiB) in
  let i := s3_of upload in
  let k := "test/01/23/0123456789abcdef" in
  let id := "upload-" +:+ Py.str (initiated empty_bucket) in
  let st :=
    @session_after moto_lib "10.0.0.1" example_assetstore
      (mkSession upload example_s3)
      (List.map ChunkFile ["hello "; "world"]) in
  0 < size upload /\ s3 upload = Some i /\ chunked i = true /\
  uploadId i = None /\ key i = Some k /\
  example_s3 !! bucket example_assetstore = Some empty_bucket /\
  Forall (fun mp => Boto.same_upload id k mp = false)
    (multipart_uploads empty_bucket) /\
  0 < received upload + total_len ["hello "; "world"] /\
  chunks_sized (@upload_part_min_size moto_lib) ["hello "; "world"] = true /\
  received (session_upload st)
  = received upload + total_len ["hello "; "world"] /\
  s3 (session_upload st) = Some (in_progress i id k 2) /\
  session_s3 st
  = <[bucket example_assetstore :=
        mkBucket (objects empty_bucket)
          (multipart_uploads empty_bucket
           ++ [mkMultiPartUpload id k (numbered 1 ["hello "; "world"])])
          (initiated empty_bucket + 1)]> example_s3 /\
  @finalizeUpload moto_lib example_assetstore (session_upload st)
    hello_file (session_s3 st)
  = (Return (stamped hello_file i k),
     <[bucket example_assetstore :=
         mkBucket
           (<[k := String.concat "" ["hello "; "world"]]>
              (objects empty_bucket))
           (multipart_uploads empty_bucket) (initiated empty_bucket + 1)]>
       example_s3).
Proof.
  intros upload i k id st.
  assert (Hsize : 0 < size upload) by (vm_compute; reflexivity).
  assert (Hs3 : s3 upload = Some i) by (vm_compute; reflexivity).
  assert (Hchunked : chunked i = true) by (vm_compute; reflexivity).
  assert (Hid : uploadId i = None) by (vm_compute; reflexivity).
  assert (Hkey : key i = Some k) by (vm_compute; reflexivity).
  assert (Hb : example_s3 !! bucket example_assetstore = Some empty_bucket)
    by (vm_compute; reflexivity).
  assert (Hothers : Forall (fun mp => Boto.same_upload id k mp = false)
                      (multipart_uploads empty_bucket)) by constructor.
  assert (Hpos : 0 < received upload + total_len ["hello "; "world"])
    by (vm_compute; reflexivity).
  assert (Hsized : chunks_sized (@upload_part_min_size moto_lib)
                     ["hello "; "world"] = true) by (vm_compute; reflexivity).
  do 9 (split; [assumption|]).
  destruct (@proxied_multipart_round_trip moto_lib "10.0.0.1"
              example_assetstore upload i k "hello " ["world"] example_s3
              empty_bucket hello_file
              Hsize Hs3 Hchunked Hid Hkey Hb Hothers Hpos)
    as (Hreceived & Hinfo & Hstate & Hfinal).
  rewrite Hsized in Hfinal.
  split; [exact Hreceived|]. split; [exact Hinfo|].
  split; [exact Hstate|exact Hfinal].
Defined.

(** At Amazon, whose parts must have 5 MiB, the same two chunks cannot be
    completed: [finalizeUpload] raises, and the multipart upload stays. *)
Example finalize_too_small :
  let st :=
    @session_after example_lib "10.0.0.1" example_assetstore
      (mkSession (new_upload (5 * GiB)) example_s3)
      (List.map ChunkFile ["hello "; "world"]) in
  @finalizeUpload example_lib example_assetstore (session_upload st)
    hello_file (session_s3 st)
  = (Raise (S3ResponseError "EntityTooSmall"), session_s3 st).
Proof. vm_compute. reflexivity. Qed.

Lemma requestOffset_after_proxied_chunks_witness :
  let upload := new_upload (5 * GiB) in
  let i := s3_of upload in
  let k := "test/01/23/0123456789abcdef" in
  s3 upload = Some i /\ chunked i = true /\
  uploadId i = None /\ key i = Some k /\
  example_s3 !! bucket example_assetstore = Some empty_bucket /\
  Forall (fun mp =>
            Boto.same_upload
              ("upload-" +:+ Py.str (initiated empty_bucket)) k mp = false)
    (multipart_uploads empty_bucket) /\
  0 < received upload + total_len ["hello "; "world"] /\
  @requestOffset example_lib "10.0.0.1" example_assetstore
    (session_upload
       (@session_after example_lib "10.0.0.1" example_assetstore
          (mkSession upload example_s3)
          (List.map ChunkFile ["hello "; "world"])))
  = Return (OffsetInt (received upload + total_len ["hello "; "world"])).
Proof.
  intros upload i k.
  assert (Hs3 : s3 upload = Some i) by (vm_compute; reflexivity).
  assert (Hchunked : chunked i = true) by (vm_compute; reflexivity).
  assert (Hid : uploadId i = None) by (vm_compute; reflexivity).
  assert (Hkey : key i = Some k) by (vm_compute; reflexivity).
  assert (Hb : example_s3 !! bucket example_assetstore = Some empty_bucket)
    by (vm_compute; reflexivity).
  assert (Hothers :
    Forall (fun mp =>
              Boto.same_upload
                ("upload-" +:+ Py.str (initiated empty_bucket)) k mp = false)
      (multipart_uploads empty_bucket)) by constructor.
  assert (Hpos : 0 < received upload + total_len ["hello "; "world"])
    by (vm_compute; reflexivity).
  do 7 (split; [assumption|]).
  exact (@requestOffset_after_proxied_chunks example_lib "10.0.0.1"
           example_assetstore upload i k "hello " ["world"] example_s3
           empty_bucket Hs3 Hchunked Hid Hkey Hb Hothers Hpos).
Defined.

Lemma direct_chunked_upload_witness :
  let upload := new_upload (5 * GiB) in
  let i := s3_of upload in
  let k := "test/01/23/0123456789abcdef" in
  let info := mkClientChunkInfo 1 "abc" in
  let headers := [("Content-Type", "text/plain;charset=UTF-8")] in
  0 < size upload /\ received upload <= 0 /\
  s3 upload = Some i /\ chunked i = true /\ key i = Some k /\
  uploadId i = None /\
  exists upload',
    @uploadChunk example_lib "10.0.0.1" example_assetstore upload
      (ChunkStr info) example_s3 = (Return upload', example_s3) /\
    received upload' = received upload /\
    @finalizeUpload example_lib example_assetstore upload' hello_file
      example_s3
    = (Return
         (mkFile (file_id hello_file) (file_name hello_file)
            (file_size hello_file) (itemId hello_file)
            (assetstoreId hello_file) (Some (relpath i)) (Some k)
            (Some false) (imported hello_file)
            (Some (mkRequest "POST"
                     (Some (@_botoGenerateUrl example_lib example_assetstore
                              k "POST" (Some headers)
                              (Some ("uploadId=" +:+ "abc"))))
                     (Some headers)))),
       example_s3) /\
    @finalizeUpload example_lib example_assetstore upload hello_file
      example_s3
    = (Raise (KeyError "uploadId"), example_s3).
Proof.
  intros upload i k info headers.
  assert (Hsize : 0 < size upload) by (vm_compute; reflexivity).
  assert (Hrec : received upload <= 0) by (vm_compute; discriminate).
  assert (Hs3 : s3 upload = Some i) by (vm_compute; reflexivity).
  assert (Hchunked : chunked i = true) by (vm_compute; reflexivity).
  assert (Hkey : key i = Some k) by (vm_compute; reflexivity).
  assert (Hid : uploadId i = None) by (vm_compute; reflexivity).
  do 6 (split; [assumption|]).
  destruct (@direct_chunked_upload example_lib "10.0.0.1" example_assetstore
              upload i k info hello_file example_s3
              Hsize Hrec Hs3 Hchunked Hkey)
    as (upload' & i' & Hrun & Hreceived & _ & _ & _ & _ & _ & _ & _ & Hfin
        & Hnone).
  exists upload'. split; [exact Hrun|]. split; [exact Hreceived|].
  split; [exact Hfin|exact (Hnone Hid)].
Defined.

Lemma own_upload_found_by_sweep_witness :
  let upload := example_upload 1024 in
  let mp := mkMultiPartUpload "id9" "test/01/23/0123456789abcdef" [] in
  let listing := ListingPage [mp] false ListingError in
  let b := mkBucket ∅ [mp] 1 in
  let w : S3 := {[ "b" := b ]} in
  0 < size upload /\ "0123456789abcdef" <> "" /\
  w !! bucket example_assetstore = Some b /\
  exists upload' i k sw b',
    @initUpload example_lib "10.0.0.1" example_assetstore "0123456789abcdef"
      upload w = (Return upload', w) /\
    s3 upload' = Some i /\ key i = Some k /\
    Py.startswith k (sweep_prefix example_assetstore) = true /\
    untrackedUploads example_assetstore listing example_known true w
    = (Return sw, <[bucket example_assetstore := b']> w) /\
    (mp_key_name mp = k ->
     In (untracked_of mp) (untrackedList sw) /\ In mp (cancelled sw) /\
     ~ In mp (multipart_uploads b')).
Proof.
  intros upload mp listing b w.
  assert (Hsize : 0 < size upload) by (vm_compute; reflexivity).
  assert (Huid : "0123456789abcdef" <> "") by discriminate.
  assert (Hb : w !! bucket example_assetstore = Some b)
    by (vm_compute; reflexivity).
  do 3 (split; [assumption|]).
  destruct (@own_upload_found_by_sweep example_lib "10.0.0.1"
              example_assetstore "0123456789abcdef" upload w
              b listing example_known true Hsize Huid Hb)
    as (upload' & i & k & sw & b' & Hinit & Hs3 & Hkey & _ & Hunder & Hsweep
        & _ & Hfound).
  exists upload', i, k, sw, b'. do 5 (split; [assumption|]).
  intros Hname.
  destruct (Hfound mp (or_introl eq_refl) Hname eq_refl) as [Hin Hdel].
  destruct (Hdel eq_refl) as [Hc Hgone].
  split; [exact Hin|]. split; [exact Hc|exact Hgone].
Defined.

Lemma makeBotoConnectParams_service_witness :
  well_formed "127.0.0.1" (Some "5000") /\
  exists connect,
    makeBotoConnectParams "access" "secret"
      (service_text Http "127.0.0.1" (Some "5000")) = Return connect /\
    host connect = Some "127.0.0.1" /\ port connect = Some (int "5000") /\
    is_secure connect = Some false.
Proof.
  assert (Hwf : well_formed "127.0.0.1" (Some "5000")).
  { split; [discriminate|]. split; [reflexivity|].
    split; [discriminate|reflexivity]. }
  split; [exact Hwf|].
  destruct (makeBotoConnectParams_service "access" "secret" Http
              "127.0.0.1" (Some "5000") Hwf)
    as (connect & Hrun & Hhost & Hport & Hsecure & _).
  exists connect. repeat split; assumption.
Defined.

Lemma validateInfo_returns_iff_witness :
  truthy (doc_bucket example_doc) = true /\
  truthy (doc_secret example_doc) = true /\
  truthy (doc_accessKeyId example_doc) = true /\
  service_form (default "" (doc_service example_doc)) /\
  is_Some (example_s3 !! default "" (doc_bucket example_doc)) /\
  exists doc' w', validateInfo example_doc example_s3 = (Return doc', w').
Proof.
  assert (Hbucket : truthy (doc_bucket example_doc) = true) by reflexivity.
  assert (Hsecret : truthy (doc_secret example_doc) = true) by reflexivity.
  assert (Hkey : truthy (doc_accessKeyId example_doc) = true)
    by reflexivity.
  assert (Hform : service_form (default "" (doc_service example_doc))).
  { exists Http, "127.0.0.1", (Some "5000"), "".
    split; [reflexivity|]. split; [|by left].
    split; [discriminate|]. split; [reflexivity|].
    split; [discriminate|reflexivity]. }
  assert (Hb : is_Some (example_s3 !! default "" (doc_bucket example_doc)))
    by (exists empty_bucket; vm_compute; reflexivity).
  do 5 (split; [assumption|]).
  exact (proj2 (validateInfo_returns_iff example_doc example_s3)
           (conj Hbucket
              (conj (or_intror (conj Hsecret Hkey))
                 (conj (ex_intro _ "access" eq_refl)
                    (conj (ex_intro _ "secret" eq_refl)
                       (conj (or_intror Hform) Hb)))))).
Defined.

Lemma validateInfo_effect_witness :
  let doc' := fst (validated example_doc example_s3) in
  let w' := snd (validated example_doc example_s3) in
  validateInfo example_doc example_s3 = (Return doc', w') /\
  doc_prefix doc' = Some "test" /\
  exists b,
    example_s3 !! "b" = Some b /\
    w' = <["b" := mkBucket (<["test/test" := ""]> (objects b))
                    (multipart_uploads b) (initiated b)]> example_s3.
Proof.
  intros doc' w'.
  assert (Hrun : validateInfo example_doc example_s3 = (Return doc', w'))
    by (vm_compute; reflexivity).
  split; [exact Hrun|].
  destruct (validateInfo_effect example_doc doc' example_s3 w' Hrun)
    as (prefix & Hprefix & Hstrip & _ & _ & _ & _ & _ & Hwrite).
  split; [rewrite Hprefix, Hstrip; reflexivity|].
  assert (Hrw : doc_readOnly example_doc <> Some true) by discriminate.
  destruct (Hwrite Hrw) as (b & Hb & Hw').
  exists b. split; [exact Hb|]. rewrite Hw', Hstrip. reflexivity.
Defined.

Lemma validated_connection_witness :
  let doc' := fst (validated anonymous_doc example_s3) in
  let w' := snd (validated anonymous_doc example_s3) in
  let assetstore := assetstore_of "as3" doc' in
  validateInfo anonymous_doc example_s3 = (Return doc', w') /\
  __init__ doc' = Return doc' /\
  is_anon assetstore = true /\ w' = example_s3 /\
  forall k,
    @urlFn example_lib assetstore k = _anonDownloadUrl assetstore k.
Proof.
  intros doc' w' assetstore.
  assert (Hrun : validateInfo anonymous_doc example_s3 = (Return doc', w'))
    by (vm_compute; reflexivity).
  split; [exact Hrun|].
  destruct (@validated_connection example_lib "as3" anonymous_doc doc'
              example_s3 w' Hrun) as (Hinit & Hiff & Hanon).
  split; [exact Hinit|].
  assert (His : is_anon assetstore = true)
    by exact (proj2 Hiff (or_introl eq_refl)).
  split; [exact His|]. destruct (Hanon His) as (_ & Hw & Hurl).
  split; [exact Hw|exact Hurl].
Defined.

Lemma service_with_trailing_slash_refused_witness :
  truthy (doc_bucket slash_doc) = true /\
  truthy (doc_secret slash_doc) = true /\
  truthy (doc_accessKeyId slash_doc) = true /\
  doc_service slash_doc = Some "https://s3.amazonaws.com/" /\
  Py.endswith "https://s3.amazonaws.com/" "/" = true /\
  validateInfo slash_doc example_s3
  = (Raise (ValidationException
              "The service must of the form [http[s]://](host domain)[:(port)]."
              (Some "service")), example_s3).
Proof.
  assert (Hbucket : truthy (doc_bucket slash_doc) = true) by reflexivity.
  assert (Hsecret : truthy (doc_secret slash_doc) = true) by reflexivity.
  assert (Hkey : truthy (doc_accessKeyId slash_doc) = true) by reflexivity.
  assert (Hservice : doc_service slash_doc
                     = Some "https://s3.amazonaws.com/") by reflexivity.
  assert (Hslash : Py.endswith "https://s3.amazonaws.com/" "/" = true)
    by reflexivity.
  do 5 (split; [assumption|]).
  exact (service_with_trailing_slash_refused slash_doc
           "https://s3.amazonaws.com/" example_s3 Hbucket
           (or_intror (conj Hsecret Hkey)) Hservice Hslash).
Defined.

Lemma importData_skips_placeholders_witness :
  Forall placeholder
    (@bucket_list placeholder_lib empty_bucket (listed_path " /foo") "/") /\
  exists st',
    @importData placeholder_lib example_assetstore 3 example_s3 0 "user"
      " /foo" true "admin" (Some empty_bucket) import_store
    = (Return tt, st') /\
    same_store st' import_store /\
    progress_messages st' = progress_messages import_store ++ ["foo/"].
Proof.
  assert (Hall : Forall placeholder
                   (@bucket_list placeholder_lib empty_bucket
                      (listed_path " /foo") "/")).
  { constructor; [|constructor]. exists "foo", 0. reflexivity. }
  split; [exact Hall|].
  exact (@importData_skips_placeholders placeholder_lib example_assetstore
           2 example_s3 0 "user" " /foo" true "admin" empty_bucket
           import_store Hall).
Defined.

Lemma importData_key_under_non_folder_witness :
  @bucket_list top_key_lib empty_bucket (listed_path "foo") "/"
  = [Key "foo/" 0] ++ Key "foo/a.txt" 3 :: [] /\
  Forall placeholder [Key "foo/" 0] /\
  Py.rsplit_last "/" "foo/a.txt" <> "" /\ "user" <> "folder" /\
  exists st',
    @importData top_key_lib example_assetstore 3 example_s3 0 "user" "foo"
      false "admin" (Some empty_bucket) import_store
    = (Raise (ValidationException
                ("Keys cannot be imported directly underneath a "
                 +:+ "user" +:+ ".") None), st') /\
    same_store st' import_store.
Proof.
  assert (Hlist : @bucket_list top_key_lib empty_bucket (listed_path "foo")
                    "/"
                  = [Key "foo/" 0] ++ Key "foo/a.txt" 3 :: [])
    by reflexivity.
  assert (Hskipped : Forall placeholder [Key "foo/" 0]).
  { constructor; [|constructor]. exists "foo", 0. reflexivity. }
  assert (Hname : Py.rsplit_last "/" "foo/a.txt" <> "") by discriminate.
  assert (Hparent : "user" <> "folder") by discriminate.
  do 4 (split; [assumption|]).
  exact (@importData_key_under_non_folder top_key_lib example_assetstore
           2 example_s3 0 "user" "foo" false "admin" empty_bucket
           import_store [Key "foo/" 0] [] "foo/a.txt" 3
           Hlist Hskipped Hname Hparent).
Defined.

(** The path listed is what Python makes of the path given: the blanks
    [strip] removes include the separator U+001F. *)
Example listed_path_unit_separator :
  listed_path (String (ascii_of_nat 31) "foo") = "foo/".
Proof. reflexivity. Qed.

Lemma cancel_after_proxied_chunks_witness :
  let upload := new_upload (5 * GiB) in
  let i := s3_of upload in
  let k := "test/01/23/0123456789abcdef" in
  let id := "upload-" +:+ Py.str (initiated empty_bucket) in
  let listing :=
    ListingPage [mkMultiPartUpload "upload-0" k []] false ListingError in
  let st :=
    @session_after example_lib "10.0.0.1" example_assetstore
      (mkSession upload example_s3)
      (List.map ChunkFile ["hello "; "world"]) in
  s3 upload = Some i /\ chunked i = true /\
  uploadId i = None /\ key i = Some k /\
  example_s3 !! bucket example_assetstore = Some empty_bucket /\
  Forall (fun mp => Boto.same_upload id k mp = false)
    (multipart_uploads empty_bucket) /\
  existsb (Boto.same_upload id k) (visited listing) = true /\
  cancelUpload example_assetstore listing (session_upload st) (session_s3 st)
  = (Return (List.filter (Boto.same_upload id k) (visited listing)),
     <[bucket example_assetstore :=
         mkBucket (delete k (objects empty_bucket))
           (multipart_uploads empty_bucket) (initiated empty_bucket + 1)]>
       example_s3).
Proof.
  intros upload i k id listing st.
  assert (Hs3 : s3 upload = Some i) by (vm_compute; reflexivity).
  assert (Hchunked : chunked i = true) by (vm_compute; reflexivity).
  assert (Hid : uploadId i = None) by (vm_compute; reflexivity).
  assert (Hkey : key i = Some k) by (vm_compute; reflexivity).
  assert (Hb : example_s3 !! bucket example_assetstore = Some empty_bucket)
    by (vm_compute; reflexivity).
  assert (Hothers : Forall (fun mp => Boto.same_upload id k mp = false)
                      (multipart_uploads empty_bucket)) by constructor.
  assert (Hshown : existsb (Boto.same_upload id k) (visited listing) = true)
    by (vm_compute; reflexivity).
  do 7 (split; [assumption|]).
  exact (proj2 (@cancel_after_proxied_chunks example_lib "10.0.0.1"
                  example_assetstore upload i k "hello " ["world"] example_s3
                  empty_bucket listing
                  Hs3 Hchunked Hid Hkey Hb Hothers Hshown)).
Defined.
